(** * Inventory reconciliation for Sage X3 extracts: a shallow embedding

    The development follows the Python backend file by file:
    - [backend/services/file_processor.py]  reading of the extract, lot
                                            classification, inventory date,
                                            aggregation and template,
    - [backend/app.py]                      number formatting, discrepancy
                                            calculation, FIFO/LIFO
                                            distribution, session
                                            statistics, regeneration of
                                            the final file,
    - [backend/services/lotecart_processor.py]  found stock (LOTECART), its
                                            summary and the validation of
                                            the final file.

    Conventions of the model.
    - Quantities are Python floats in the source.  Every finite float is a
      rational number, and the model computes on [Q] with exact arithmetic;
      comparisons are the decidable ones of [QArith].  Round-off, NaN and
      the infinities are outside the model.
    - pandas DataFrames are lists of records in row order; a column that a
      row does not carry (NaN after a concat) is an [option].
    - Text is a sequence of ASCII characters; [\d], [strip()] and [lower()]
      are read on ASCII.
    - the logger is an explicit list of events returned with the result;
      the tables of the session store are a record passed in and out.
    - [float(s)], [int(s)] and the configured site allow-list are not part
      of the modelled files: the definitions take them as arguments.
    - a file is the list of its lines, as the iteration over it yields
      them; the column layout of the extract comes from the configuration
      and is an argument too. *)

From Stdlib Require Import QArith Qabs Qround Lqa ZArith Lia.
From Stdlib Require Import List Ascii String Bool Sorting.Permutation.
From Stdlib Require Import DecimalString DecimalZ.
From stdpp Require Import gmap strings list fin_maps.
Import ListNotations.

Local Open Scope string_scope.

(* ===================================================================== *)
(** * Part I: definitions                                                 *)
(* ===================================================================== *)

(** ** Numbers *)

(** [a > b] on floats. *)
Definition Qgt_bool (a b : Q) : bool := negb (Qle_bool a b).

(** [sum()] of a numeric column. *)
Definition Qsum (l : list Q) : Q := fold_left Qplus l 0%Q.

(** ** Data model *)

(** [datetime(year, month, day)] as stored in the [Date_Lot] column. *)
Record Date : Type := mkDate { d_year : Z; d_month : Z; d_day : Z }.

Definition date_compare (a b : Date) : comparison :=
  match (d_year a ?= d_year b)%Z with
  | Eq => match (d_month a ?= d_month b)%Z with
          | Eq => (d_day a ?= d_day b)%Z
          | c => c
          end
  | c => c
  end.

(** The values taken by the [Type_Lot] / [TYPE_LOT] column. *)
Inductive LotType : Type := type1 | type2 | lotecart | unknown.

Definition LotType_eqb (a b : LotType) : bool :=
  match a, b with
  | type1, type1 | type2, type2 | lotecart, lotecart | unknown, unknown => true
  | _, _ => false
  end.

(** One row of [original_df], the parsed [S;] lines. *)
Module Orig.
Record Row : Type := mkRow {
  CODE_ARTICLE : string;
  NUMERO_INVENTAIRE : string;
  NUMERO_LOT : string;
  QUANTITE : Q;
  STATUT : string;
  UNITE : string;
  ZONE_PK : string;
  EMPLACEMENT : string;
  Date_Lot : option Date;
  Type_Lot : LotType;
  original_s_line_raw : string
}.
End Orig.

(** One row of the completed template. A quantity cell is a number, a text
    or empty. *)
Inductive Cell : Type :=
| CNum (q : Q)
| CText (s : string)
| CNaN.

Module Tpl.
Record Row : Type := mkRow {
  Code_Article : string;
  Numero_Inventaire : string;
  Quantite_Theorique : Cell;
  Quantite_Reelle : Cell;
  Emplacements : option string
}.
End Tpl.

(** One row of [discrepancies_df] and of [distributed_df].  The last four
    columns exist only once [distribute_discrepancies] has run; the flags
    and [reference_line] are only carried by LOTECART adjustments, the four
    location columns only by rows that come from the distribution. *)
Record Row : Type := mkRow {
  CODE_ARTICLE : string;
  NUMERO_INVENTAIRE : string;
  NUMERO_LOT : string;
  TYPE_LOT : LotType;
  QUANTITE_ORIGINALE : Q;
  QUANTITE_REELLE_SAISIE_TOTALE : Q;
  AJUSTEMENT : Q;
  QUANTITE_CORRIGEE : Q;
  Date_Lot : option Date;
  original_s_line_raw : option string;
  STATUT : string;
  UNITE : string;
  ZONE_PK : string;
  EMPLACEMENT : string;
  QUANTITE_REELLE_SAISIE : option Q;
  reference_line : option string;
  is_new_lotecart : option bool;
  is_existing_update : option bool
}.

(** [distributed_row = lot_row.copy()] followed by the three assignments
    of the loop body. *)
Definition set_distribution (lot_row : Row) (ajustement corrigee saisie : Q) : Row :=
  {| CODE_ARTICLE := CODE_ARTICLE lot_row;
     NUMERO_INVENTAIRE := NUMERO_INVENTAIRE lot_row;
     NUMERO_LOT := NUMERO_LOT lot_row;
     TYPE_LOT := TYPE_LOT lot_row;
     QUANTITE_ORIGINALE := QUANTITE_ORIGINALE lot_row;
     QUANTITE_REELLE_SAISIE_TOTALE := QUANTITE_REELLE_SAISIE_TOTALE lot_row;
     AJUSTEMENT := ajustement;
     QUANTITE_CORRIGEE := corrigee;
     Date_Lot := Date_Lot lot_row;
     original_s_line_raw := original_s_line_raw lot_row;
     STATUT := STATUT lot_row;
     UNITE := UNITE lot_row;
     ZONE_PK := ZONE_PK lot_row;
     EMPLACEMENT := EMPLACEMENT lot_row;
     QUANTITE_REELLE_SAISIE := Some saisie;
     reference_line := reference_line lot_row;
     is_new_lotecart := is_new_lotecart lot_row;
     is_existing_update := is_existing_update lot_row |}.

(** Events written to the logger that the properties below refer to. *)
Inductive LogEvent : Type :=
| WarnResidual (code_article : string) (ecart_restant : Q)
| WarnNoReference (code_article : string).

(** ** Distribution engine ([InventoryProcessor.distribute_discrepancies]) *)

Inductive Strategy : Type := FIFO | LIFO | OtherStrategy.

(** Sort key [(Date_Lot, NUMERO_LOT)] in ascending order, a missing date
    after every date ([na_position='last']). *)
Definition date_key_compare (a b : option Date) : comparison :=
  match a, b with
  | Some x, Some y => date_compare x y
  | Some _, None => Lt
  | None, Some _ => Gt
  | None, None => Eq
  end.

Definition fifo_compare (a b : Row) : comparison :=
  match date_key_compare (Date_Lot a) (Date_Lot b) with
  | Eq => String.compare (NUMERO_LOT a) (NUMERO_LOT b)
  | c => c
  end.

(** [a] may stay in front of [b]. *)
Definition fifo_le (a b : Row) : bool :=
  match fifo_compare a b with Gt => false | _ => true end.

(** Both keys descending, missing dates first: the mirrored comparison. *)
Definition lifo_le (a b : Row) : bool := fifo_le b a.

(** [sort_values] is stable: rows with equal keys keep their order. *)
Fixpoint insert_sorted (le : Row -> Row -> bool) (x : Row) (l : list Row) : list Row :=
  match l with
  | [] => [x]
  | y :: l' => if le x y then x :: y :: l' else y :: insert_sorted le x l'
  end.

Fixpoint sort_values (le : Row -> Row -> bool) (l : list Row) : list Row :=
  match l with
  | [] => []
  | x :: l' => insert_sorted le x (sort_values le l')
  end.

Definition sort_for (strategy : Strategy) (group : list Row) : list Row :=
  match strategy with
  | FIFO => sort_values fifo_le group
  | LIFO => sort_values lifo_le group
  | OtherStrategy => group
  end.

(** [group['QUANTITE_ORIGINALE'].sum()]. *)
Definition quantite_originale_totale (group : list Row) : Q :=
  Qsum (map QUANTITE_ORIGINALE group).

(** [group['QUANTITE_REELLE_SAISIE_TOTALE'].iloc[0]]; a group of [groupby]
    is never empty. *)
Definition quantite_reelle_saisie (group : list Row) : Q :=
  match group with
  | r :: _ => QUANTITE_REELLE_SAISIE_TOTALE r
  | [] => 0%Q
  end.

Definition ecart_total (group : list Row) : Q :=
  (quantite_reelle_saisie group - quantite_originale_totale group)%Q.

(** The body of the loop over the sorted lots: the distributed row and the
    new value of [ecart_restant]. *)
Definition distribute_lot (saisie : Q) (idx : nat) (ecart_restant : Q) (lot_row : Row)
  : Row * Q :=
  let quantite_originale_lot := QUANTITE_ORIGINALE lot_row in
  if Qeq_bool ecart_restant 0 then
    (set_distribution lot_row 0 quantite_originale_lot saisie, ecart_restant)
  else if Qgt_bool ecart_restant 0 then
    if Nat.eqb idx 0 then
      (set_distribution lot_row ecart_restant (quantite_originale_lot + ecart_restant) saisie,
       0%Q)
    else
      (set_distribution lot_row 0 quantite_originale_lot saisie, ecart_restant)
  else
    if Qle_bool quantite_originale_lot (Qabs ecart_restant) then
      (set_distribution lot_row (- quantite_originale_lot) 0 saisie,
       (ecart_restant + quantite_originale_lot)%Q)
    else
      (set_distribution lot_row ecart_restant (quantite_originale_lot + ecart_restant) saisie,
       0%Q).

(** [for idx, (row_index, lot_row) in enumerate(sorted_group.iterrows())]. *)
Fixpoint distribute_loop (saisie : Q) (idx : nat) (ecart_restant : Q) (lots : list Row)
  : list Row * Q :=
  match lots with
  | [] => ([], ecart_restant)
  | lot_row :: rest =>
      let '(distributed_row, ecart_restant') := distribute_lot saisie idx ecart_restant lot_row in
      let '(rows, final) := distribute_loop saisie (S idx) ecart_restant' rest in
      (distributed_row :: rows, final)
  end.

(** The three outcomes of the loop body for a lot, and the value of
    [ecart_restant] once the lots of [drained] have been taken in full. *)
Definition unchanged (saisie : Q) (lot_row : Row) : Row :=
  set_distribution lot_row 0 (QUANTITE_ORIGINALE lot_row) saisie.

Definition zeroed (saisie : Q) (lot_row : Row) : Row :=
  set_distribution lot_row (- QUANTITE_ORIGINALE lot_row) 0 saisie.

Definition absorbs (saisie amount : Q) (lot_row : Row) : Row :=
  set_distribution lot_row amount (QUANTITE_ORIGINALE lot_row + amount) saisie.


(** Tolerance of the final check, [0.01]. *)
Definition residual_tolerance : Q := (1 # 100)%Q.

(** One iteration of the loop over the groups: the rows appended to
    [distributed_rows] and the warnings logged. *)
Definition distribute_group (strategy : Strategy) (code_article : string) (group : list Row)
  : list Row * list LogEvent :=
  let sorted_group := sort_for strategy group in
  let '(rows, ecart_restant) :=
    distribute_loop (quantite_reelle_saisie group) 0 (ecart_total group) sorted_group in
  let log :=
    if Qgt_bool (Qabs ecart_restant) residual_tolerance
    then [WarnResidual code_article ecart_restant] else [] in
  (rows, log).

(** ** Python strings *)

(** The ASCII characters that [str.strip()] removes. *)
Definition is_py_space (c : ascii) : bool :=
  let n := nat_of_ascii c in
  ((9 <=? n)%nat && (n <=? 13)%nat) || ((28 <=? n)%nat && (n <=? 32)%nat).

Fixpoint lstrip_with (f : ascii -> bool) (s : string) : string :=
  match s with
  | EmptyString => EmptyString
  | String c s' => if f c then lstrip_with f s' else s
  end.

Fixpoint rstrip_with (f : ascii -> bool) (s : string) : string :=
  match s with
  | EmptyString => EmptyString
  | String c s' =>
      match rstrip_with f s' with
      | EmptyString => if f c then EmptyString else String c EmptyString
      | t => String c t
      end
  end.

(** [s.strip()]. *)
Definition py_strip (s : string) : string :=
  rstrip_with is_py_space (lstrip_with is_py_space s).

(** [s.rstrip(c)] for a single character [c]. *)
Definition rstrip_char (c : ascii) (s : string) : string :=
  rstrip_with (Ascii.eqb c) s.

(** [s.replace(a, b)] for single characters. *)
Fixpoint replace_char (a b : ascii) (s : string) : string :=
  match s with
  | EmptyString => EmptyString
  | String c s' => String (if Ascii.eqb c a then b else c) (replace_char a b s')
  end.

(** [c in s]. *)
Fixpoint contains_char (c : ascii) (s : string) : bool :=
  match s with
  | EmptyString => false
  | String c' s' => Ascii.eqb c' c || contains_char c s'
  end.

(** [s.split(sep)] for a single character separator. *)
Fixpoint split (sep : ascii) (s : string) : list string :=
  match s with
  | EmptyString => [EmptyString]
  | String c s' =>
      if Ascii.eqb c sep then EmptyString :: split sep s'
      else match split sep s' with
           | [] => [String c EmptyString]
           | field :: fields => String c field :: fields
           end
  end.

(** [sep.join(parts)]. *)
Fixpoint join (sep : string) (parts : list string) : string :=
  match parts with
  | [] => EmptyString
  | [x] => x
  | x :: rest => x ++ sep ++ join sep rest
  end.

(** The last character of a text. *)
Fixpoint last_char (s : string) : option ascii :=
  match s with
  | EmptyString => None
  | String c EmptyString => Some c
  | String _ s' => last_char s'
  end.

(** A field that can be written between separators of a record. *)
Definition no_sep (field : string) : Prop := contains_char ";" field = false.

(** ASCII [s.lower()]. *)
Definition lower_char (c : ascii) : ascii :=
  let n := nat_of_ascii c in
  if ((65 <=? n)%nat && (n <=? 90)%nat) then ascii_of_nat (n + 32) else c.

Fixpoint py_lower (s : string) : string :=
  match s with
  | EmptyString => EmptyString
  | String c s' => String (lower_char c) (py_lower s')
  end.

(** [str(n)] for an [int]. *)
Definition py_str_int (n : Z) : string := NilZero.string_of_int (Z.to_int n).

(** ** Number formatting ([_format_number], [_to_csv_number]) *)

(** A value handed to [_format_number]: a number or a text. *)
Inductive PyVal : Type :=
| VNum (f : Q)
| VStr (s : string).

(** The integer nearest to [q], ties to the even one: the rounding of
    [f"{f:.6f}"]. *)
Definition round_half_even (q : Q) : Z :=
  let fl := Qfloor q in
  match Qcompare (q - inject_Z fl) (1 # 2) with
  | Lt => fl
  | Gt => (fl + 1)%Z
  | Eq => if Z.even fl then fl else (fl + 1)%Z
  end.

Definition digit_char (d : Z) : ascii := ascii_of_nat (48 + Z.to_nat d).

(** The last [k] decimal digits of [n], most significant first. *)
Fixpoint fixed_digits (k : nat) (n : Z) : string :=
  match k with
  | O => EmptyString
  | S k' => fixed_digits k' (n / 10) ++ String (digit_char (n mod 10)) EmptyString
  end.

(** The sign that [format_fixed] writes. *)
Definition sign_text (f : Q) : string := if Qgt_bool 0 f then "-" else "".

(** [f"{f:.{precision}f}"]: sign, integer digits, a point and [precision]
    decimals. *)
Definition format_fixed (precision : nat) (f : Q) : string :=
  let scale := (10 ^ Z.of_nat precision)%Z in
  let n := round_half_even (Qabs f * inject_Z scale) in
  sign_text f
  ++ py_str_int (n / scale)
  ++ (match precision with
      | O => ""
      | _ => "." ++ fixed_digits precision (n mod scale)
      end).

(** The decimals that remain of the fractional digits [frac] once the
    trailing zeros, and the point if nothing follows it, are removed. *)
Definition significant_decimals (precision : nat) (frac : Z) : string :=
  match rstrip_char "0" (fixed_digits precision frac) with
  | EmptyString => EmptyString
  | decimals => "." ++ decimals
  end.

(** [self._decimal_precision], [self._zero_epsilon]. *)
Definition _decimal_precision : nat := 6.
Definition _zero_epsilon : Q := (1 # 1000000000)%Q.

(** [_format_number] is written twice, with the same body, in
    [InventoryProcessor] and in [LotecartProcessor]; [py_float] stands for
    Python's [float(s)], [None] for a raised [ValueError]. *)
Definition _format_number (py_float : string -> option Q) (value : PyVal) : string :=
  let parsed :=
    match value with
    | VStr v =>
        let s := replace_char "," "." (py_strip v) in
        match py_float s with
        | Some f => inr f
        | None => inl s
        end
    | VNum f => inr f
    end in
  match parsed with
  | inl s => s
  | inr f =>
      let fmt := format_fixed _decimal_precision f in
      let fmt := if contains_char "." fmt
                 then rstrip_char "." (rstrip_char "0" fmt) else fmt in
      if String.eqb fmt "" then "0" else fmt
  end.

(** [_to_csv_number(value, decimal_sep)]. *)
Definition _to_csv_number (py_float : string -> option Q) (value : PyVal)
    (decimal_sep : string) : string :=
  let s := _format_number py_float value in
  if String.eqb decimal_sep "," then replace_char "." "," s else s.

(** A parser for plain decimal literals ([12], [-0.5], [12.50], [.5]),
    the part of Python's [float] grammar that quantities of the business
    files use; it is the instance at which the examples are evaluated. *)
Definition is_digit (c : ascii) : bool :=
  let n := nat_of_ascii c in (48 <=? n)%nat && (n <=? 57)%nat.

Fixpoint digits_value (acc : Z) (s : string) : option Z :=
  match s with
  | EmptyString => Some acc
  | String c s' =>
      if is_digit c
      then digits_value (10 * acc + Z.of_nat (nat_of_ascii c - 48)) s'
      else None
  end.

Fixpoint split_at_point (s : string) : string * option string :=
  match s with
  | EmptyString => (EmptyString, None)
  | String c s' =>
      if Ascii.eqb c "." then (EmptyString, Some s')
      else let '(a, b) := split_at_point s' in (String c a, b)
  end.

Definition decimal_literal (s : string) : option Q :=
  let '(negative, body) :=
    match s with
    | String "-" s' => (true, s')
    | String "+" s' => (false, s')
    | _ => (false, s)
    end in
  let '(int_part, frac) := split_at_point body in
  let frac_part := match frac with Some f => f | None => EmptyString end in
  if ((String.length int_part + String.length frac_part)%nat =? 0)%nat then None
  else
    match digits_value 0 int_part, digits_value 0 frac_part with
    | Some i, Some f =>
        let q := (inject_Z i + inject_Z f / inject_Z (10 ^ Z.of_nat (String.length frac_part)))%Q in
        Some (Qred (if negative then - q else q))
    | _, _ => None
    end.

(** ** Lot classifier ([FileProcessorService._extract_date_from_lot]) *)

(** [[A-Z0-9]] and [\d] on ASCII text. *)
Definition is_upper_or_digit (c : ascii) : bool :=
  let n := nat_of_ascii c in
  ((65 <=? n)%nat && (n <=? 90)%nat) || is_digit c.

Fixpoint string_forallb (f : ascii -> bool) (s : string) : bool :=
  match s with
  | EmptyString => true
  | String c s' => f c && string_forallb f s'
  end.

(** [$] of [re.match]: the end of the text, or just before a final
    newline. *)
Definition at_regex_end (rest : string) : bool :=
  String.eqb rest "" || String.eqb rest (String (ascii_of_nat 10) "").

(** A group [[class]{n}] of a pattern: the [n] characters it consumes, all
    of the class, and the text that follows. *)
Fixpoint take_class (f : ascii -> bool) (n : nat) (s : string) : option (string * string) :=
  match n with
  | O => Some (EmptyString, s)
  | S n' =>
      match s with
      | EmptyString => None
      | String c s' =>
          if f c then
            match take_class f n' s' with
            | Some (group, rest) => Some (String c group, rest)
            | None => None
            end
          else None
      end
  end.

(** A literal prefix of a pattern: the text that follows it. *)
Fixpoint take_literal (literal s : string) : option string :=
  match literal with
  | EmptyString => Some s
  | String c literal' =>
      match s with
      | EmptyString => None
      | String c' s' => if Ascii.eqb c' c then take_literal literal' s' else None
      end
  end.

(** [re.match(r"^([A-Z0-9]{5})(\d{6})([A-Z0-9]{4})$", lot_str)]: the three
    groups when the text has the type-1 shape. *)
Definition match_type1 (lot_str : string) : option (string * string * string) :=
  match take_class is_upper_or_digit 5 lot_str with
  | Some (site_code, rest) =>
      match take_class is_digit 6 rest with
      | Some (date_part, rest) =>
          match take_class is_upper_or_digit 4 rest with
          | Some (suffix, rest) =>
              if at_regex_end rest then Some (site_code, date_part, suffix) else None
          | None => None
          end
      | None => None
      end
  | None => None
  end.

(** [re.match(r"^LOT(\d{6})$", lot_str)]. *)
Definition match_type2 (lot_str : string) : option string :=
  match take_literal "LOT" lot_str with
  | Some rest =>
      match take_class is_digit 6 rest with
      | Some (date_part, rest) => if at_regex_end rest then Some date_part else None
      | None => None
      end
  | None => None
  end.

(** The two shapes of a lot number, on a trimmed text. *)
Definition type1_shape (lot_str site_code date_part suffix : string) : Prop :=
  lot_str = site_code ++ date_part ++ suffix
  /\ String.length site_code = 5%nat /\ string_forallb is_upper_or_digit site_code = true
  /\ String.length date_part = 6%nat /\ string_forallb is_digit date_part = true
  /\ String.length suffix = 4%nat /\ string_forallb is_upper_or_digit suffix = true.

Definition type2_shape (lot_str date_part : string) : Prop :=
  lot_str = "LOT" ++ date_part
  /\ String.length date_part = 6%nat /\ string_forallb is_digit date_part = true.

(** [int(s)] on a text of ASCII digits. *)
Definition int_of_digits (s : string) : Z :=
  match digits_value 0 s with Some n => n | None => 0%Z end.

Definition is_leap_year (y : Z) : bool :=
  ((y mod 4 =? 0)%Z && negb (y mod 100 =? 0)%Z) || (y mod 400 =? 0)%Z.

Definition days_in_month (y m : Z) : Z :=
  if (m =? 2)%Z then (if is_leap_year y then 29 else 28)%Z
  else if ((m =? 4) || (m =? 6) || (m =? 9) || (m =? 11))%Z then 30%Z
  else 31%Z.

(** [datetime(year, month, day)]: [None] stands for the [ValueError] of a
    date that is not in the calendar. *)
Definition datetime (year month day : Z) : option Date :=
  if ((1 <=? year) && (year <=? 9999) && (1 <=? month) && (month <=? 12)
      && (1 <=? day) && (day <=? days_in_month year month))%Z
  then Some (mkDate year month day)
  else None.

(** [_extract_date_from_lot]; [None] as argument is a missing value
    ([pd.isna]), [PRIORITY1_SITE_CODES] comes from the configuration. *)
Definition _extract_date_from_lot (PRIORITY1_SITE_CODES : list string)
    (lot_number : option string) : option Date * LotType :=
  match lot_number with
  | None => (None, unknown)
  | Some lot =>
      let lot_str := py_strip lot in
      match match_type1 lot_str with
      | Some (site_code, date_part, suffix) =>
          if negb (existsb (String.eqb site_code) PRIORITY1_SITE_CODES)
          then (None, unknown)
          else
            let day := int_of_digits (substring 0 2 date_part) in
            let month := int_of_digits (substring 2 2 date_part) in
            let year := (int_of_digits (substring 4 2 date_part) + 2000)%Z in
            if negb ((1 <=? day) && (day <=? 31) && (1 <=? month) && (month <=? 12))%Z
            then (None, type1)
            else
              match datetime year month day with
              | Some d => (Some d, type1)
              | None => (None, type1)
              end
      | None =>
          match match_type2 lot_str with
          | Some _ => (None, type2)
          | None => (None, unknown)
          end
      end
  end.

(** ** Errors *)

(** A call either returns or raises [ValueError(msg)]. *)
Inductive Result (A : Type) : Type :=
| Ok (a : A)
| Raise (msg : string).
Arguments Ok {A} a.
Arguments Raise {A} msg.

(** ** Discrepancy calculator ([InventoryProcessor._calculate_discrepancies]) *)

(** [real_quantities_dict]: the last template row of an (article,
    inventory) pair wins. *)
Definition real_quantities_dict (completed : list Tpl.Row) : gmap (string * string) Cell :=
  fold_left
    (fun d row => <[(Tpl.Code_Article row, Tpl.Numero_Inventaire row) := Tpl.Quantite_Reelle row]> d)
    completed ∅.

(** The counted quantity as a number.  The code keeps the cell of the
    template as it is in [real_quantities_dict] and in the column
    [QUANTITE_REELLE_SAISIE_TOTALE]: with a text the subtraction in
    [distribute_discrepancies] raises [TypeError], with an empty cell (NaN)
    the adjustments of the group are NaN.  The tables of this development
    hold rational quantities, so a table with such a cell is not
    represented: [None]. *)
Definition cell_number (c : Cell) : option Q :=
  match c with
  | CNum q => Some q
  | _ => None
  end.

Definition discrepancy_row (original_row : Orig.Row) (quantite_reelle_saisie : Q) : Row :=
  {| CODE_ARTICLE := Orig.CODE_ARTICLE original_row;
     NUMERO_INVENTAIRE := Orig.NUMERO_INVENTAIRE original_row;
     NUMERO_LOT := py_strip (Orig.NUMERO_LOT original_row);
     TYPE_LOT := Orig.Type_Lot original_row;
     QUANTITE_ORIGINALE := Orig.QUANTITE original_row;
     QUANTITE_REELLE_SAISIE_TOTALE := quantite_reelle_saisie;
     AJUSTEMENT := 0;
     QUANTITE_CORRIGEE := Orig.QUANTITE original_row;
     Date_Lot := Orig.Date_Lot original_row;
     original_s_line_raw := Some (Orig.original_s_line_raw original_row);
     STATUT := Orig.STATUT original_row;
     UNITE := Orig.UNITE original_row;
     ZONE_PK := Orig.ZONE_PK original_row;
     EMPLACEMENT := Orig.EMPLACEMENT original_row;
     QUANTITE_REELLE_SAISIE := None;
     reference_line := None;
     is_new_lotecart := None;
     is_existing_update := None |}.

Fixpoint _calculate_discrepancies_rows (d : gmap (string * string) Cell)
    (original : list Orig.Row) : option (list Row) :=
  match original with
  | [] => Some []
  | original_row :: rest =>
      let key := (Orig.CODE_ARTICLE original_row, Orig.NUMERO_INVENTAIRE original_row) in
      match cell_number (default (CNum 0) (d !! key)),
            _calculate_discrepancies_rows d rest with
      | Some q, Some rows => Some (discrepancy_row original_row q :: rows)
      | _, _ => None
      end
  end.

Definition _calculate_discrepancies (completed : list Tpl.Row) (original : list Orig.Row)
  : option (list Row) :=
  _calculate_discrepancies_rows (real_quantities_dict completed) original.

(** ** Grouping ([discrepancies_df.groupby([...])]) *)

Definition GroupKey : Type := string * string * string * string * string * string.

Definition group_key (r : Row) : GroupKey :=
  (CODE_ARTICLE r, NUMERO_INVENTAIRE r, STATUT r, UNITE r, ZONE_PK r, EMPLACEMENT r).

(** The [code_article] of the unpacked group key. *)
Definition key_article (key : GroupKey) : string := fst (fst (fst (fst (fst key)))).

Definition lex (c : comparison) (d : comparison) : comparison :=
  match c with Eq => d | _ => c end.

Definition group_key_compare (a b : GroupKey) : comparison :=
  let '(a1, a2, a3, a4, a5, a6) := a in
  let '(b1, b2, b3, b4, b5, b6) := b in
  lex (String.compare a1 b1) (lex (String.compare a2 b2) (lex (String.compare a3 b3)
  (lex (String.compare a4 b4) (lex (String.compare a5 b5) (String.compare a6 b6))))).

(** Keys in ascending order, each once. *)
Fixpoint insert_key (k : GroupKey) (keys : list GroupKey) : list GroupKey :=
  match keys with
  | [] => [k]
  | k' :: rest =>
      match group_key_compare k k' with
      | Lt => k :: keys
      | Eq => keys
      | Gt => k' :: insert_key k rest
      end
  end.

Definition group_keys (df : list Row) : list GroupKey :=
  fold_right insert_key [] (map group_key df).

(** The groups in key order, the rows of a group in the order of [df].
    The six key columns are texts here; a row with a missing key value,
    which [groupby] would leave out, does not arise. *)
Definition groupby (df : list Row) : list (GroupKey * list Row) :=
  map (fun k => (k, List.filter (fun r => bool_decide (group_key r = k)) df))
      (group_keys df).

(** ** Found stock ([LotecartProcessor]) *)

(** The two bytes of a no-break space in UTF-8 text. *)
Fixpoint remove_nbsp (s : string) : string :=
  match s with
  | String c1 ((String c2 s'') as s') =>
      if ((nat_of_ascii c1 =? 194) && (nat_of_ascii c2 =? 160))%nat
      then remove_nbsp s''
      else String c1 (remove_nbsp s')
  | _ => s
  end.

Fixpoint remove_char (a : ascii) (s : string) : string :=
  match s with
  | EmptyString => EmptyString
  | String c s' => if Ascii.eqb c a then remove_char a s' else String c (remove_char a s')
  end.

(** The cleaning of a quantity column:
    [pd.to_numeric(col.astype(str)...replace..., errors="coerce").fillna(0)];
    [to_numeric] is the conversion of one text, [None] where it is
    coerced to NaN. *)
Definition clean_quantity (to_numeric : string -> option Q) (c : Cell) : Q :=
  match c with
  | CNum q => q
  | CText s =>
      default 0%Q (to_numeric (replace_char "," "." (remove_char " " (remove_nbsp s))))
  | CNaN => 0%Q
  end.

(** A row of [df_clean]: the template row with its two quantity columns
    converted. *)
Record Candidate : Type := mkCandidate {
  cand_row : Tpl.Row;
  cand_Quantite_Theorique : Q;
  cand_Quantite_Reelle : Q
}.

Definition clean_row (to_numeric : string -> option Q) (row : Tpl.Row) : Candidate :=
  {| cand_row := row;
     cand_Quantite_Theorique := clean_quantity to_numeric (Tpl.Quantite_Theorique row);
     cand_Quantite_Reelle := clean_quantity to_numeric (Tpl.Quantite_Reelle row) |}.

(** The LOTECART criterion, [(theo == 0) & (reelle > 0)]. *)
Definition lotecart_mask (row : Candidate) : bool :=
  Qeq_bool (cand_Quantite_Theorique row) 0 && Qgt_bool (cand_Quantite_Reelle row) 0.

(** [detect_lotecart_candidates]. *)
Definition detect_lotecart_candidates (to_numeric : string -> option Q)
    (completed : list Tpl.Row) : list Candidate :=
  let df_clean := map (clean_row to_numeric) completed in
  List.filter lotecart_mask df_clean.

(** An adjustment dictionary, as the row it becomes in [distributed_df].
    The columns that an adjustment does not carry are not read again. *)
Definition lotecart_adjustment (code_article numero_inventaire numero_lot : string)
    (quantite_reelle : Q) (date_lot : option Date) (raw reference : option string)
    (is_new : bool) : Row :=
  {| CODE_ARTICLE := code_article;
     NUMERO_INVENTAIRE := numero_inventaire;
     NUMERO_LOT := numero_lot;
     TYPE_LOT := lotecart;
     QUANTITE_ORIGINALE := 0;
     QUANTITE_REELLE_SAISIE_TOTALE := 0;
     AJUSTEMENT := quantite_reelle;
     QUANTITE_CORRIGEE := quantite_reelle;
     Date_Lot := date_lot;
     original_s_line_raw := raw;
     STATUT := "";
     UNITE := "";
     ZONE_PK := "";
     EMPLACEMENT := "";
     QUANTITE_REELLE_SAISIE := None;
     reference_line := reference;
     is_new_lotecart := Some is_new;
     is_existing_update := Some (negb is_new) |}.

(** The two selections on [original_df]: a line of the article and of the
    inventory with quantity zero, and a line of the article (and of the
    inventory when the candidate has one). *)
Definition is_zero_qty_line (code_article numero_inventaire : string) (r : Orig.Row) : bool :=
  String.eqb (Orig.CODE_ARTICLE r) code_article
  && String.eqb (Orig.NUMERO_INVENTAIRE r) numero_inventaire
  && Qeq_bool (Orig.QUANTITE r) 0.

Definition is_reference_lot (code_article numero_inventaire : string) (r : Orig.Row) : bool :=
  String.eqb (Orig.CODE_ARTICLE r) code_article
  && (String.eqb numero_inventaire ""
      || String.eqb (Orig.NUMERO_INVENTAIRE r) numero_inventaire).

(** The body of the loop of [create_lotecart_adjustments] for one
    candidate: the adjustment, if any, and what is logged. *)
Definition create_lotecart_adjustment (original : list Orig.Row) (candidate : Candidate)
  : option Row * list LogEvent :=
  let code_article := Tpl.Code_Article (cand_row candidate) in
  let numero_inventaire := Tpl.Numero_Inventaire (cand_row candidate) in
  let quantite_reelle := cand_Quantite_Reelle candidate in
  let existing_zero_qty_line :=
    List.filter (is_zero_qty_line code_article numero_inventaire) original in
  match existing_zero_qty_line with
  | existing_line :: _ =>
      (Some (lotecart_adjustment code_article numero_inventaire
               (Orig.NUMERO_LOT existing_line) quantite_reelle
               (Orig.Date_Lot existing_line)
               (Some (Orig.original_s_line_raw existing_line)) None false), [])
  | [] =>
      let reference_lots :=
        List.filter (is_reference_lot code_article numero_inventaire) original in
      match reference_lots with
      | ref_lot :: _ =>
          (Some (lotecart_adjustment code_article numero_inventaire "LOTECART"
                   quantite_reelle None None
                   (Some (Orig.original_s_line_raw ref_lot)) true), [])
      | [] => (None, [WarnNoReference code_article])
      end
  end.

(** [create_lotecart_adjustments]. *)
Fixpoint create_lotecart_adjustments (candidates : list Candidate) (original : list Orig.Row)
  : list Row * list LogEvent :=
  match candidates with
  | [] => ([], [])
  | candidate :: rest =>
      let '(adj, log) := create_lotecart_adjustment original candidate in
      let '(adjs, logs) := create_lotecart_adjustments rest original in
      (match adj with Some a => a :: adjs | None => adjs end, (log ++ logs)%list)
  end.

(** Truth value of a flag read with [adj.get(flag, False)]: a missing
    value (NaN) is true in Python. *)
Definition flag_truthy (flag : option bool) : bool :=
  match flag with
  | Some b => b
  | None => true
  end.

(** The reference line of an adjustment, split, when it passes the checks
    of [generate_lotecart_lines]. *)
Definition reference_parts (adjustment : Row) : option (list string) :=
  match reference_line adjustment with
  | None => None
  | Some reference =>
      if String.eqb reference "" then None
      else
        let reference_line_str := py_strip reference in
        let low := py_lower reference_line_str in
        if String.eqb reference_line_str "" || String.eqb low "nan" || String.eqb low "none"
        then None
        else
          let parts := split ";" reference_line_str in
          if (length parts <? 15)%nat then None else Some parts
  end.

(** The adjustment has a reference line from which a line can be built. *)
Definition has_usable_reference (adjustment : Row) : bool :=
  match reference_parts adjustment with
  | Some _ => true
  | None => false
  end.

(** The fields of a new LOTECART line: the copy of the reference line
    with rank, quantities, indicator and lot number overwritten. *)
Definition lotecart_line_parts (py_float : string -> option Q) (adjustment : Row)
    (parts : list string) (current_line_number : Z) : list string :=
  let quantite_reelle := QUANTITE_CORRIGEE adjustment in
  let quantite_reelle_saisie :=
    default quantite_reelle (QUANTITE_REELLE_SAISIE adjustment) in
  let new_parts := parts in
  let new_parts := <[3%nat := py_str_int current_line_number]> new_parts in
  let new_parts := <[5%nat := _format_number py_float (VNum quantite_reelle)]> new_parts in
  let new_parts :=
    <[6%nat := _format_number py_float (VNum quantite_reelle_saisie)]> new_parts in
  let new_parts := <[7%nat := "2"]> new_parts in
  <[14%nat := "LOTECART"]> new_parts.

(** [generate_lotecart_lines]: the loop, with [current_line_number] as
    its state. *)
Fixpoint generate_lotecart_lines_from (py_float : string -> option Q)
    (lotecart_adjustments : list Row) (current_line_number : Z) : list string :=
  match lotecart_adjustments with
  | [] => []
  | adjustment :: rest =>
      if negb (flag_truthy (is_new_lotecart adjustment))
      then generate_lotecart_lines_from py_float rest current_line_number
      else
        match reference_parts adjustment with
        | None => generate_lotecart_lines_from py_float rest current_line_number
        | Some parts =>
            let current_line_number := (current_line_number + 1000)%Z in
            join ";" (lotecart_line_parts py_float adjustment parts current_line_number)
              :: generate_lotecart_lines_from py_float rest current_line_number
        end
  end.

Definition generate_lotecart_lines (py_float : string -> option Q)
    (lotecart_adjustments : list Row) (max_line_number : Z) : list string :=
  generate_lotecart_lines_from py_float lotecart_adjustments max_line_number.

(** ** Session store *)

(** The tables that [session_service] keeps for one session. *)
Record Session : Type := mkSession {
  header_lines : list string;
  original_df : option (list Orig.Row);
  completed_df : option (list Tpl.Row);
  lotecart_candidates : option (list Candidate);
  discrepancies_df : option (list Row);
  distributed_df : option (list Row)
}.

(** ** The three steps of [InventoryProcessor] on a session *)

(** [process_completed_file], from the point where the template has been
    read: the session with the tables saved by the call.  The outer [None]
    marks a counted quantity that is not a number: the table that the code
    saves then is not one of the tables represented here (see
    [cell_number]). *)
Definition process_completed_file (to_numeric : string -> option Q)
    (session : Session) (completed : list Tpl.Row) : option (Result Session) :=
  match original_df session with
  | None => Some (Raise "Donnees originales non trouvees pour cette session")
  | Some original =>
      let candidates := detect_lotecart_candidates to_numeric completed in
      match _calculate_discrepancies completed original with
      | None => None
      | Some discrepancies =>
          Some (Ok {| header_lines := header_lines session;
                      original_df := original_df session;
                      completed_df := Some completed;
                      lotecart_candidates :=
                        match candidates with
                        | [] => lotecart_candidates session
                        | _ => Some candidates
                        end;
                      discrepancies_df := Some discrepancies;
                      distributed_df := distributed_df session |})
      end
  end.

(** The loop over the groups of [distribute_discrepancies]. *)
Fixpoint distribute_groups (strategy : Strategy) (groups : list (GroupKey * list Row))
  : list Row * list LogEvent :=
  match groups with
  | [] => ([], [])
  | (key, group) :: rest =>
      let '(rows, log) := distribute_group strategy (key_article key) group in
      let '(rows', log') := distribute_groups strategy rest in
      ((rows ++ rows')%list, (log ++ log')%list)
  end.

(** [lotecart_adj['QUANTITE_REELLE_SAISIE'] = lotecart_adj['QUANTITE_CORRIGEE']]. *)
Definition with_saisie (adj : Row) : Row :=
  {| CODE_ARTICLE := CODE_ARTICLE adj;
     NUMERO_INVENTAIRE := NUMERO_INVENTAIRE adj;
     NUMERO_LOT := NUMERO_LOT adj;
     TYPE_LOT := TYPE_LOT adj;
     QUANTITE_ORIGINALE := QUANTITE_ORIGINALE adj;
     QUANTITE_REELLE_SAISIE_TOTALE := QUANTITE_REELLE_SAISIE_TOTALE adj;
     AJUSTEMENT := AJUSTEMENT adj;
     QUANTITE_CORRIGEE := QUANTITE_CORRIGEE adj;
     Date_Lot := Date_Lot adj;
     original_s_line_raw := original_s_line_raw adj;
     STATUT := STATUT adj;
     UNITE := UNITE adj;
     ZONE_PK := ZONE_PK adj;
     EMPLACEMENT := EMPLACEMENT adj;
     QUANTITE_REELLE_SAISIE := Some (QUANTITE_CORRIGEE adj);
     reference_line := reference_line adj;
     is_new_lotecart := is_new_lotecart adj;
     is_existing_update := is_existing_update adj |}.

(** The LOTECART adjustments that [distribute_discrepancies] appends. *)
Definition session_lotecart_adjustments (session : Session) : list Row * list LogEvent :=
  match lotecart_candidates session with
  | Some ((_ :: _) as candidates) =>
      match original_df session with
      | Some original => create_lotecart_adjustments candidates original
      | None => ([], [])
      end
  | _ => ([], [])
  end.

(** [distribute_discrepancies]: the session with [distributed_df] saved,
    the returned table and the log. *)
Definition distribute_discrepancies (session : Session) (strategy : Strategy)
  : Result (Session * list Row * list LogEvent) :=
  match discrepancies_df session with
  | None => Raise "Ecarts non calcules pour cette session"
  | Some discrepancies =>
      let '(distributed_rows, log) := distribute_groups strategy (groupby discrepancies) in
      let '(lotecart_adjustments, log') := session_lotecart_adjustments session in
      let distributed := (distributed_rows ++ map with_saisie lotecart_adjustments)%list in
      Ok ({| header_lines := header_lines session;
             original_df := original_df session;
             completed_df := completed_df session;
             lotecart_candidates := lotecart_candidates session;
             discrepancies_df := discrepancies_df session;
             distributed_df := Some distributed |},
          distributed, (log ++ log')%list)
  end.

(** ** Record regenerator ([InventoryProcessor.generate_final_file]) *)

Record AdjustmentData : Type := mkAdjustmentData {
  qte_theo_ajustee : Q;
  qte_reelle_saisie : Q;
  type_lot : LotType
}.

Definition adjustment_key (row : Row) : string * string * string :=
  (CODE_ARTICLE row, NUMERO_INVENTAIRE row, py_strip (NUMERO_LOT row)).

Definition adjustment_data (row : Row) : AdjustmentData :=
  {| qte_theo_ajustee := QUANTITE_CORRIGEE row;
     qte_reelle_saisie := default (QUANTITE_CORRIGEE row) (QUANTITE_REELLE_SAISIE row);
     type_lot := TYPE_LOT row |}.

(** [adjustments_dict], filled row after row. *)
Definition adjustments_dict (distributed : list Row)
  : gmap (string * string * string) AdjustmentData :=
  fold_left (fun d row => <[adjustment_key row := adjustment_data row]> d) distributed ∅.

(** [emplacement_updates], from the rows of the completed template whose
    location cell holds a text. *)
Definition emplacement_updates (completed : option (list Tpl.Row))
  : gmap (string * string) string :=
  fold_left
    (fun d row =>
       match Tpl.Emplacements row with
       | Some new_emplacement =>
           if negb (String.eqb (Tpl.Code_Article row) "")
              && negb (String.eqb (Tpl.Numero_Inventaire row) "")
              && negb (String.eqb (py_strip new_emplacement) "")
           then <[(Tpl.Code_Article row, Tpl.Numero_Inventaire row)
                  := py_strip new_emplacement]> d
           else d
       | None => d
       end)
    (default [] completed) ∅.

(** The count indicator written in field 7 of an adjusted line. *)
Definition count_indicator (qte_val : Q) : string :=
  if Qgt_bool _zero_epsilon (Qabs qte_val) then "2" else "1".

Definition original_key (original_row : Orig.Row) : string * string * string :=
  (Orig.CODE_ARTICLE original_row, Orig.NUMERO_INVENTAIRE original_row,
   py_strip (Orig.NUMERO_LOT original_row)).

(** The fields written for one original line; [None] when the line has
    fewer than 15 fields and is not written. *)
Definition replay_line (py_float : string -> option Q)
    (adjustments : gmap (string * string * string) AdjustmentData)
    (emplacements : gmap (string * string) string)
    (original_row : Orig.Row) : option (list string) :=
  let parts := split ";" (Orig.original_s_line_raw original_row) in
  if (15 <=? length parts)%nat then
    let quantite_originale := nth 5 parts "" in
    let parts :=
      match adjustments !! original_key original_row with
      | Some adjustment_data =>
          let parts := <[5%nat := quantite_originale]> parts in
          let parts :=
            <[6%nat := _to_csv_number py_float (VNum (qte_theo_ajustee adjustment_data)) ","]>
              parts in
          let parts := <[7%nat := count_indicator (qte_theo_ajustee adjustment_data)]> parts in
          if LotType_eqb (type_lot adjustment_data) lotecart
          then <[14%nat := "LOTECART"]> parts
          else parts
      | None =>
          <[7%nat := "1"]> (<[6%nat := quantite_originale]> (<[5%nat := quantite_originale]> parts))
      end in
    let parts :=
      match emplacements !! (Orig.CODE_ARTICLE original_row, Orig.NUMERO_INVENTAIRE original_row) with
      | Some e => <[9%nat := e]> parts
      | None => parts
      end in
    Some parts
  else None.

(** [max_line_number] after one more original line; [py_int] stands for
    Python's [int(s)], [None] for a raised [ValueError]. *)
Definition update_max_line_number (py_int : string -> option Z)
    (max_line_number : Z) (original_row : Orig.Row) : Z :=
  let parts := split ";" (Orig.original_s_line_raw original_row) in
  if (15 <=? length parts)%nat then
    match py_int (nth 3 parts "") with
    | Some line_number => Z.max max_line_number line_number
    | None => max_line_number
    end
  else max_line_number.

Definition max_line_number_of (py_int : string -> option Z) (original : list Orig.Row) : Z :=
  fold_left (update_max_line_number py_int) original 0%Z.

(** The adjustments for which a new line is appended. *)
Definition new_lotecart_adjustments (distributed : list Row) : list Row :=
  List.filter (fun adj => flag_truthy (is_new_lotecart adj)
                          && negb (flag_truthy (is_existing_update adj)))
              distributed.

(** The adaptation of a generated LOTECART line to the final columns. *)
Definition adapt_lotecart_line (line : string) : string :=
  let parts := split ";" line in
  if (15 <=? length parts)%nat then
    let qte_lotecart := nth 5 parts "" in
    join ";" (<[6%nat := replace_char "." "," qte_lotecart]> (<[5%nat := "0"]> parts))
  else line.

Definition replayed_lines (py_float : string -> option Q) (session : Session)
    (distributed : list Row) (original : list Orig.Row) : list string :=
  omap (fun original_row =>
          join ";" <$> replay_line py_float (adjustments_dict distributed)
                         (emplacement_updates (completed_df session)) original_row)
       original.

Definition appended_lines (py_float : string -> option Q) (py_int : string -> option Z)
    (distributed : list Row) (original : list Orig.Row) : list string :=
  map adapt_lotecart_line
      (generate_lotecart_lines py_float (new_lotecart_adjustments distributed)
         (max_line_number_of py_int original)).

(** [generate_final_file]: the lines written to the final file. *)
Definition generate_final_file (py_float : string -> option Q) (py_int : string -> option Z)
    (session : Session) : Result (list string) :=
  match distributed_df session with
  | None => Raise "Donnees distribuees non trouvees"
  | Some distributed =>
      match original_df session with
      | None => Raise "original_df"
      | Some original =>
          Ok (header_lines session
              ++ replayed_lines py_float session distributed original
              ++ appended_lines py_float py_int distributed original)%list
      end
  end.

(** ** Session statistics ([InventoryProcessor._calculate_session_stats]) *)

(** The statistics that [distribute_discrepancies] stores in the session
    once [distributed_df] is saved; the [status] is always ['completed']. *)
Record SessionStats : Type := mkSessionStats {
  total_discrepancy : Q;
  adjusted_items_count : nat
}.

Definition _calculate_session_stats (distributed_df : list Row) : SessionStats :=
  {| total_discrepancy := Qsum (map AJUSTEMENT distributed_df);
     adjusted_items_count :=
       length (List.filter (fun row => negb (Qeq_bool (AJUSTEMENT row) 0)) distributed_df) |}.

(** ** Summary of the found stock ([LotecartProcessor.get_lotecart_summary]) *)

(** The summary dictionary, without the timestamp of the call. *)
Record LotecartSummary : Type := mkLotecartSummary {
  candidates_detected : nat;
  adjustments_created : nat;
  existing_lines_updated : nat;
  new_lines_created : nat;
  total_quantity : Q;
  inventories_affected : nat;
  articles_by_inventory : gmap string (list (string * Q))
}.

(** The loop that groups the candidates by inventory. *)
Definition group_by_inventory (lotecart_candidates : list Candidate)
  : gmap string (list (string * Q)) :=
  fold_left
    (fun d row =>
       let inv := Tpl.Numero_Inventaire (cand_row row) in
       <[inv := (default [] (d !! inv)
                 ++ [(Tpl.Code_Article (cand_row row), cand_Quantite_Reelle row)])%list]> d)
    lotecart_candidates ∅.

(** The loop that counts the adjustments of each kind: the two counters
    [existing_updates] and [new_lines]. *)
Definition count_adjustment_kinds (lotecart_adjustments : list Row) : nat * nat :=
  fold_left
    (fun '(existing_updates, new_lines) adjustment =>
       if flag_truthy (is_existing_update adjustment) then (S existing_updates, new_lines)
       else if flag_truthy (is_new_lotecart adjustment) then (existing_updates, S new_lines)
       else (existing_updates, new_lines))
    lotecart_adjustments (0%nat, 0%nat).

Definition get_lotecart_summary (lotecart_candidates : list Candidate)
    (lotecart_adjustments : list Row) : LotecartSummary :=
  let total_quantity :=
    match lotecart_candidates with
    | [] => 0%Q
    | _ => Qsum (map cand_Quantite_Reelle lotecart_candidates)
    end in
  let articles_by_inventory :=
    match lotecart_candidates with
    | [] => ∅
    | _ => group_by_inventory lotecart_candidates
    end in
  let '(existing_updates, new_lines) := count_adjustment_kinds lotecart_adjustments in
  {| candidates_detected := length lotecart_candidates;
     adjustments_created := length lotecart_adjustments;
     existing_lines_updated := existing_updates;
     new_lines_created := new_lines;
     total_quantity := total_quantity;
     inventories_affected := size articles_by_inventory;
     articles_by_inventory := articles_by_inventory |}.

(** ** Reading the extract ([FileProcessorService._process_csv_file]) *)

(** [line.startswith(prefix)]. *)
Definition startswith (prefix line : string) : bool :=
  match take_literal prefix line with
  | Some _ => true
  | None => false
  end.

(** What the loop over the lines of the file has collected. *)
Record Collected : Type := mkCollected {
  headers : list string;
  data_rows : list (list string);
  original_s_lines_raw : list string;
  first_s_line_numero_inventaire : option string
}.

(** The ways in which [_process_csv_file] returns [False] before the
    DataFrame is built: the message
    ["Ligne {i+1} : Format invalide. {expected_cols} colonnes requises."],
    the message ["Aucune donnee S; trouvee"], and an exception caught by
    the handler of the function. *)
Inductive ReadError : Type :=
| FormatInvalide (ligne expected_cols : nat)
| AucuneDonnee
| ErreurTraitement.

(** [parts[:expected_cols]], extended with empty fields when it is
    shorter than [expected_cols]. *)
Definition processed_parts (expected_cols : nat) (parts : list string) : list string :=
  let processed := firstn expected_cols parts in
  if (length processed <? expected_cols)%nat
  then (processed ++ repeat "" (expected_cols - length processed))%list
  else processed.

(** The body of [for i, line in enumerate(f)]; [numero_inventaire_index]
    is [self.SAGE_COLUMNS["NUMERO_INVENTAIRE"]], from the configuration,
    and reading [parts] at an index that it does not have raises. *)
Definition read_line (expected_cols numero_inventaire_index : nat) (i : nat) (line : string)
    (acc : Collected) : ReadError + Collected :=
  let line := py_strip line in
  if String.eqb line "" then inr acc
  else if startswith "E;" line || startswith "L;" line then
    inr {| headers := (headers acc ++ [line])%list;
           data_rows := data_rows acc;
           original_s_lines_raw := original_s_lines_raw acc;
           first_s_line_numero_inventaire := first_s_line_numero_inventaire acc |}
  else if startswith "S;" line then
    let parts := split ";" line in
    if (length parts <? expected_cols)%nat then inl (FormatInvalide (i + 1) expected_cols)
    else
      let first :=
        match first_s_line_numero_inventaire acc with
        | Some numero => Some numero
        | None => parts !! numero_inventaire_index
        end in
      match first with
      | None => inl ErreurTraitement
      | Some _ =>
          let processed := processed_parts expected_cols parts in
          inr {| headers := headers acc;
                 data_rows := (data_rows acc ++ [processed])%list;
                 original_s_lines_raw := (original_s_lines_raw acc ++ [join ";" processed])%list;
                 first_s_line_numero_inventaire := first |}
      end
  else inr acc.

Fixpoint read_lines (expected_cols numero_inventaire_index : nat) (i : nat)
    (lines : list string) (acc : Collected) : ReadError + Collected :=
  match lines with
  | [] => inr acc
  | line :: rest =>
      match read_line expected_cols numero_inventaire_index i line acc with
      | inl error => inl error
      | inr acc => read_lines expected_cols numero_inventaire_index (S i) rest acc
      end
  end.

(** [_process_csv_file] up to the point where the DataFrame is built;
    [lines] are the lines of the file as the iteration over it yields
    them. *)
Definition _process_csv_file_lines (expected_cols numero_inventaire_index : nat)
    (lines : list string) : ReadError + Collected :=
  match read_lines expected_cols numero_inventaire_index 0 lines
          {| headers := []; data_rows := []; original_s_lines_raw := [];
             first_s_line_numero_inventaire := None |} with
  | inl error => inl error
  | inr collected =>
      match data_rows collected with
      | [] => inl AucuneDonnee
      | _ => inr collected
      end
  end.

(** ** Inventory date ([FileProcessorService._extract_inventory_date]) *)

(** [(\d{2})(\d{2})INV] at the start of a text: the two groups. *)
Definition match_inventory_date (s : string) : option (string * string) :=
  match take_class is_digit 2 s with
  | Some (day, rest) =>
      match take_class is_digit 2 rest with
      | Some (month, rest) =>
          match take_literal "INV" rest with
          | Some _ => Some (day, month)
          | None => None
          end
      | None => None
      end
  | None => None
  end.

(** [re.search]: the match that starts leftmost. *)
Fixpoint search_inventory_date (s : string) : option (string * string) :=
  match match_inventory_date s with
  | Some groups => Some groups
  | None =>
      match s with
      | EmptyString => None
      | String _ s' => search_inventory_date s'
      end
  end.

(** [_extract_inventory_date]; [year] is [session_timestamp.year], and
    [None] as argument is a missing inventory number. *)
Definition _extract_inventory_date (numero_inventaire : option string) (year : Z)
  : option Date :=
  match numero_inventaire with
  | None => None
  | Some numero =>
      if String.eqb numero "" then None
      else
        match search_inventory_date numero with
        | Some (day, month) => datetime year (int_of_digits month) (int_of_digits day)
        | None => None
        end
  end.

(** ** Aggregation for the template ([FileProcessorService.aggregate_data]) *)

(** A row of [original_df] as the aggregation reads it: the columns of
    [Orig.Row] and the two columns [NUMERO_SESSION] and [SITE]. *)
Module Sage.
Record Row : Type := mkRow {
  line : Orig.Row;
  NUMERO_SESSION : string;
  SITE : string
}.
End Sage.

(** A row of [aggregated_df]. *)
Module Agg.
Record Row : Type := mkRow {
  CODE_ARTICLE : string;
  STATUT : string;
  EMPLACEMENT : string;
  ZONE_PK : string;
  UNITE : string;
  NUMERO_INVENTAIRE : string;
  Quantite_Theorique_Totale : Q;
  Numero_Session : string;
  Site : string;
  Date_Min : option Date;
  Type_Lot_Prioritaire : LotType
}.
End Agg.

(** [_get_priority_lot_type]: the first type of [priority_order] that
    occurs among the lot types.  The entry ["potential_lotecart"] of the
    source list is not a value of the [Type_Lot] column. *)
Fixpoint first_type_in (priority_order lot_types : list LotType) : LotType :=
  match priority_order with
  | [] => unknown
  | priority_type :: rest =>
      if existsb (LotType_eqb priority_type) lot_types then priority_type
      else first_type_in rest lot_types
  end.

Definition _get_priority_lot_type (lot_types : list LotType) : LotType :=
  first_type_in [type1; type2; lotecart; unknown] lot_types.

(** [min(d for d in x if d is not None and pd.notna(d))], or [None] when
    no lot of the group has a date: the dates are taken in turn, and a
    date replaces the smallest one so far when it is smaller. *)
Definition earlier_date (smallest d : option Date) : option Date :=
  match smallest, d with
  | None, _ => d
  | Some _, None => smallest
  | Some m, Some d' => match date_compare d' m with Lt => Some d' | _ => smallest end
  end.

Definition date_min (dates : list (option Date)) : option Date :=
  fold_left earlier_date dates None.

(** The aggregation keys of the default configuration, with
    [NUMERO_INVENTAIRE] appended. *)
Definition aggregation_key (r : Sage.Row) : GroupKey :=
  (Orig.CODE_ARTICLE (Sage.line r), Orig.STATUT (Sage.line r),
   Orig.EMPLACEMENT (Sage.line r), Orig.ZONE_PK (Sage.line r),
   Orig.UNITE (Sage.line r), Orig.NUMERO_INVENTAIRE (Sage.line r)).

(** The named aggregations of one group. *)
Definition aggregate_group (key : GroupKey) (group : list Sage.Row) : Agg.Row :=
  let '(code_article, statut, emplacement, zone_pk, unite, numero_inventaire) := key in
  {| Agg.CODE_ARTICLE := code_article;
     Agg.STATUT := statut;
     Agg.EMPLACEMENT := emplacement;
     Agg.ZONE_PK := zone_pk;
     Agg.UNITE := unite;
     Agg.NUMERO_INVENTAIRE := numero_inventaire;
     Agg.Quantite_Theorique_Totale := Qsum (map (fun r => Orig.QUANTITE (Sage.line r)) group);
     Agg.Numero_Session := match group with r :: _ => Sage.NUMERO_SESSION r | [] => "" end;
     Agg.Site := match group with r :: _ => Sage.SITE r | [] => "" end;
     Agg.Date_Min := date_min (map (fun r => Orig.Date_Lot (Sage.line r)) group);
     Agg.Type_Lot_Prioritaire :=
       _get_priority_lot_type (map (fun r => Orig.Type_Lot (Sage.line r)) group) |}.

(** The key columns of a row of [aggregated_df]. *)
Definition aggregated_key (row : Agg.Row) : GroupKey :=
  (Agg.CODE_ARTICLE row, Agg.STATUT row, Agg.EMPLACEMENT row, Agg.ZONE_PK row,
   Agg.UNITE row, Agg.NUMERO_INVENTAIRE row).

(** [sort_key]: the pair [(priority, date_value)], where a group without
    date takes [datetime.min], the first day of year 1. *)
Definition type_priority (t : LotType) : Z :=
  match t with
  | type1 => 1
  | type2 => 2
  | lotecart => 3
  | unknown => 4
  end.

Definition sort_key (row : Agg.Row) : Z * Date :=
  (type_priority (Agg.Type_Lot_Prioritaire row),
   match Agg.Date_Min row with
   | Some d => d
   | None => mkDate 1 1 1
   end).

Definition sort_key_le (a b : Agg.Row) : bool :=
  match (fst (sort_key a) ?= fst (sort_key b))%Z with
  | Lt => true
  | Gt => false
  | Eq => match date_compare (snd (sort_key a)) (snd (sort_key b)) with
          | Gt => false
          | _ => true
          end
  end.

(** [aggregated.sort_values("_sort_key")].  pandas does not fix the order
    of rows with equal keys; the model keeps them in the order of the
    groups, and no property stated below depends on that order. *)
Fixpoint insert_aggregated (x : Agg.Row) (l : list Agg.Row) : list Agg.Row :=
  match l with
  | [] => [x]
  | y :: l' => if sort_key_le x y then x :: y :: l' else y :: insert_aggregated x l'
  end.

Fixpoint sort_aggregated (l : list Agg.Row) : list Agg.Row :=
  match l with
  | [] => []
  | x :: l' => insert_aggregated x (sort_aggregated l')
  end.

(** [aggregate_data]. *)
Definition aggregate_data (df : list Sage.Row) : Result (list Agg.Row) :=
  match df with
  | [] => Raise "DataFrame vide pour l'agregation"
  | _ =>
      let keys := fold_right insert_key [] (map aggregation_key df) in
      let aggregated :=
        map (fun key =>
               aggregate_group key
                 (List.filter (fun r => bool_decide (aggregation_key r = key)) df))
            keys in
      Ok (sort_aggregated aggregated)
  end.

(** ** Template ([FileProcessorService.generate_template]) *)

(** A row of the template, with the column titles of the sheet:
    [Numero Session], [Numero Inventaire], [Code Article],
    [Statut Article], [Quantite Theorique], [Quantite Reelle], [Unites],
    [Depots], [Emplacements]. *)
Module Template.
Record Row : Type := mkRow {
  Numero_Session : string;
  Numero_Inventaire : string;
  Code_Article : string;
  Statut_Article : string;
  Quantite_Theorique : Q;
  Quantite_Reelle : Q;
  Unites : string;
  Depots : string;
  Emplacements : string
}.
End Template.

(** The row appended to [template_rows] for a row of [aggregated_df]; it
    is the same whether or not lots are found for the article. *)
Definition template_row (row : Agg.Row) : Template.Row :=
  {| Template.Numero_Session := Agg.Numero_Session row;
     Template.Numero_Inventaire := Agg.NUMERO_INVENTAIRE row;
     Template.Code_Article := Agg.CODE_ARTICLE row;
     Template.Statut_Article := Agg.STATUT row;
     Template.Quantite_Theorique := Agg.Quantite_Theorique_Totale row;
     Template.Quantite_Reelle := 0;
     Template.Unites := Agg.UNITE row;
     Template.Depots := Agg.ZONE_PK row;
     Template.Emplacements := Agg.EMPLACEMENT row |}.

(** The same key columns, under their titles in the template. *)
Definition template_key (row : Template.Row) : GroupKey :=
  (Template.Code_Article row, Template.Statut_Article row, Template.Emplacements row,
   Template.Depots row, Template.Unites row, Template.Numero_Inventaire row).

(** The [unique()] values of a column, in order of first appearance. *)
Fixpoint unique (l : list string) : list string :=
  match l with
  | [] => []
  | x :: l' => x :: List.filter (fun y => negb (String.eqb y x)) (unique l')
  end.

(** [generate_template]: the name of the file and the rows of its sheet. *)
Definition generate_template (aggregated_df : list Agg.Row) (session_id : string)
  : Result (string * list Template.Row) :=
  match aggregated_df with
  | [] => Raise ("Aucune donnee agregee pour la session " ++ session_id)
  | first :: _ =>
      let session_num := Agg.Numero_Session first in
      let site_code := Agg.Site first in
      let inventory_nums := unique (map Agg.NUMERO_INVENTAIRE aggregated_df) in
      let inventory_num :=
        match inventory_nums with
        | [inventory_num] => inventory_num
        | inventory_num :: _ => inventory_num ++ "_MULTI"
        | [] => ""
        end in
      let template_rows := map template_row aggregated_df in
      let filename :=
        site_code ++ "_" ++ session_num ++ "_" ++ inventory_num ++ "_" ++ session_id
        ++ ".xlsx" in
      Ok (filename, template_rows)
  end.

(** ** Validation of the final file ([LotecartProcessor.validate_lotecart_processing]) *)

(** [needle in line]. *)
Fixpoint contains_text (needle line : string) : bool :=
  if startswith needle line then true
  else
    match line with
    | EmptyString => false
    | String _ line' => contains_text needle line'
    end.

(** An entry of [lotecart_lines]. *)
Record LotecartLine : Type := mkLotecartLine {
  line_number : nat;
  article : string;
  quantite : string;
  indicateur : string
}.

(** The entries of [issues]: ["Parametres de validation manquants"],
    ["Nombre de lignes LOTECART insuffisant: {found} < {expected}"],
    ["Indicateurs incorrects sur {count} lignes LOTECART"] and
    ["Erreur de validation: ..."]. *)
Inductive ValidationIssue : Type :=
| ParametresManquants
| LignesInsuffisantes (found expected : nat)
| IndicateursIncorrects (count : nat)
| ErreurValidation.

Record ValidationResult : Type := mkValidationResult {
  success : bool;
  lotecart_lines_found : nat;
  correct_indicators : nat;
  issues : list ValidationIssue
}.

(** [parts[i] if len(parts) > i else 'N/A']. *)
Definition part_or_na (parts : list string) (i : nat) : string :=
  match parts !! i with
  | Some part => part
  | None => "N/A"
  end.

(** [for line_num, line in enumerate(f, 1)]. *)
Fixpoint collect_lotecart_lines (line_num : nat) (lines : list string) : list LotecartLine :=
  match lines with
  | [] => []
  | line :: rest =>
      let line := py_strip line in
      if startswith "S;" line && contains_text "LOTECART" line then
        let parts := split ";" line in
        {| line_number := line_num;
           article := part_or_na parts 8;
           quantite := part_or_na parts 5;
           indicateur := part_or_na parts 7 |}
        :: collect_lotecart_lines (S line_num) rest
      else collect_lotecart_lines (S line_num) rest
  end.

(** [validate_lotecart_processing]; [file_lines] are the lines that the
    iteration over the final file yields, [None] when the file cannot be
    read. *)
Definition validate_lotecart_processing (final_file_path : string)
    (file_lines : option (list string)) (expected_lotecart_count : nat) : ValidationResult :=
  if String.eqb final_file_path "" || (expected_lotecart_count =? 0)%nat then
    {| success := false; lotecart_lines_found := 0; correct_indicators := 0;
       issues := [ParametresManquants] |}
  else
    match file_lines with
    | None =>
        {| success := false; lotecart_lines_found := 0; correct_indicators := 0;
           issues := [ErreurValidation] |}
    | Some lines =>
        let lotecart_lines := collect_lotecart_lines 1 lines in
        let issues :=
          if (length lotecart_lines <? expected_lotecart_count)%nat
          then [LignesInsuffisantes (length lotecart_lines) expected_lotecart_count]
          else [] in
        let incorrect_indicators :=
          List.filter (fun line => negb (String.eqb (indicateur line) "2")) lotecart_lines in
        let issues :=
          match incorrect_indicators with
          | [] => issues
          | _ => (issues ++ [IndicateursIncorrects (length incorrect_indicators)])%list
          end in
        {| success := match issues with [] => true | _ => false end;
           lotecart_lines_found := length lotecart_lines;
           correct_indicators := length lotecart_lines - length incorrect_indicators;
           issues := issues |}
    end.

(** ** Example data

    A stock line of 15 fields: type, session, inventory, rank, site,
    quantity, counted quantity, indicator, article, location, status,
    unit, value, zone, lot. *)
Definition ex_raw (rank quantite article emplacement lot : string) : string :=
  "S;SES01;INV01;" ++ rank ++ ";SITE1;" ++ quantite ++ ";0;1;" ++ article ++ ";"
  ++ emplacement ++ ";A;UN;0;ZONE1;" ++ lot.

Definition ex_line (rank : string) (article : string) (quantite : Q) (quantite_text : string)
    (emplacement lot : string) (date_lot : option Date) (type : LotType) : Orig.Row :=
  {| Orig.CODE_ARTICLE := article;
     Orig.NUMERO_INVENTAIRE := "INV01";
     Orig.NUMERO_LOT := lot;
     Orig.QUANTITE := quantite;
     Orig.STATUT := "A";
     Orig.UNITE := "UN";
     Orig.ZONE_PK := "ZONE1";
     Orig.EMPLACEMENT := emplacement;
     Orig.Date_Lot := date_lot;
     Orig.Type_Lot := type;
     Orig.original_s_line_raw := ex_raw rank quantite_text article emplacement lot |}.

Definition ex_counted (article : string) (theorique reelle : Q) : Tpl.Row :=
  {| Tpl.Code_Article := article;
     Tpl.Numero_Inventaire := "INV01";
     Tpl.Quantite_Theorique := CNum theorique;
     Tpl.Quantite_Reelle := CNum reelle;
     Tpl.Emplacements := None |}.

Definition ex_session (original : list Orig.Row) : Session :=
  {| header_lines := ["E;SES01;HEADER"; "L;SES01;INV01"];
     original_df := Some original;
     completed_df := None;
     lotecart_candidates := None;
     discrepancies_df := None;
     distributed_df := None |}.

(** The three steps in a row, with the decimal-literal parser and the
    decimal reading of ranks. *)
Definition ex_int (s : string) : option Z :=
  option_map Z.of_int (NilZero.int_of_string s).

Definition ex_run (strategy : Strategy) (original : list Orig.Row) (completed : list Tpl.Row)
  : option (list Row * list LogEvent * list string) :=
  match process_completed_file decimal_literal (ex_session original) completed with
  | Some (Ok session) =>
      match distribute_discrepancies session strategy with
      | Ok (session', distributed, log) =>
          match generate_final_file decimal_literal ex_int session' with
          | Ok lines => Some (distributed, log, lines)
          | Raise _ => None
          end
      | Raise _ => None
      end
  | _ => None
  end.

(** Two lots of one article, the older one holding 10 and the newer 5. *)
Definition ex_lot_old : Orig.Row :=
  ex_line "1000" "ART1" 10 "10" "EMP1" "CPKU1010125AAAA" (Some (mkDate 2025 1 1)) type1.
Definition ex_lot_new : Orig.Row :=
  ex_line "2000" "ART1" 5 "5" "EMP1" "CPKU1020125AAAA" (Some (mkDate 2025 1 2)) type1.

(** Their rows in [discrepancies_df] for a given count, newer lot first. *)
Definition ex_rows (counted : Q) : list Row :=
  [discrepancy_row ex_lot_new counted; discrepancy_row ex_lot_old counted].

(** A negative theoretical quantity next to a positive one. *)
Definition ex_lot_negative : Orig.Row :=
  ex_line "1000" "ART1" (-3) "-3" "EMP1" "CPKU1010125AAAA" (Some (mkDate 2025 1 1)) type1.

(** The same lot of one article at two locations, and a second, older
    lot at the second location. *)
Definition ex_same_lot_emp1 : Orig.Row :=
  ex_line "1000" "ART1" 10 "10" "EMP1" "CPKU1020125AAAA" (Some (mkDate 2025 1 2)) type1.
Definition ex_same_lot_emp2 : Orig.Row :=
  ex_line "2000" "ART1" 5 "5" "EMP2" "CPKU1020125AAAA" (Some (mkDate 2025 1 2)) type1.
Definition ex_other_lot_emp2 : Orig.Row :=
  ex_line "3000" "ART1" 1 "1" "EMP2" "CPKU1010125AAAA" (Some (mkDate 2025 1 1)) type1.

(** A line with theoretical quantity zero, and a line of another article
    that has stock. *)
Definition ex_zero_line : Orig.Row :=
  ex_line "4000" "ART2" 0 "0" "EMP1" "LOT010125" None type2.
Definition ex_stock_line : Orig.Row :=
  ex_line "5000" "ART3" 4 "4" "EMP1" "LOT020125" None type2.

(** A stock line of a fourth article, at another location. *)
Definition ex_stock_line' : Orig.Row :=
  ex_line "7000" "ART4" 6 "6" "EMP2" "LOT030125" None type2.

(** The distributed table of a run, when it succeeds. *)
Definition ex_distributed (strategy : Strategy) (original : list Orig.Row)
    (completed : list Tpl.Row) : list Row :=
  match ex_run strategy original completed with
  | Some (distributed, _, _) => distributed
  | None => []
  end.

(* ===================================================================== *)
(** * Part II: properties                                                 *)
(* ===================================================================== *)

(** ** Numbers *)

Section NumberFacts.
Local Open Scope Q_scope.

Lemma Qgt_bool_true (a b : Q) : Qgt_bool a b = true <-> b < a.
Proof.
  unfold Qgt_bool. rewrite negb_true_iff.
  split.
  - intros H. apply Qnot_le_lt. intros Hle. apply Qle_bool_iff in Hle. congruence.
  - intros H. destruct (Qle_bool a b) eqn:E; [|reflexivity].
    apply Qle_bool_iff in E. lra.
Qed.

Lemma Qgt_bool_false (a b : Q) : Qgt_bool a b = false <-> a <= b.
Proof.
  unfold Qgt_bool. rewrite negb_false_iff. apply Qle_bool_iff.
Qed.

Lemma Qeq_bool_false (a b : Q) : Qeq_bool a b = false <-> ~ a == b.
Proof.
  split.
  - intros H Heq. apply Qeq_bool_iff in Heq. congruence.
  - intros H. destruct (Qeq_bool a b) eqn:E; [|reflexivity].
    apply Qeq_bool_iff in E. contradiction.
Qed.

Lemma Qle_bool_false (a b : Q) : Qle_bool a b = false <-> b < a.
Proof.
  rewrite <- Qgt_bool_true. unfold Qgt_bool. rewrite negb_true_iff. reflexivity.
Qed.

End NumberFacts.

(** Turns the boolean tests of the code, once decided, into facts
    about rationals. *)
Ltac qbool :=
  repeat match goal with
  | H : Qeq_bool _ _ = true |- _ => apply Qeq_bool_iff in H
  | H : Qeq_bool _ _ = false |- _ => apply Qeq_bool_false in H
  | H : Qle_bool _ _ = true |- _ => apply Qle_bool_iff in H
  | H : Qle_bool _ _ = false |- _ => apply Qle_bool_false in H
  | H : Qgt_bool _ _ = true |- _ => apply Qgt_bool_true in H
  | H : Qgt_bool _ _ = false |- _ => apply Qgt_bool_false in H
  end.

(** ** Distribution engine *)

Section DistributionProperties.
Local Open Scope Q_scope.

(** The three situations of the loop body. *)
Lemma distribute_lot_settled saisie idx rem lot :
  rem == 0 ->
  distribute_lot saisie idx rem lot = (unchanged saisie lot, rem).
Proof.
  intros H. unfold distribute_lot. apply Qeq_bool_iff in H. rewrite H. reflexivity.
Qed.

Lemma distribute_lot_surplus saisie rem lot :
  0 < rem ->
  distribute_lot saisie 0 rem lot = (absorbs saisie rem lot, 0).
Proof.
  intros H. unfold distribute_lot.
  destruct (Qeq_bool rem 0) eqn:E0; qbool; [lra|].
  destruct (Qgt_bool rem 0) eqn:E1; qbool; [reflexivity | lra].
Qed.

Lemma distribute_lot_drain saisie idx rem lot :
  rem < 0 -> QUANTITE_ORIGINALE lot <= - rem ->
  distribute_lot saisie idx rem lot = (zeroed saisie lot, rem + QUANTITE_ORIGINALE lot).
Proof.
  intros H Hle. unfold distribute_lot.
  destruct (Qeq_bool rem 0) eqn:E0; qbool; [lra|].
  destruct (Qgt_bool rem 0) eqn:E1; qbool; [lra|].
  destruct (Qle_bool _ _) eqn:E2; qbool; [reflexivity|].
  rewrite Qabs_neg in E2; lra.
Qed.

Lemma distribute_lot_absorb saisie idx rem lot :
  rem < 0 -> - rem < QUANTITE_ORIGINALE lot ->
  distribute_lot saisie idx rem lot = (absorbs saisie rem lot, 0).
Proof.
  intros H Hlt. unfold distribute_lot.
  destruct (Qeq_bool rem 0) eqn:E0; qbool; [lra|].
  destruct (Qgt_bool rem 0) eqn:E1; qbool; [lra|].
  destruct (Qle_bool _ _) eqn:E2; qbool; [|reflexivity].
  rewrite Qabs_neg in E2; lra.
Qed.

Lemma distribute_loop_settled saisie lots : forall idx rem,
  rem == 0 ->
  distribute_loop saisie idx rem lots = (map (unchanged saisie) lots, rem).
Proof.
  induction lots as [|lot rest IH]; intros idx rem H; simpl.
  - reflexivity.
  - rewrite (distribute_lot_settled _ _ _ _ H). rewrite (IH _ _ H). reflexivity.
Qed.

Lemma distribute_loop_surplus saisie rem first others :
  0 < rem ->
  distribute_loop saisie 0 rem (first :: others)
  = (absorbs saisie rem first :: map (unchanged saisie) others, 0).
Proof.
  intros H. simpl. rewrite (distribute_lot_surplus _ _ _ H).
  rewrite distribute_loop_settled by reflexivity. reflexivity.
Qed.


Lemma fold_Qplus_acc (l : list Q) : forall a, fold_left Qplus l a == a + Qsum l.
Proof.
  unfold Qsum. induction l as [|x l IH]; intros a; simpl.
  - lra.
  - rewrite (IH (a + x)), (IH (0 + x)). lra.
Qed.

Lemma Qsum_cons (x : Q) (l : list Q) : Qsum (x :: l) == x + Qsum l.
Proof. unfold Qsum at 1. simpl. rewrite fold_Qplus_acc. lra. Qed.

Lemma distribute_lot_balance saisie idx rem lot :
  AJUSTEMENT (fst (distribute_lot saisie idx rem lot)) + snd (distribute_lot saisie idx rem lot)
  == rem.
Proof.
  unfold distribute_lot.
  repeat match goal with |- context [if ?b then _ else _] => destruct b end;
    simpl; lra.
Qed.

Lemma distribute_loop_balance saisie lots : forall idx rem,
  Qsum (map AJUSTEMENT (fst (distribute_loop saisie idx rem lots)))
  + snd (distribute_loop saisie idx rem lots) == rem.
Proof.
  induction lots as [|lot rest IH]; intros idx rem.
  - simpl. unfold Qsum. simpl. lra.
  - cbn [distribute_loop].
    pose proof (distribute_lot_balance saisie idx rem lot) as Hb.
    destruct (distribute_lot saisie idx rem lot) as [row rem'].
    specialize (IH (S idx) rem').
    destruct (distribute_loop saisie (S idx) rem' rest) as [rows final].
    simpl in *. rewrite Qsum_cons. lra.
Qed.

Lemma insert_sorted_perm le x l : Permutation (x :: l) (insert_sorted le x l).
Proof.
  induction l as [|y l IH]; simpl.
  - apply Permutation_refl.
  - destruct (le x y).
    + apply Permutation_refl.
    + eapply perm_trans; [apply perm_swap|]. apply perm_skip, IH.
Qed.

Lemma sort_values_perm le l : Permutation l (sort_values le l).
Proof.
  induction l as [|x l IH]; simpl.
  - apply perm_nil.
  - eapply perm_trans; [apply perm_skip, IH | apply insert_sorted_perm].
Qed.

Lemma sort_for_perm strategy group : Permutation group (sort_for strategy group).
Proof.
  destruct strategy; simpl; auto using sort_values_perm, Permutation_refl.
Qed.

Lemma distribute_lot_nonneg saisie idx rem lot :
  0 <= QUANTITE_ORIGINALE lot ->
  0 <= QUANTITE_CORRIGEE (fst (distribute_lot saisie idx rem lot)).
Proof.
  intros H. unfold distribute_lot.
  destruct (Qeq_bool rem 0) eqn:E0; [exact H|].
  destruct (Qgt_bool rem 0) eqn:E1.
  - qbool. destruct (Nat.eqb idx 0); simpl; lra.
  - destruct (Qle_bool _ _) eqn:E2; simpl; [lra|].
    qbool. rewrite Qabs_neg in E2 by lra. lra.
Qed.

Lemma distribute_loop_nonneg saisie lots : forall idx rem,
  Forall (fun lot => 0 <= QUANTITE_ORIGINALE lot) lots ->
  Forall (fun row => 0 <= QUANTITE_CORRIGEE row) (fst (distribute_loop saisie idx rem lots)).
Proof.
  induction lots as [|lot rest IH]; intros idx rem H.
  - constructor.
  - inversion H as [|? ? Hlot Hrest]; subst.
    cbn [distribute_loop].
    pose proof (distribute_lot_nonneg saisie idx rem lot Hlot) as Hn.
    destruct (distribute_lot saisie idx rem lot) as [row rem'].
    specialize (IH (S idx) rem' Hrest).
    destruct (distribute_loop saisie (S idx) rem' rest) as [rows final].
    simpl in *. constructor; assumption.
Qed.



Lemma distribute_group_rows strategy article group :
  fst (distribute_group strategy article group)
  = fst (distribute_loop (quantite_reelle_saisie group) 0 (ecart_total group)
           (sort_for strategy group)).
Proof.
  unfold distribute_group. destruct (distribute_loop _ _ _ _). reflexivity.
Qed.

Lemma distribute_group_log strategy article group :
  snd (distribute_group strategy article group)
  = let ecart_restant :=
      snd (distribute_loop (quantite_reelle_saisie group) 0 (ecart_total group)
             (sort_for strategy group)) in
    if Qgt_bool (Qabs ecart_restant) residual_tolerance
    then [WarnResidual article ecart_restant] else [].
Proof.
  unfold distribute_group. destruct (distribute_loop _ _ _ _). reflexivity.
Qed.




(** C5, as the code has it.  A line whose own original quantity is not
    negative never gets a negative [QUANTITE_CORRIGEE], whatever the other
    lines of its group and whatever the counted quantity: row for row
    along the sorted group, in every group and so in the rows of all the
    groups.  In particular a group without negative line has no negative
    corrected quantity. *)
Theorem corrected_quantity_nonnegative :
  forall (strategy : Strategy) (article : string) (group : list Row),
    let rows := fst (distribute_group strategy article group) in
    Forall2 (fun lot row =>
               QUANTITE_ORIGINALE row = QUANTITE_ORIGINALE lot
               /\ (0 <= QUANTITE_ORIGINALE lot -> 0 <= QUANTITE_CORRIGEE row))
            (sort_for strategy group) rows
    /\ Forall (fun row => 0 <= QUANTITE_ORIGINALE row -> 0 <= QUANTITE_CORRIGEE row) rows
    /\ (forall groups : list (GroupKey * list Row),
          Forall (fun row => 0 <= QUANTITE_ORIGINALE row -> 0 <= QUANTITE_CORRIGEE row)
                 (fst (distribute_groups strategy groups)))
    /\ (Forall (fun lot => 0 <= QUANTITE_ORIGINALE lot) group ->
        Forall (fun row => 0 <= QUANTITE_CORRIGEE row) rows).
Proof.
  intros strategy article group rows.
  assert (Hlot : forall saisie idx rem lot,
            QUANTITE_ORIGINALE (fst (distribute_lot saisie idx rem lot))
            = QUANTITE_ORIGINALE lot).
  { intros saisie idx rem lot. unfold distribute_lot.
    repeat match goal with |- context [if ?b then _ else _] => destruct b end;
      reflexivity. }
  assert (Hloop : forall saisie lots idx rem,
            Forall2 (fun lot row =>
                       QUANTITE_ORIGINALE row = QUANTITE_ORIGINALE lot
                       /\ (0 <= QUANTITE_ORIGINALE lot -> 0 <= QUANTITE_CORRIGEE row))
                    lots (fst (distribute_loop saisie idx rem lots))).
  { intros saisie lots. induction lots as [|lot rest IH]; intros idx rem; [constructor|].
    cbn [distribute_loop].
    pose proof (Hlot saisie idx rem lot) as Ho.
    pose proof (distribute_lot_nonneg saisie idx rem lot) as Hn.
    destruct (distribute_lot saisie idx rem lot) as [row rem'].
    specialize (IH (S idx) rem').
    destruct (distribute_loop saisie (S idx) rem' rest) as [rows' final].
    cbn [fst] in *. constructor; [split; assumption | exact IH]. }
  assert (Hgroup : forall a g,
            Forall (fun row => 0 <= QUANTITE_ORIGINALE row -> 0 <= QUANTITE_CORRIGEE row)
                   (fst (distribute_group strategy a g))).
  { intros a g. rewrite distribute_group_rows.
    generalize (Hloop (quantite_reelle_saisie g) (sort_for strategy g) 0%nat (ecart_total g)).
    generalize (fst (distribute_loop (quantite_reelle_saisie g) 0 (ecart_total g)
                       (sort_for strategy g))).
    generalize (sort_for strategy g).
    induction 1 as [|lot row lots rows' [Ho Hn] _ IH]; constructor; [|exact IH].
    rewrite Ho. exact Hn. }
  split; [|split; [|split]].
  - subst rows. rewrite distribute_group_rows. apply Hloop.
  - apply Hgroup.
  - intros groups. induction groups as [|[key g] groups IH]; [constructor|].
    cbn [distribute_groups].
    pose proof (Hgroup (key_article key) g) as Hg.
    destruct (distribute_group strategy (key_article key) g) as [rows1 log1].
    destruct (distribute_groups strategy groups) as [rows2 log2].
    cbn [fst] in *. apply Forall_app. split; assumption.
  - intros H. subst rows. rewrite distribute_group_rows.
    apply distribute_loop_nonneg.
    eapply Permutation_Forall; [apply sort_for_perm | exact H].
Qed.

Lemma corrected_quantity_nonnegative_witness :
  Forall (fun row => 0 <= QUANTITE_CORRIGEE row)
         (fst (distribute_group LIFO "ART1" (ex_rows 8)))
  /\ Forall (fun row => 0 <= QUANTITE_ORIGINALE row -> 0 <= QUANTITE_CORRIGEE row)
            (fst (distribute_group FIFO "ART1"
                    [discrepancy_row ex_lot_negative 2; discrepancy_row ex_lot_new 2])).
Proof.
  split.
  - apply (proj2 (proj2 (proj2 (corrected_quantity_nonnegative LIFO "ART1" (ex_rows 8))))).
    repeat constructor; discriminate.
  - exact (proj1 (proj2 (corrected_quantity_nonnegative FIFO "ART1"
                           [discrepancy_row ex_lot_negative 2;
                            discrepancy_row ex_lot_new 2]))).
Defined.

(** C5 as stated fails. The extract holds a line with theoretical quantity
    -3 and a line with 5, and 2 is counted: the difference is zero, every
    line keeps its quantity and the first row of the distributed table
    has [QUANTITE_CORRIGEE = -3]. *)
Lemma corrected_quantity_negative_example :
  exists distributed log lines,
    ex_run FIFO [ex_lot_negative; ex_lot_new] [ex_counted "ART1" 2 2]
    = Some (distributed, log, lines)
    /\ Exists (fun row => QUANTITE_CORRIGEE row < 0) distributed
    /\ ~ Forall (fun row => 0 <= QUANTITE_CORRIGEE row)
           (fst (distribute_group FIFO "ART1"
                   [discrepancy_row ex_lot_negative 2; discrepancy_row ex_lot_new 2])).
Proof.
  eexists _, _, _. split; [vm_compute; reflexivity|]. split.
  - apply Exists_cons_hd. reflexivity.
  - intros H. inversion H as [|? ? Hneg _]. apply Hneg. reflexivity.
Qed.

End DistributionProperties.

(** ** Python strings *)

Lemma string_app_cons x (a b : string) : String x a ++ b = String x (a ++ b).
Proof. reflexivity. Qed.

Lemma string_app_nil_l (b : string) : "" ++ b = b.
Proof. reflexivity. Qed.

Ltac str_simpl := rewrite ?string_app_cons, ?string_app_nil_l; simpl.

Lemma string_app_assoc (a b c : string) : (a ++ b) ++ c = a ++ (b ++ c).
Proof. induction a as [|x a IH]; str_simpl; [reflexivity | now rewrite IH]. Qed.

Lemma string_app_nil_r (a : string) : a ++ "" = a.
Proof. induction a as [|x a IH]; str_simpl; [reflexivity | now rewrite IH]. Qed.

Lemma string_app_empty (a b : string) : a ++ b = "" -> a = "" /\ b = "".
Proof. destruct a; str_simpl; [auto | discriminate]. Qed.

Lemma contains_char_app c (a b : string) :
  contains_char c (a ++ b) = contains_char c a || contains_char c b.
Proof.
  induction a as [|x a IH]; str_simpl; [reflexivity|].
  rewrite IH. apply orb_assoc.
Qed.

Lemma string_forallb_app f (a b : string) :
  string_forallb f (a ++ b) = string_forallb f a && string_forallb f b.
Proof.
  induction a as [|x a IH]; str_simpl; [reflexivity|].
  rewrite IH. apply andb_assoc.
Qed.

Lemma last_char_app (a b : string) : b <> "" -> last_char (a ++ b) = last_char b.
Proof.
  intros Hb. induction a as [|x a IH]; str_simpl; [reflexivity|].
  destruct (a ++ b) eqn:E; [|exact IH].
  apply string_app_empty in E. tauto.
Qed.

Lemma last_char_forallb f (s : string) c :
  string_forallb f s = true -> last_char s = Some c -> f c = true.
Proof.
  induction s as [|x s IH]; simpl; [discriminate|].
  intros H Hl. apply andb_true_iff in H as [Hx Hs].
  destruct s; [congruence | auto].
Qed.

Lemma rstrip_with_app_keep f (a b : string) :
  rstrip_with f b <> "" -> rstrip_with f (a ++ b) = a ++ rstrip_with f b.
Proof.
  intros Hb. induction a as [|x a IH]; str_simpl; [reflexivity|].
  rewrite IH. destruct (a ++ rstrip_with f b) eqn:E; [|reflexivity].
  apply string_app_empty in E. tauto.
Qed.

Lemma rstrip_with_app_drop f (a b : string) :
  rstrip_with f b = "" -> rstrip_with f (a ++ b) = rstrip_with f a.
Proof.
  intros Hb. induction a as [|x a IH]; str_simpl; [exact Hb | now rewrite IH].
Qed.

Lemma rstrip_with_last f (s : string) c :
  last_char (rstrip_with f s) = Some c -> f c = false.
Proof.
  induction s as [|x s IH]; simpl; [discriminate|].
  destruct (rstrip_with f s) as [|y t] eqn:E.
  - destruct (f x) eqn:Ex; simpl; [discriminate|]. congruence.
  - intros H. apply IH. exact H.
Qed.

Lemma rstrip_with_fixed f (s : string) :
  (forall c, last_char s = Some c -> f c = false) -> rstrip_with f s = s.
Proof.
  induction s as [|x s IH]; simpl; [reflexivity|].
  intros H. destruct s as [|y s].
  - simpl. rewrite (H x eq_refl). reflexivity.
  - rewrite (IH H). reflexivity.
Qed.

Lemma string_forallb_rstrip P f (s : string) :
  string_forallb P s = true -> string_forallb P (rstrip_with f s) = true.
Proof.
  induction s as [|x s IH]; simpl; [reflexivity|].
  intros H. apply andb_true_iff in H as [Hx Hs]. specialize (IH Hs).
  destruct (rstrip_with f s); [destruct (f x); simpl; [reflexivity | now rewrite Hx]|].
  change (P x && string_forallb P (String a s0) = true). now rewrite Hx, IH.
Qed.

Lemma string_forallb_impl (P R : ascii -> bool) (s : string) :
  (forall c, P c = true -> R c = true) ->
  string_forallb P s = true -> string_forallb R s = true.
Proof.
  intros HPR. induction s as [|x s IH]; simpl; [reflexivity|].
  intros H. apply andb_true_iff in H as [Hx Hs]. now rewrite (HPR _ Hx), IH.
Qed.

Lemma contains_char_forallb c (P : ascii -> bool) (s : string) :
  P c = false -> string_forallb P s = true -> contains_char c s = false.
Proof.
  intros Hc. induction s as [|x s IH]; simpl; [reflexivity|].
  intros H. apply andb_true_iff in H as [Hx Hs]. rewrite (IH Hs), orb_false_r.
  apply Ascii.eqb_neq. intros ->. congruence.
Qed.

Lemma replace_char_absent (a b : ascii) (s : string) :
  a <> b -> contains_char a (replace_char a b s) = false.
Proof.
  intros Hab. induction s as [|x s IH]; simpl; [reflexivity|].
  rewrite IH, orb_false_r.
  destruct (Ascii.eqb x a) eqn:E; apply Ascii.eqb_neq; [congruence|].
  apply Ascii.eqb_neq in E. exact E.
Qed.

(** Decimal digits. *)

Lemma digit_char_is_digit (d : Z) : (0 <= d < 10)%Z -> is_digit (digit_char d) = true.
Proof.
  intros H. assert (Hd : In d [0;1;2;3;4;5;6;7;8;9]%Z) by (simpl; lia).
  simpl in Hd. repeat (destruct Hd as [<-|Hd]; [reflexivity|]). contradiction.
Qed.

Lemma fixed_digits_are_digits (k : nat) : forall n,
  string_forallb is_digit (fixed_digits k n) = true.
Proof.
  induction k as [|k IH]; intros n; simpl; [reflexivity|].
  rewrite string_forallb_app, IH. cbn [string_forallb andb].
  rewrite digit_char_is_digit; [reflexivity | apply Z.mod_pos_bound; lia].
Qed.

Lemma uint_digits (d : Decimal.uint) :
  string_forallb is_digit (NilEmpty.string_of_uint d) = true.
Proof. induction d; simpl; auto. Qed.

Lemma string_of_uint_nonnil (d : Decimal.uint) :
  d <> Decimal.Nil ->
  NilZero.string_of_uint d = NilEmpty.string_of_uint d
  /\ NilEmpty.string_of_uint d <> "".
Proof. destruct d; intros H; try congruence; split; first [reflexivity | discriminate]. Qed.

Lemma py_str_int_digits (z : Z) :
  (0 <= z)%Z ->
  string_forallb is_digit (py_str_int z) = true /\ py_str_int z <> "".
Proof.
  intros Hz. unfold py_str_int.
  destruct z as [|p|p]; [split; [reflexivity | discriminate]| |lia].
  cbn [Z.to_int NilZero.string_of_int].
  destruct (string_of_uint_nonnil _ (DecimalPos.Unsigned.to_uint_nonnil p)) as [-> Hne].
  split; [apply uint_digits | exact Hne].
Qed.

(** ** Number formatting *)

Lemma round_half_even_near (x : Q) :
  (Qabs (inject_Z (round_half_even x) - x) <= 1 # 2)%Q.
Proof.
  unfold round_half_even.
  pose proof (Qfloor_le x) as Hlo. pose proof (Qlt_floor x) as Hhi.
  rewrite inject_Z_plus in Hhi. change (inject_Z 1) with 1%Q in Hhi.
  destruct (Qcompare (x - inject_Z (Qfloor x)) (1 # 2)) eqn:E.
  - apply Qeq_alt in E.
    destruct (Z.even (Qfloor x)); [|rewrite inject_Z_plus; change (inject_Z 1) with 1%Q];
      apply Qabs_case; intros; lra.
  - apply Qlt_alt in E. apply Qabs_case; intros; lra.
  - apply Qgt_alt in E. rewrite inject_Z_plus. change (inject_Z 1) with 1%Q.
    apply Qabs_case; intros; lra.
Qed.

Lemma round_half_even_nonneg (x : Q) : (0 <= x)%Q -> (0 <= round_half_even x)%Z.
Proof.
  intros Hx. unfold round_half_even.
  assert (H0 : (0 <= Qfloor x)%Z).
  { change 0%Z with (Qfloor 0). apply Qfloor_resp_le, Hx. }
  destruct (Qcompare _ _); [destruct (Z.even _)| |]; lia.
Qed.


Lemma rstrip_zero_point (D : string) :
  rstrip_char "0" ("." ++ D) = "." ++ rstrip_char "0" D.
Proof.
  unfold rstrip_char. rewrite !string_app_cons, !string_app_nil_l. simpl.
  destruct (rstrip_with (Ascii.eqb "0") D); reflexivity.
Qed.

Lemma format_number_stripped (A D : string) :
  A <> "" ->
  string_forallb (fun c => is_digit c || Ascii.eqb c "-") A = true ->
  string_forallb is_digit D = true ->
  rstrip_char "." (rstrip_char "0" (A ++ "." ++ D))
  = A ++ match rstrip_char "0" D with
         | EmptyString => EmptyString
         | decimals => "." ++ decimals
         end.
Proof.
  intros HA HAd HD.
  assert (Hlast : forall s c, string_forallb (fun c => is_digit c || Ascii.eqb c "-") s = true ->
                    last_char s = Some c -> Ascii.eqb "." c = false).
  { intros s c Hs Hl. pose proof (last_char_forallb _ _ _ Hs Hl) as Hc.
    apply Ascii.eqb_neq. intros <-. discriminate. }
  unfold rstrip_char at 2.
  rewrite rstrip_with_app_keep.
  2:{ fold (rstrip_char "0" ("." ++ D)). rewrite rstrip_zero_point. discriminate. }
  fold (rstrip_char "0" ("." ++ D)). rewrite rstrip_zero_point.
  pose proof (string_forallb_rstrip is_digit (Ascii.eqb "0") D HD) as HD'.
  fold (rstrip_char "0" D) in HD'.
  destruct (rstrip_char "0" D) as [|y t] eqn:E.
  - rewrite !string_app_nil_r. unfold rstrip_char.
    rewrite rstrip_with_app_drop by reflexivity.
    apply rstrip_with_fixed.
    intros c Hl. exact (Hlast _ _ HAd Hl).
  - unfold rstrip_char. apply rstrip_with_fixed. intros c Hl.
    rewrite last_char_app in Hl by discriminate.
    rewrite last_char_app in Hl by discriminate.
    apply (Hlast (String y t) c); [|exact Hl].
    eapply string_forallb_impl; [|exact HD']. intros ? ->. reflexivity.
Qed.

Lemma format_fixed_shape (f : Q) :
  let n := round_half_even (Qabs f * inject_Z (10 ^ 6)) in
  format_fixed 6 f
  = (sign_text f ++ py_str_int (n / 10 ^ 6)) ++ "." ++ fixed_digits 6 (n mod 10 ^ 6).
Proof.
  intros n. unfold format_fixed. fold (sign_text f).
  change (Z.of_nat 6) with 6%Z. fold n.
  rewrite string_app_assoc. reflexivity.
Qed.

Lemma scaled_nonneg (f : Q) :
  (0 <= round_half_even (Qabs f * inject_Z (10 ^ 6)) / 10 ^ 6)%Z.
Proof.
  apply Z.div_pos; [|lia]. apply round_half_even_nonneg.
  apply Qmult_le_0_compat; [apply Qabs_nonneg | discriminate].
Qed.

Lemma integer_text_ok (f : Q) :
  let A := sign_text f ++ py_str_int (round_half_even (Qabs f * inject_Z (10 ^ 6)) / 10 ^ 6) in
  A <> "" /\ string_forallb (fun c => is_digit c || Ascii.eqb c "-") A = true.
Proof.
  intros A. subst A.
  destruct (py_str_int_digits _ (scaled_nonneg f)) as [Hd Hne].
  split.
  - intros H. apply string_app_empty in H. tauto.
  - rewrite string_forallb_app. apply andb_true_iff. split.
    + unfold sign_text. destruct (Qgt_bool 0 f); reflexivity.
    + eapply string_forallb_impl; [|exact Hd]. intros ? ->. reflexivity.
Qed.

(** The text of a number: sign, integer digits and the significant
    decimals among the six. *)
Lemma format_number_of_number (py_float : string -> option Q) (f : Q) :
  let n := round_half_even (Qabs f * inject_Z (10 ^ 6)) in
  _format_number py_float (VNum f)
  = sign_text f ++ py_str_int (n / 10 ^ 6) ++ significant_decimals 6 (n mod 10 ^ 6).
Proof.
  intros n. unfold _format_number, _decimal_precision.
  rewrite format_fixed_shape. fold n.
  destruct (integer_text_ok f) as [HA HAd]. fold n in HA, HAd.
  set (A := sign_text f ++ py_str_int (n / 10 ^ 6)) in *.
  set (D := fixed_digits 6 (n mod 10 ^ 6)).
  assert (Hc : contains_char "." (A ++ "." ++ D) = true).
  { rewrite !contains_char_app. simpl. apply orb_true_r. }
  rewrite Hc.
  rewrite (format_number_stripped A D HA HAd (fixed_digits_are_digits _ _)).
  fold (significant_decimals 6 (n mod 10 ^ 6)).
  destruct (String.eqb _ _) eqn:E.
  - apply String.eqb_eq in E. apply string_app_empty in E. tauto.
  - subst A. apply string_app_assoc.
Qed.

Lemma significant_decimals_shape (precision : nat) (frac : Z) :
  significant_decimals precision frac = ""
  \/ exists decimals,
       significant_decimals precision frac = "." ++ decimals
       /\ decimals <> ""
       /\ string_forallb is_digit decimals = true
       /\ forall c, last_char decimals = Some c -> c <> "0"%char.
Proof.
  unfold significant_decimals.
  pose proof (string_forallb_rstrip is_digit (Ascii.eqb "0") _
                (fixed_digits_are_digits precision frac)) as Hd.
  pose proof (rstrip_with_last (Ascii.eqb "0") (fixed_digits precision frac)) as Hl.
  fold (rstrip_char "0" (fixed_digits precision frac)) in Hd, Hl.
  destruct (rstrip_char "0" (fixed_digits precision frac)) as [|y t]; [left; reflexivity|].
  right. exists (String y t). repeat split; try assumption; try discriminate.
  intros c Hc. apply Hl in Hc. apply Ascii.eqb_neq in Hc. congruence.
Qed.

Lemma format_number_last_char (py_float : string -> option Q) (f : Q) (c : ascii) :
  last_char (_format_number py_float (VNum f)) = Some c ->
  c <> "."%char
  /\ (contains_char "." (_format_number py_float (VNum f)) = true -> c <> "0"%char).
Proof.
  rewrite format_number_of_number.
  set (n := round_half_even _).
  destruct (integer_text_ok f) as [HA HAd]. fold n in HA, HAd.
  rewrite <- string_app_assoc.
  set (A := sign_text f ++ py_str_int (n / 10 ^ 6)) in *.
  destruct (significant_decimals_shape 6 (n mod 10 ^ 6)) as [-> | [d [-> [Hne [Hd Hlast]]]]].
  - rewrite string_app_nil_r. intros Hl. split.
    + pose proof (last_char_forallb _ _ _ HAd Hl) as Hc. intros ->. discriminate.
    + intros Hp.
      rewrite (contains_char_forallb "." (fun c => is_digit c || Ascii.eqb c "-") A eq_refl HAd)
        in Hp.
      discriminate.
  - rewrite last_char_app by discriminate.
    rewrite string_app_cons, string_app_nil_l.
    change (last_char (String "." d)) with (match d with EmptyString => Some "."%char | _ => last_char d end).
    destruct d as [|y t]; [congruence|].
    intros Hl. split.
    + pose proof (last_char_forallb _ _ _ Hd Hl) as Hc. intros ->. discriminate.
    + intros _. apply Hlast, Hl.
Qed.

Lemma format_number_nonempty (py_float : string -> option Q) (f : Q) :
  _format_number py_float (VNum f) <> "".
Proof.
  rewrite format_number_of_number. intros H.
  apply string_app_empty in H as [_ H]. apply string_app_empty in H as [H _].
  destruct (py_str_int_digits _ (scaled_nonneg f)) as [_ Hne]. contradiction.
Qed.

Lemma format_precision (f : Q) :
  (Qabs (inject_Z (round_half_even (Qabs f * inject_Z (10 ^ 6))) / inject_Z (10 ^ 6) - Qabs f)
   <= 1 # 2000000)%Q.
Proof.
  change (inject_Z (10 ^ 6)) with 1000000%Q.
  pose proof (round_half_even_near (Qabs f * 1000000)) as H.
  revert H. set (n := inject_Z (round_half_even _)). set (a := Qabs f).
  clearbody n a.
  intros H. apply Qabs_Qle_condition in H. apply Qabs_Qle_condition.
  unfold Qdiv. change (/ 1000000)%Q with (1 # 1000000)%Q.
  split; lra.
Qed.

(** C9, as the code has it.  A number is rounded to six decimals (to the
    nearest, at most half a millionth away) and written as sign, integer
    digits and the decimals that remain once trailing zeros are removed,
    the point going with them when nothing remains: the text is never
    empty, never ends with a point, and never ends with a zero after a
    point.  [_to_csv_number] replaces the point by a comma, so 12.500000
    gives [12,5].  A text is trimmed and its commas are replaced by points;
    when [float] then reads it as a number it is formatted as that number,
    and when [float] rejects it the trimmed text itself is returned. *)
Theorem number_formatting :
  forall (py_float : string -> option Q),
    (forall f : Q,
       let n := round_half_even (Qabs f * inject_Z (10 ^ 6)) in
       let text := _format_number py_float (VNum f) in
       (Qabs (inject_Z n / inject_Z (10 ^ 6) - Qabs f) <= 1 # 2000000)%Q
       /\ text = sign_text f ++ py_str_int (n / 10 ^ 6) ++ significant_decimals 6 (n mod 10 ^ 6)
       /\ text <> ""
       /\ (forall c, last_char text = Some c ->
             c <> "."%char /\ (contains_char "." text = true -> c <> "0"%char))
       /\ _to_csv_number py_float (VNum f) "," = replace_char "." "," text
       /\ contains_char "." (_to_csv_number py_float (VNum f) ",") = false)
    /\ (forall s : string,
          let cleaned := replace_char "," "." (py_strip s) in
          (forall f, py_float cleaned = Some f ->
             _format_number py_float (VStr s) = _format_number py_float (VNum f)
             /\ _to_csv_number py_float (VStr s) "," = _to_csv_number py_float (VNum f) ",")
          /\ (py_float cleaned = None ->
              _format_number py_float (VStr s) = cleaned
              /\ _to_csv_number py_float (VStr s) "," = replace_char "." "," cleaned))
    /\ _format_number py_float (VNum (25 # 2)) = "12.5"
    /\ _to_csv_number py_float (VNum (25 # 2)) "," = "12,5".
Proof.
  intros py_float. split; [|split; [|split; reflexivity]].
  - intros f n text. subst n text.
    split; [apply format_precision|].
    split; [apply format_number_of_number|].
    split; [apply format_number_nonempty|].
    split; [apply format_number_last_char|].
    split; [reflexivity|].
    unfold _to_csv_number. rewrite String.eqb_refl.
    apply replace_char_absent. discriminate.
  - intros s cleaned. subst cleaned. split.
    + intros f Hf. unfold _to_csv_number, _format_number. rewrite Hf. split; reflexivity.
    + intros Hf. unfold _to_csv_number, _format_number. rewrite Hf. split; reflexivity.
Qed.

Lemma number_formatting_witness :
  _to_csv_number decimal_literal (VStr " 12,50 ") "," = "12,5"
  /\ _to_csv_number decimal_literal (VStr "12.50") "," = "12,5"
  /\ _to_csv_number decimal_literal (VStr "N/A") "," = "N/A".
Proof.
  pose proof (proj1 (proj2 (number_formatting decimal_literal))) as Htext.
  split; [|split].
  - rewrite (proj2 (proj1 (Htext " 12,50 ") (25 # 2)%Q eq_refl)). reflexivity.
  - rewrite (proj2 (proj1 (Htext "12.50") (25 # 2)%Q eq_refl)). reflexivity.
  - rewrite (proj2 (proj2 (Htext "N/A") eq_refl)). reflexivity.
Defined.

(** C9 as stated fails: a text that is not a number comes back as it
    was given. *)
Lemma text_echoed_raw :
  _format_number decimal_literal (VStr "abc") = "abc"
  /\ _to_csv_number decimal_literal (VStr "abc") "," = "abc".
Proof. split; reflexivity. Qed.

(** ** Lot classifier *)

Lemma string_length_app (a b : string) :
  String.length (a ++ b) = (String.length a + String.length b)%nat.
Proof. induction a as [|x a IH]; str_simpl; [reflexivity | now rewrite IH]. Qed.

Lemma take_class_app f (group : string) : forall n rest,
  String.length group = n -> string_forallb f group = true ->
  take_class f n (group ++ rest) = Some (group, rest).
Proof.
  induction group as [|c group IH]; intros n rest Hn Hf; simpl in Hn; subst n.
  - reflexivity.
  - simpl in Hf. apply andb_true_iff in Hf as [Hc Hf].
    rewrite string_app_cons. cbn [take_class]. rewrite Hc, (IH _ rest eq_refl Hf). reflexivity.
Qed.

Lemma take_class_some f n : forall s group rest,
  take_class f n s = Some (group, rest) ->
  s = group ++ rest /\ String.length group = n /\ string_forallb f group = true.
Proof.
  induction n as [|n IH]; intros s group rest H; simpl in H.
  - injection H as <- <-. repeat split.
  - destruct s as [|c s]; [discriminate|].
    destruct (f c) eqn:Hc; [|discriminate].
    destruct (take_class f n s) as [[g r]|] eqn:E; [|discriminate].
    injection H as <- <-. destruct (IH _ _ _ E) as [-> [Hl Hf]].
    rewrite string_app_cons. simpl. rewrite Hc, Hf, Hl. repeat split.
Qed.

Lemma take_literal_some (literal : string) : forall s rest,
  take_literal literal s = Some rest -> s = literal ++ rest.
Proof.
  induction literal as [|c literal IH]; intros s rest H; simpl in H.
  - injection H as <-. reflexivity.
  - destruct s as [|c' s]; [discriminate|].
    destruct (Ascii.eqb c' c) eqn:E; [|discriminate].
    apply Ascii.eqb_eq in E. subst c'. rewrite (IH _ _ H). reflexivity.
Qed.

Lemma take_literal_app (literal rest : string) :
  take_literal literal (literal ++ rest) = Some rest.
Proof.
  induction literal as [|c literal IH]; [reflexivity|].
  rewrite string_app_cons. cbn [take_literal]. rewrite Ascii.eqb_refl. exact IH.
Qed.

Lemma at_regex_end_cases (rest : string) :
  at_regex_end rest = true -> rest = "" \/ rest = String (ascii_of_nat 10) "".
Proof.
  unfold at_regex_end. intros H. apply orb_true_iff in H as [H|H];
    apply String.eqb_eq in H; auto.
Qed.

Lemma match_type1_of_shape (s site_code date_part suffix : string) :
  type1_shape s site_code date_part suffix ->
  match_type1 s = Some (site_code, date_part, suffix).
Proof.
  intros [-> [Hl1 [Hf1 [Hl2 [Hf2 [Hl3 Hf3]]]]]]. unfold match_type1.
  rewrite (take_class_app _ _ _ _ Hl1 Hf1).
  rewrite (take_class_app _ _ _ _ Hl2 Hf2).
  rewrite <- (string_app_nil_r suffix) at 1.
  rewrite (take_class_app _ _ _ _ Hl3 Hf3). reflexivity.
Qed.

Lemma match_type1_some (s site_code date_part suffix : string) :
  match_type1 s = Some (site_code, date_part, suffix) ->
  exists rest,
    s = site_code ++ date_part ++ suffix ++ rest
    /\ type1_shape (site_code ++ date_part ++ suffix) site_code date_part suffix
    /\ (rest = "" \/ rest = String (ascii_of_nat 10) "").
Proof.
  unfold match_type1. intros H.
  destruct (take_class is_upper_or_digit 5 s) as [[a r1]|] eqn:E1; [|discriminate].
  destruct (take_class is_digit 6 r1) as [[b r2]|] eqn:E2; [|discriminate].
  destruct (take_class is_upper_or_digit 4 r2) as [[c r3]|] eqn:E3; [|discriminate].
  destruct (at_regex_end r3) eqn:E4; [|discriminate].
  injection H as <- <- <-.
  apply take_class_some in E1 as [-> [L1 F1]].
  apply take_class_some in E2 as [-> [L2 F2]].
  apply take_class_some in E3 as [-> [L3 F3]].
  exists r3. split; [reflexivity|]. split; [|apply at_regex_end_cases, E4].
  unfold type1_shape. tauto.
Qed.

Lemma match_type2_of_shape (s date_part : string) :
  type2_shape s date_part -> match_type2 s = Some date_part.
Proof.
  intros [-> [Hl Hf]]. unfold match_type2.
  rewrite take_literal_app.
  rewrite <- (string_app_nil_r date_part) at 1.
  rewrite (take_class_app _ _ _ _ Hl Hf). reflexivity.
Qed.

Lemma match_type2_some (s date_part : string) :
  match_type2 s = Some date_part ->
  exists rest,
    s = "LOT" ++ date_part ++ rest
    /\ type2_shape ("LOT" ++ date_part) date_part
    /\ (rest = "" \/ rest = String (ascii_of_nat 10) "").
Proof.
  unfold match_type2. intros H.
  destruct (take_literal "LOT" s) as [r1|] eqn:E1; [|discriminate].
  destruct (take_class is_digit 6 r1) as [[b r2]|] eqn:E2; [|discriminate].
  destruct (at_regex_end r2) eqn:E4; [|discriminate].
  injection H as <-.
  apply take_literal_some in E1 as ->.
  apply take_class_some in E2 as [-> [L2 F2]].
  exists r2. split; [reflexivity|]. split; [|apply at_regex_end_cases, E4].
  unfold type2_shape. tauto.
Qed.

Lemma py_strip_last (s : string) (c : ascii) :
  last_char (py_strip s) = Some c -> is_py_space c = false.
Proof. apply rstrip_with_last. Qed.

Lemma py_strip_no_final_newline (s body : string) :
  py_strip s <> body ++ String (ascii_of_nat 10) "".
Proof.
  intros H. pose proof (py_strip_last s (ascii_of_nat 10)) as Hl.
  rewrite H, last_char_app in Hl by discriminate.
  specialize (Hl eq_refl). discriminate.
Qed.

Lemma site_code_allowed (site_code : string) (codes : list string) :
  existsb (String.eqb site_code) codes = true <-> In site_code codes.
Proof.
  rewrite existsb_exists. split.
  - intros [x [Hin Heq]]. apply String.eqb_eq in Heq. now subst.
  - intros Hin. exists site_code. split; [exact Hin | apply String.eqb_refl].
Qed.

Lemma datetime_out_of_range (year month day : Z) :
  (day < 1 \/ 31 < day \/ month < 1 \/ 12 < month)%Z -> datetime year month day = None.
Proof.
  intros H. unfold datetime.
  assert (Hd : (days_in_month year month <= 31)%Z).
  { unfold days_in_month. repeat match goal with |- context [if ?b then _ else _] => destruct b end; lia. }
  destruct (_ && _) eqn:E; [|reflexivity].
  repeat (apply andb_true_iff in E as [E ?]). lia.
Qed.

(** C8. On the trimmed lot number: a text of the type-1 shape whose site
    code is not in the allow-list is [unknown] without a date; with an
    allowed site code it is [type1], with the date [DDMMYY] read in the
    years 2000 when that is a date of the calendar and without a date
    otherwise (in particular when the day exceeds 31 or the month 12); a
    text of the type-2 shape is [type2] without a date; every other text,
    and a missing lot number, is [unknown] without a date. *)
Theorem lot_classification :
  forall (PRIORITY1_SITE_CODES : list string) (lot : string),
    let classified := _extract_date_from_lot PRIORITY1_SITE_CODES (Some lot) in
    (forall site_code date_part suffix,
       type1_shape (py_strip lot) site_code date_part suffix ->
       let day := int_of_digits (substring 0 2 date_part) in
       let month := int_of_digits (substring 2 2 date_part) in
       let year := (int_of_digits (substring 4 2 date_part) + 2000)%Z in
       (~ In site_code PRIORITY1_SITE_CODES -> classified = (None, unknown))
       /\ (In site_code PRIORITY1_SITE_CODES ->
           classified = (datetime year month day, type1)
           /\ ((31 < day)%Z \/ (12 < month)%Z -> classified = (None, type1))))
    /\ (forall date_part,
          type2_shape (py_strip lot) date_part -> classified = (None, type2))
    /\ ((forall site_code date_part suffix,
           ~ type1_shape (py_strip lot) site_code date_part suffix) ->
        (forall date_part, ~ type2_shape (py_strip lot) date_part) ->
        classified = (None, unknown))
    /\ _extract_date_from_lot PRIORITY1_SITE_CODES None = (None, unknown).
Proof.
  intros codes lot classified. subst classified. unfold _extract_date_from_lot.
  split; [|split; [|split; [|reflexivity]]].
  - intros site_code date_part suffix Hshape. cbv zeta.
    set (day := int_of_digits (substring 0 2 date_part)).
    set (month := int_of_digits (substring 2 2 date_part)).
    set (year := (int_of_digits (substring 4 2 date_part) + 2000)%Z).
    rewrite (match_type1_of_shape _ _ _ _ Hshape). split.
    + intros Hnot. destruct (existsb _ codes) eqn:E; [|reflexivity].
      apply site_code_allowed in E. contradiction.
    + intros Hin. apply site_code_allowed in Hin. rewrite Hin. cbn [negb].
      fold day month year.
      assert (Hclass :
        (if negb ((1 <=? day)%Z && (day <=? 31)%Z && (1 <=? month)%Z && (month <=? 12)%Z)
         then (None, type1)
         else match datetime year month day with
              | Some d => (Some d, type1)
              | None => (None, type1)
              end) = (datetime year month day, type1)).
      { destruct (_ && _) eqn:E; cbn [negb].
        - destruct (datetime year month day); reflexivity.
        - rewrite datetime_out_of_range; [reflexivity|].
          repeat (apply andb_false_iff in E as [E|E]); lia. }
      rewrite Hclass. split; [reflexivity|].
      intros Hbad. rewrite datetime_out_of_range; [reflexivity | lia].
  - intros date_part Hshape.
    destruct (match_type1 (py_strip lot)) as [[[a b] c]|] eqn:E1.
    + exfalso. apply match_type1_some in E1 as [rest [Hs [[_ [L1 [_ [L2 [_ [L3 _]]]]]] _]]].
      destruct Hshape as [Hs2 [L _]].
      pose proof (f_equal String.length Hs) as Hlen1.
      pose proof (f_equal String.length Hs2) as Hlen2.
      repeat rewrite string_length_app in Hlen1.
      rewrite string_length_app in Hlen2. simpl in Hlen2. lia.
    + rewrite (match_type2_of_shape _ _ Hshape). reflexivity.
  - intros Hno1 Hno2.
    destruct (match_type1 (py_strip lot)) as [[[a b] c]|] eqn:E1.
    + exfalso. apply match_type1_some in E1 as [rest [Hs [Hshape [-> | ->]]]].
      * apply (Hno1 a b c). rewrite Hs, string_app_nil_r. exact Hshape.
      * apply (py_strip_no_final_newline lot (a ++ b ++ c)).
        rewrite Hs, !string_app_assoc. reflexivity.
    + destruct (match_type2 (py_strip lot)) as [d|] eqn:E2; [|reflexivity].
      exfalso. apply match_type2_some in E2 as [rest [Hs [Hshape [-> | ->]]]].
      * apply (Hno2 d). rewrite Hs, string_app_nil_r. exact Hshape.
      * apply (py_strip_no_final_newline lot ("LOT" ++ d)).
        rewrite Hs, !string_app_assoc. reflexivity.
Qed.

Lemma lot_classification_witness :
  _extract_date_from_lot ["CPKU1"; "CB2TV"] (Some "XXXXX020425WXYZ") = (None, unknown)
  /\ _extract_date_from_lot ["CPKU1"; "CB2TV"] (Some " CB2TV020425WXYZ ")
     = (Some (mkDate 2025 4 2), type1)
  /\ _extract_date_from_lot ["CPKU1"; "CB2TV"] (Some "CPKU1310225ABCD") = (None, type1)
  /\ _extract_date_from_lot ["CPKU1"; "CB2TV"] (Some "CPKU1011325ABCD") = (None, type1)
  /\ _extract_date_from_lot ["CPKU1"; "CB2TV"] (Some "LOT311224") = (None, type2)
  /\ _extract_date_from_lot ["CPKU1"; "CB2TV"] (Some "LOTECART") = (None, unknown).
Proof.
  split; [|split; [|split; [|split; [|split]]]].
  - assert (Hs : type1_shape (py_strip "XXXXX020425WXYZ") "XXXXX" "020425" "WXYZ")
      by (unfold type1_shape; repeat split).
    apply (proj1 (proj1 (lot_classification ["CPKU1"; "CB2TV"] "XXXXX020425WXYZ") _ _ _ Hs)).
    simpl. intros [H|[H|[]]]; discriminate.
  - assert (Hs : type1_shape (py_strip " CB2TV020425WXYZ ") "CB2TV" "020425" "WXYZ")
      by (unfold type1_shape; repeat split).
    assert (Hin : In "CB2TV" ["CPKU1"; "CB2TV"]) by (simpl; auto).
    exact (proj1 (proj2 (proj1 (lot_classification ["CPKU1"; "CB2TV"] " CB2TV020425WXYZ ")
                           _ _ _ Hs) Hin)).
  - assert (Hs : type1_shape (py_strip "CPKU1310225ABCD") "CPKU1" "310225" "ABCD")
      by (unfold type1_shape; repeat split).
    assert (Hin : In "CPKU1" ["CPKU1"; "CB2TV"]) by (simpl; auto).
    exact (proj1 (proj2 (proj1 (lot_classification ["CPKU1"; "CB2TV"] "CPKU1310225ABCD")
                           _ _ _ Hs) Hin)).
  - assert (Hs : type1_shape (py_strip "CPKU1011325ABCD") "CPKU1" "011325" "ABCD")
      by (unfold type1_shape; repeat split).
    assert (Hin : In "CPKU1" ["CPKU1"; "CB2TV"]) by (simpl; auto).
    apply (proj2 (proj2 (proj1 (lot_classification ["CPKU1"; "CB2TV"] "CPKU1011325ABCD")
                           _ _ _ Hs) Hin)).
    right. reflexivity.
  - apply (proj1 (proj2 (lot_classification ["CPKU1"; "CB2TV"] "LOT311224")) "311224").
    unfold type2_shape. repeat split.
  - apply (proj1 (proj2 (proj2 (lot_classification ["CPKU1"; "CB2TV"] "LOTECART")))).
    + intros a b c [Hs [L1 [_ [L2 [_ [L3 _]]]]]].
      apply (f_equal String.length) in Hs.
      repeat rewrite string_length_app in Hs. simpl in Hs. lia.
    + intros d [Hs [L _]].
      apply (f_equal String.length) in Hs.
      rewrite string_length_app in Hs. simpl in Hs. lia.
Defined.

(** ** Found stock: detection *)

Section DetectionProperties.
Local Open Scope Q_scope.

Lemma lotecart_mask_true (c : Candidate) :
  lotecart_mask c = true <-> cand_Quantite_Theorique c == 0 /\ 0 < cand_Quantite_Reelle c.
Proof.
  unfold lotecart_mask. rewrite andb_true_iff, Qeq_bool_iff, Qgt_bool_true. reflexivity.
Qed.

(** C6. The candidates are exactly the rows of the completed template
    whose theoretical quantity, once converted, is zero and whose counted
    quantity, once converted, is strictly positive; for a row whose two
    cells are numbers these are the numbers themselves.  No candidate has a
    counted quantity equal to zero. *)
Theorem lotecart_candidate_criterion :
  forall (to_numeric : string -> option Q) (completed : list Tpl.Row),
    let candidates := detect_lotecart_candidates to_numeric completed in
    (forall c : Candidate,
       In c candidates <->
       exists row, In row completed /\ c = clean_row to_numeric row
                   /\ cand_Quantite_Theorique c == 0 /\ 0 < cand_Quantite_Reelle c)
    /\ (forall (row : Tpl.Row) (theorique reelle : Q),
          In row completed ->
          Tpl.Quantite_Theorique row = CNum theorique ->
          Tpl.Quantite_Reelle row = CNum reelle ->
          (In (clean_row to_numeric row) candidates <-> theorique == 0 /\ 0 < reelle))
    /\ (forall c : Candidate, In c candidates -> ~ cand_Quantite_Reelle c == 0).
Proof.
  intros to_numeric completed candidates.
  assert (Hiff : forall c : Candidate,
             In c candidates <->
             exists row, In row completed /\ c = clean_row to_numeric row
                         /\ cand_Quantite_Theorique c == 0 /\ 0 < cand_Quantite_Reelle c).
  { intros c. subst candidates. unfold detect_lotecart_candidates.
    rewrite filter_In, in_map_iff, lotecart_mask_true. split.
    - intros [[row [<- Hin]] Hmask]. exists row. tauto.
    - intros [row [Hin [-> Hmask]]]. split; [exists row; tauto | exact Hmask]. }
  split; [exact Hiff|]. split.
  - intros row theorique reelle Hin Ht Hr. rewrite Hiff. split.
    + intros [row' [_ [_ Hmask]]]. unfold clean_row in Hmask. simpl in Hmask.
      rewrite Ht, Hr in Hmask. exact Hmask.
    + intros Hmask. exists row. split; [exact Hin|]. split; [reflexivity|].
      unfold clean_row. simpl. rewrite Ht, Hr. exact Hmask.
  - intros c Hc. apply Hiff in Hc as [row [_ [_ [_ Hpos]]]]. lra.
Qed.

Lemma lotecart_candidate_criterion_witness :
  let completed := [ex_counted "ART1" 0 7; ex_counted "ART2" 0 0; ex_counted "ART3" 4 5] in
  In (clean_row decimal_literal (ex_counted "ART1" 0 7))
     (detect_lotecart_candidates decimal_literal completed)
  /\ ~ In (clean_row decimal_literal (ex_counted "ART2" 0 0))
         (detect_lotecart_candidates decimal_literal completed)
  /\ ~ In (clean_row decimal_literal (ex_counted "ART3" 4 5))
         (detect_lotecart_candidates decimal_literal completed).
Proof.
  intros completed.
  pose proof (proj1 (proj2 (lotecart_candidate_criterion decimal_literal completed))) as H.
  split; [|split].
  - apply (H (ex_counted "ART1" 0 7) 0 7); [simpl; auto | reflexivity | reflexivity |].
    split; reflexivity.
  - intros Hin. apply (H (ex_counted "ART2" 0 0) 0 0) in Hin; [|simpl; auto|reflexivity|reflexivity].
    destruct Hin as [_ Hpos]. discriminate.
  - intros Hin. apply (H (ex_counted "ART3" 4 5) 4 5) in Hin; [|simpl; auto|reflexivity|reflexivity].
    destruct Hin as [Hzero _]. discriminate.
Defined.

End DetectionProperties.

(** ** Record regenerator *)

(** Lookups through the assignments [parts[i] = v]. *)
Ltac parts_lookup :=
  repeat first
    [ rewrite list_lookup_insert_ne by lia
    | rewrite list_lookup_insert_eq by (rewrite ?length_insert; lia) ].

Lemma adjustments_dict_snoc (distributed : list Row) (row : Row) :
  adjustments_dict (distributed ++ [row])
  = <[adjustment_key row := adjustment_data row]> (adjustments_dict distributed).
Proof. unfold adjustments_dict. rewrite fold_left_app. reflexivity. Qed.

(** The entry of a key is the one of the last row that carries it. *)
Lemma adjustments_dict_last (after : list Row) : forall (before : list Row) (row : Row),
  Forall (fun r => adjustment_key r <> adjustment_key row) after ->
  adjustments_dict (before ++ row :: after) !! adjustment_key row
  = Some (adjustment_data row).
Proof.
  induction after as [|r after IH] using rev_ind; intros before row Hafter.
  - rewrite adjustments_dict_snoc. apply lookup_insert_eq.
  - apply Forall_app in Hafter as [Hafter Hr]. inversion Hr as [|? ? Hne _]; subst.
    change (before ++ row :: after ++ [r])%list
      with (before ++ (row :: after) ++ [r])%list.
    rewrite app_assoc, adjustments_dict_snoc.
    rewrite lookup_insert_ne by exact Hne.
    apply IH, Hafter.
Qed.

(** When the table ends with LOTECART adjustments, a key carried by one
    of them has an entry of type [lotecart]. *)
Lemma adjustments_dict_lotecart (adjustments : list Row) :
  forall (rows : list Row) (key : string * string * string),
    Forall (fun r => TYPE_LOT r = lotecart) adjustments ->
    Exists (fun r => adjustment_key r = key) adjustments ->
    exists data, adjustments_dict (rows ++ adjustments) !! key = Some data
                 /\ type_lot data = lotecart.
Proof.
  induction adjustments as [|a adjustments IH] using rev_ind; intros rows key Htype Hkey.
  - inversion Hkey.
  - apply Forall_app in Htype as [Htype Ha]. inversion Ha as [|? ? Hta _]; subst.
    rewrite app_assoc, adjustments_dict_snoc.
    destruct (decide (adjustment_key a = key)) as [<-|Hne].
    + exists (adjustment_data a). split; [apply lookup_insert_eq | exact Hta].
    + rewrite lookup_insert_ne by exact Hne. apply IH; [exact Htype|].
      apply Exists_app in Hkey as [Hkey|Hkey]; [exact Hkey|].
      inversion Hkey as [? ? Hk|? ? Hk]; subst; [contradiction | inversion Hk].
Qed.

(** What is written for an original line that has an adjustment. *)
Lemma replay_line_adjusted (py_float : string -> option Q)
    (adjustments : gmap (string * string * string) AdjustmentData)
    (emplacements : gmap (string * string) string)
    (original_row : Orig.Row) (data : AdjustmentData) (parts : list string) :
  adjustments !! original_key original_row = Some data ->
  replay_line py_float adjustments emplacements original_row = Some parts ->
  let original_parts := split ";" (Orig.original_s_line_raw original_row) in
  (15 <= length original_parts)%nat
  /\ length parts = length original_parts
  /\ parts !! 5%nat = original_parts !! 5%nat
  /\ parts !! 6%nat = Some (_to_csv_number py_float (VNum (qte_theo_ajustee data)) ",")
  /\ parts !! 7%nat = Some (count_indicator (qte_theo_ajustee data))
  /\ parts !! 14%nat
     = (if LotType_eqb (type_lot data) lotecart then Some "LOTECART"
        else original_parts !! 14%nat).
Proof.
  intros Hdata Hreplay original_parts. unfold replay_line in Hreplay.
  fold original_parts in Hreplay. rewrite Hdata in Hreplay.
  destruct (15 <=? length original_parts)%nat eqn:Hlen; [|discriminate].
  apply Nat.leb_le in Hlen.
  injection Hreplay as <-.
  assert (H5 : Some (nth 5 original_parts "") = original_parts !! 5%nat).
  { rewrite nth_lookup.
    destruct (lookup_lt_is_Some_2 original_parts 5%nat ltac:(lia)) as [x ->]. reflexivity. }
  split; [exact Hlen|].
  destruct (LotType_eqb (type_lot data) lotecart);
    destruct (emplacements !! _);
    (split; [rewrite ?length_insert; reflexivity|]);
    repeat split; parts_lookup; (reflexivity || exact H5).
Qed.

(** An original line of at least 15 fields is written. *)
Lemma replay_line_written (py_float : string -> option Q)
    (adjustments : gmap (string * string * string) AdjustmentData)
    (emplacements : gmap (string * string) string) (original_row : Orig.Row) :
  (15 <= length (split ";" (Orig.original_s_line_raw original_row)))%nat ->
  exists parts, replay_line py_float adjustments emplacements original_row = Some parts.
Proof.
  intros Hlen. apply Nat.leb_le in Hlen. unfold replay_line. rewrite Hlen.
  eexists. reflexivity.
Qed.

(** C10. The key of [adjustments_dict] is made of the article, the
    inventory and the trimmed lot number only: status, unit, zone and
    location, by which the distribution groups, play no part in it.  When
    two rows of the distributed table carry the same key, the entry of
    the key is the one of the later row (the last row with that key), and
    every original line with that key (and at least 15 fields) is written
    with the corrected quantity of that row in field 6 and with the
    indicator computed from it in field 7. *)
Theorem regenerator_last_row_wins :
  (forall r r' : Row,
     CODE_ARTICLE r = CODE_ARTICLE r' -> NUMERO_INVENTAIRE r = NUMERO_INVENTAIRE r' ->
     NUMERO_LOT r = NUMERO_LOT r' -> adjustment_key r = adjustment_key r')
  /\
  (forall (py_float : string -> option Q) (emplacements : gmap (string * string) string)
          (before between after : list Row) (earlier later : Row),
     adjustment_key earlier = adjustment_key later ->
     Forall (fun r => adjustment_key r <> adjustment_key later) after ->
     let distributed := (before ++ earlier :: between ++ later :: after)%list in
     adjustments_dict distributed !! adjustment_key later = Some (adjustment_data later)
     /\ forall original_row : Orig.Row,
          original_key original_row = adjustment_key later ->
          (15 <= length (split ";" (Orig.original_s_line_raw original_row)))%nat ->
          exists parts : list string,
            replay_line py_float (adjustments_dict distributed) emplacements original_row
            = Some parts
            /\ parts !! 6%nat
               = Some (_to_csv_number py_float (VNum (QUANTITE_CORRIGEE later)) ",")
            /\ parts !! 7%nat = Some (count_indicator (QUANTITE_CORRIGEE later))).
Proof.
  split.
  - intros r r' Ha Hi Hl. unfold adjustment_key. rewrite Ha, Hi, Hl. reflexivity.
  - intros py_float emplacements before between after earlier later Hkey Hafter distributed.
    assert (Hlookup : adjustments_dict distributed !! adjustment_key later
                      = Some (adjustment_data later)).
    { subst distributed.
      change (before ++ earlier :: between ++ later :: after)%list
        with (before ++ (earlier :: between) ++ later :: after)%list.
      rewrite app_assoc. apply adjustments_dict_last, Hafter. }
    split; [exact Hlookup|].
    intros original_row Horig Hlen. rewrite <- Horig in Hlookup.
    destruct (replay_line_written py_float (adjustments_dict distributed) emplacements
                original_row Hlen) as [parts Hreplay].
    destruct (replay_line_adjusted _ _ _ _ _ _ Hlookup Hreplay)
      as [_ [_ [_ [H6 [H7 _]]]]].
    exists parts. repeat split; assumption.
Qed.

Lemma regenerator_last_row_wins_witness :
  let row_emp1 := set_distribution (discrepancy_row ex_same_lot_emp1 20) 10 20 20 in
  let row_other := set_distribution (discrepancy_row ex_other_lot_emp2 20) 14 15 20 in
  let row_emp2 := set_distribution (discrepancy_row ex_same_lot_emp2 20) 0 5 20 in
  fst (distribute_groups FIFO
         (groupby (map (fun line => discrepancy_row line 20)
                       [ex_same_lot_emp1; ex_same_lot_emp2; ex_other_lot_emp2])))
  = [row_emp1; row_other; row_emp2]
  /\ exists parts,
       replay_line decimal_literal (adjustments_dict [row_emp1; row_other; row_emp2]) ∅
         ex_same_lot_emp1 = Some parts
       /\ parts !! 5%nat = Some "10" /\ parts !! 6%nat = Some "5" /\ parts !! 7%nat = Some "1".
Proof.
  intros row_emp1 row_other row_emp2. split; [reflexivity|].
  destruct (proj2 regenerator_last_row_wins decimal_literal ∅ [] [row_other] [] row_emp1 row_emp2
              eq_refl (List.Forall_nil _)) as [Hlookup Hlines].
  assert (Hlen : (15 <= length (split ";" (Orig.original_s_line_raw ex_same_lot_emp1)))%nat)
    by (apply Nat.leb_le; vm_compute; reflexivity).
  destruct (Hlines ex_same_lot_emp1 eq_refl Hlen) as [parts [Hreplay [H6 H7]]].
  destruct (replay_line_adjusted decimal_literal _ ∅ ex_same_lot_emp1 _ parts Hlookup Hreplay)
    as [_ [_ [H5 _]]].
  exists parts. repeat split; assumption.
Defined.

(** ** Found stock: adjustments *)

Lemma create_lotecart_adjustments_In (original : list Orig.Row) (candidates : list Candidate) :
  forall candidate adjustment log,
    In candidate candidates ->
    create_lotecart_adjustment original candidate = (Some adjustment, log) ->
    In adjustment (fst (create_lotecart_adjustments candidates original)).
Proof.
  induction candidates as [|c candidates IH]; intros candidate adjustment log Hin Hc;
    [inversion Hin|].
  cbn [create_lotecart_adjustments].
  destruct (create_lotecart_adjustment original c) as [adj l] eqn:Ec.
  destruct (create_lotecart_adjustments candidates original) as [adjs logs] eqn:Er.
  cbn [fst] in *.
  destruct Hin as [-> | Hin].
  - rewrite Hc in Ec. injection Ec as <- <-. left. reflexivity.
  - specialize (IH _ _ _ Hin Hc). destruct adj; [right|]; exact IH.
Qed.

Lemma create_lotecart_adjustment_type (original : list Orig.Row) (candidate : Candidate)
    (adjustment : Row) (log : list LogEvent) :
  create_lotecart_adjustment original candidate = (Some adjustment, log) ->
  TYPE_LOT adjustment = lotecart.
Proof.
  unfold create_lotecart_adjustment.
  destruct (List.filter (is_zero_qty_line _ _) original);
    [destruct (List.filter (is_reference_lot _ _) original)|];
    intros H; inversion H; reflexivity.
Qed.

Lemma create_lotecart_adjustments_type (original : list Orig.Row) (candidates : list Candidate) :
  Forall (fun r => TYPE_LOT r = lotecart)
         (fst (create_lotecart_adjustments candidates original)).
Proof.
  induction candidates as [|c candidates IH]; [constructor|].
  cbn [create_lotecart_adjustments].
  destruct (create_lotecart_adjustment original c) as [adj l] eqn:Ec.
  destruct (create_lotecart_adjustments candidates original) as [adjs logs].
  cbn [fst] in *. destruct adj as [a|]; [|exact IH].
  constructor; [|exact IH]. eapply create_lotecart_adjustment_type, Ec.
Qed.

Lemma is_zero_qty_line_true (code_article numero_inventaire : string) (r : Orig.Row) :
  is_zero_qty_line code_article numero_inventaire r = true ->
  Orig.CODE_ARTICLE r = code_article /\ Orig.NUMERO_INVENTAIRE r = numero_inventaire
  /\ (Orig.QUANTITE r == 0)%Q.
Proof.
  unfold is_zero_qty_line. rewrite !andb_true_iff, !String.eqb_eq, Qeq_bool_iff. tauto.
Qed.

(** C4, as the code has it.  When the extract holds a line of the article
    and of the inventory of a candidate with theoretical quantity zero,
    the adjustment made for the candidate is an update that carries the
    lot number of the first such line, the counted quantity as corrected
    quantity and as adjustment, and the update flag.  Its type is
    [lotecart], and for that reason the line (of at least 15 fields) is
    written to the final file with [LOTECART] in field 14, not with its
    own lot number. *)
Theorem found_stock_update_of_zero_line :
  forall (candidates : list Candidate) (original : list Orig.Row)
         (candidate : Candidate) (existing_line : Orig.Row) (others : list Orig.Row),
    In candidate candidates ->
    List.filter (is_zero_qty_line (Tpl.Code_Article (cand_row candidate))
                                  (Tpl.Numero_Inventaire (cand_row candidate))) original
    = existing_line :: others ->
    exists adjustment : Row,
      create_lotecart_adjustment original candidate = (Some adjustment, [])
      /\ In adjustment (fst (create_lotecart_adjustments candidates original))
      /\ NUMERO_LOT adjustment = Orig.NUMERO_LOT existing_line
      /\ QUANTITE_CORRIGEE adjustment = cand_Quantite_Reelle candidate
      /\ AJUSTEMENT adjustment = cand_Quantite_Reelle candidate
      /\ is_existing_update adjustment = Some true
      /\ is_new_lotecart adjustment = Some false
      /\ TYPE_LOT adjustment = lotecart
      /\ forall (py_float : string -> option Q) (emplacements : gmap (string * string) string)
                (distributed_rows : list Row),
           (15 <= length (split ";" (Orig.original_s_line_raw existing_line)))%nat ->
           exists parts : list string,
             replay_line py_float
               (adjustments_dict
                  (distributed_rows
                   ++ map with_saisie (fst (create_lotecart_adjustments candidates original))))
               emplacements existing_line = Some parts
             /\ parts !! 14%nat = Some "LOTECART".
Proof.
  intros candidates original candidate existing_line others Hin Hfilter.
  set (adjustment :=
         lotecart_adjustment (Tpl.Code_Article (cand_row candidate))
           (Tpl.Numero_Inventaire (cand_row candidate)) (Orig.NUMERO_LOT existing_line)
           (cand_Quantite_Reelle candidate) (Orig.Date_Lot existing_line)
           (Some (Orig.original_s_line_raw existing_line)) None false).
  assert (Hcreate : create_lotecart_adjustment original candidate = (Some adjustment, [])).
  { unfold create_lotecart_adjustment. rewrite Hfilter. reflexivity. }
  pose proof (create_lotecart_adjustments_In _ _ _ _ _ Hin Hcreate) as Hmember.
  exists adjustment. repeat split; try assumption.
  intros py_float emplacements distributed_rows Hlen.
  destruct (replay_line_written py_float
              (adjustments_dict
                 (distributed_rows
                  ++ map with_saisie (fst (create_lotecart_adjustments candidates original))))
              emplacements existing_line Hlen) as [parts Hreplay].
  exists parts. split; [exact Hreplay|].
  assert (Hzero : is_zero_qty_line (Tpl.Code_Article (cand_row candidate))
                    (Tpl.Numero_Inventaire (cand_row candidate)) existing_line = true).
  { assert (Hmem : In existing_line (existing_line :: others)) by (left; reflexivity).
    rewrite <- Hfilter in Hmem. apply filter_In in Hmem. tauto. }
  apply is_zero_qty_line_true in Hzero as [Harticle [Hinventaire _]].
  destruct (adjustments_dict_lotecart
              (map with_saisie (fst (create_lotecart_adjustments candidates original)))
              distributed_rows (original_key existing_line)) as [data [Hdata Htype]].
  - apply List.Forall_forall. intros r Hr. apply in_map_iff in Hr as [a [<- Ha]].
    pose proof (create_lotecart_adjustments_type original candidates) as Htypes.
    rewrite List.Forall_forall in Htypes. exact (Htypes a Ha).
  - apply List.Exists_exists. exists (with_saisie adjustment). split.
    + apply in_map, Hmember.
    + unfold original_key, adjustment_key. simpl. rewrite Harticle, Hinventaire. reflexivity.
  - destruct (replay_line_adjusted _ _ _ _ _ _ Hdata Hreplay) as [_ [_ [_ [_ [_ H14]]]]].
    rewrite Htype in H14. exact H14.
Qed.

Lemma found_stock_update_of_zero_line_witness :
  let candidate := clean_row decimal_literal (ex_counted "ART2" 0 7) in
  exists adjustment : Row,
    create_lotecart_adjustment [ex_zero_line; ex_stock_line] candidate = (Some adjustment, [])
    /\ NUMERO_LOT adjustment = "LOT010125"
    /\ QUANTITE_CORRIGEE adjustment = 7%Q
    /\ AJUSTEMENT adjustment = 7%Q
    /\ is_existing_update adjustment = Some true.
Proof.
  intros candidate.
  destruct (found_stock_update_of_zero_line [candidate] [ex_zero_line; ex_stock_line]
              candidate ex_zero_line [] (or_introl eq_refl) eq_refl)
    as [adjustment [Hcreate [_ [Hlot [Hcorrigee [Hajustement [Hupdate _]]]]]]].
  exists adjustment. repeat split; assumption.
Defined.

(** C4 as stated fails in its last part.  The extract holds a line of
    article ART2 with quantity 0 and lot LOT010125, and 7 is counted: the
    distributed table holds the update with that lot number, and the line
    is written with LOTECART in field 14. *)
Lemma zero_line_loses_its_lot_number :
  exists distributed log,
    ex_run FIFO [ex_zero_line] [ex_counted "ART2" 0 7]
    = Some (distributed, log,
            ["E;SES01;HEADER"; "L;SES01;INV01";
             "S;SES01;INV01;4000;SITE1;0;7;1;ART2;EMP1;A;UN;0;ZONE1;LOTECART"])
    /\ Orig.NUMERO_LOT ex_zero_line = "LOT010125"
    /\ Exists (fun r => is_existing_update r = Some true /\ NUMERO_LOT r = "LOT010125")
              distributed
    /\ split ";" "S;SES01;INV01;4000;SITE1;0;7;1;ART2;EMP1;A;UN;0;ZONE1;LOTECART" !! 14%nat
       <> Some (Orig.NUMERO_LOT ex_zero_line).
Proof.
  eexists _, _. split; [vm_compute; reflexivity|].
  split; [reflexivity|]. split.
  - apply List.Exists_cons_tl, List.Exists_cons_hd. split; reflexivity.
  - vm_compute. discriminate.
Qed.

(** ** Splitting and joining lines *)

Lemma split_fields_no_sep (sep : ascii) (s : string) :
  Forall (fun field => contains_char sep field = false) (split sep s).
Proof.
  induction s as [|c s IH]; simpl.
  - repeat constructor.
  - destruct (Ascii.eqb c sep) eqn:E.
    + constructor; [reflexivity | exact IH].
    + destruct (split sep s) as [|field fields]; [repeat constructor; simpl; now rewrite E|].
      inversion IH as [|? ? Hf Hfs]; subst.
      constructor; [simpl; now rewrite E, Hf | exact Hfs].
Qed.

Lemma split_app_field (sep : ascii) (a b field : string) (fields : list string) :
  contains_char sep a = false ->
  split sep b = field :: fields ->
  split sep (a ++ b) = (a ++ field) :: fields.
Proof.
  intros Ha Hb. induction a as [|c a IH]; [exact Hb|].
  simpl in Ha. apply orb_false_iff in Ha as [Hc Ha].
  rewrite !string_app_cons. cbn [split]. rewrite Hc, (IH Ha). reflexivity.
Qed.

Lemma split_join (sep : ascii) (parts : list string) :
  parts <> [] ->
  Forall (fun field => contains_char sep field = false) parts ->
  split sep (join (String sep "") parts) = parts.
Proof.
  induction parts as [|x parts IH]; intros Hne Hparts; [contradiction|].
  inversion Hparts as [|? ? Hx Hrest]; subst.
  destruct parts as [|y parts].
  - cbn [join]. rewrite <- (string_app_nil_r x) at 1.
    rewrite (split_app_field sep x "" "" [] Hx eq_refl), string_app_nil_r. reflexivity.
  - change (join (String sep "") (x :: y :: parts))
      with (x ++ String sep (join (String sep "") (y :: parts))).
    rewrite (split_app_field sep x _ "" (y :: parts) Hx).
    + rewrite string_app_nil_r. reflexivity.
    + cbn [split]. rewrite Ascii.eqb_refl. rewrite IH; [reflexivity | discriminate | exact Hrest].
Qed.

(** No field separator in the texts that the code writes into fields. *)
Lemma py_str_int_chars (z : Z) :
  string_forallb (fun c => is_digit c || Ascii.eqb c "-") (py_str_int z) = true.
Proof.
  assert (Hd : forall d, string_forallb (fun c => is_digit c || Ascii.eqb c "-")
                           (NilZero.string_of_uint d) = true).
  { intros d. apply (string_forallb_impl is_digit); [intros c Hc; rewrite Hc; reflexivity|].
    destruct d; try reflexivity;
      match goal with
      | |- string_forallb is_digit (NilZero.string_of_uint ?u) = true => apply (uint_digits u)
      end. }
  unfold py_str_int. destruct (Z.to_int z); simpl; [apply Hd|].
  apply Hd.
Qed.

Lemma py_str_int_no_sep (z : Z) : contains_char ";" (py_str_int z) = false.
Proof.
  apply (contains_char_forallb ";" (fun c => is_digit c || Ascii.eqb c "-"));
    [reflexivity | apply py_str_int_chars].
Qed.

Lemma format_number_no_sep (py_float : string -> option Q) (f : Q) :
  contains_char ";" (_format_number py_float (VNum f)) = false.
Proof.
  rewrite format_number_of_number.
  set (n := round_half_even _).
  assert (Hsign : contains_char ";" (sign_text f) = false)
    by (unfold sign_text; destruct (Qgt_bool 0 f); reflexivity).
  rewrite !contains_char_app, py_str_int_no_sep, Hsign. cbn [orb].
  destruct (significant_decimals_shape 6 (n mod 10 ^ 6)) as [-> | [d [-> [_ [Hd _]]]]];
    [reflexivity|].
  rewrite contains_char_app.
  rewrite (contains_char_forallb ";" is_digit d eq_refl Hd). reflexivity.
Qed.

Lemma replace_char_no_sep (a b sep : ascii) (s : string) :
  b <> sep -> contains_char sep s = false -> contains_char sep (replace_char a b s) = false.
Proof.
  intros Hb. induction s as [|c s IH]; simpl; [reflexivity|].
  intros H. apply orb_false_iff in H as [Hc Hs]. rewrite (IH Hs), orb_false_r.
  destruct (Ascii.eqb c a); [apply Ascii.eqb_neq; exact Hb | exact Hc].
Qed.

(** ** Found stock: new lines *)

Lemma reference_parts_some (adjustment : Row) (parts : list string) :
  reference_parts adjustment = Some parts ->
  (15 <= length parts)%nat /\ Forall no_sep parts.
Proof.
  unfold reference_parts. destruct (reference_line adjustment) as [reference|]; [|discriminate].
  destruct (String.eqb reference ""); [discriminate|].
  destruct (_ || _); [discriminate|].
  destruct (length _ <? 15)%nat eqn:E; [discriminate|].
  intros H. injection H as <-. apply Nat.ltb_ge in E.
  split; [exact E | apply split_fields_no_sep].
Qed.

Lemma lotecart_line_parts_ok (py_float : string -> option Q) (adjustment : Row)
    (parts : list string) (rank : Z) :
  (15 <= length parts)%nat -> Forall no_sep parts ->
  let new_parts := lotecart_line_parts py_float adjustment parts rank in
  length new_parts = length parts
  /\ Forall no_sep new_parts
  /\ new_parts !! 3%nat = Some (py_str_int rank)
  /\ new_parts !! 5%nat = Some (_format_number py_float (VNum (QUANTITE_CORRIGEE adjustment)))
  /\ new_parts !! 7%nat = Some "2"
  /\ new_parts !! 14%nat = Some "LOTECART".
Proof.
  intros Hlen Hparts new_parts. subst new_parts. unfold lotecart_line_parts.
  split; [rewrite !length_insert; reflexivity|].
  split.
  - repeat (apply Forall_insert; [|first [reflexivity | apply format_number_no_sep
                                          | apply py_str_int_no_sep]]).
    exact Hparts.
  - repeat split; parts_lookup; reflexivity.
Qed.

(** The line written to the final file for a generated line, and its
    fields read back. *)
Lemma adapted_line_fields (py_float : string -> option Q) (adjustment : Row)
    (parts : list string) (rank : Z) :
  (15 <= length parts)%nat -> Forall no_sep parts ->
  let line := adapt_lotecart_line (join ";" (lotecart_line_parts py_float adjustment parts rank)) in
  let fields := split ";" line in
  fields !! 3%nat = Some (py_str_int rank)
  /\ fields !! 5%nat = Some "0"
  /\ fields !! 6%nat
     = Some (replace_char "." "," (_format_number py_float (VNum (QUANTITE_CORRIGEE adjustment))))
  /\ fields !! 7%nat = Some "2"
  /\ fields !! 14%nat = Some "LOTECART".
Proof.
  intros Hlen Hparts line fields.
  destruct (lotecart_line_parts_ok py_float adjustment parts rank Hlen Hparts)
    as [Hl [Hns [H3 [H5 [H7 H14]]]]].
  set (new_parts := lotecart_line_parts py_float adjustment parts rank) in *.
  assert (Hne : new_parts <> []) by (intros E; rewrite E in Hl; simpl in Hl; lia).
  assert (Hsplit : split ";" (join ";" new_parts) = new_parts) by (apply split_join; assumption).
  subst fields line. unfold adapt_lotecart_line. rewrite Hsplit.
  destruct (15 <=? length new_parts)%nat eqn:E; [|apply Nat.leb_gt in E; lia].
  rewrite (nth_lookup_Some _ _ "" _ H5).
  rewrite split_join.
  - repeat split; parts_lookup; assumption || reflexivity.
  - intros E'. apply (f_equal length) in E'. rewrite !length_insert in E'. simpl in E'. lia.
  - apply Forall_insert; [apply Forall_insert; [exact Hns | reflexivity]|].
    apply replace_char_no_sep; [discriminate | apply format_number_no_sep].
Qed.

(** The [i]-th generated line comes from an adjustment with a usable
    reference line and carries the rank [1000 * (i + 1)] above the start. *)
Lemma generate_lotecart_lines_lookup (py_float : string -> option Q) (adjustments : list Row) :
  forall (current_line_number : Z) (i : nat) (line : string),
    generate_lotecart_lines_from py_float adjustments current_line_number !! i = Some line ->
    exists adjustment parts,
      In adjustment adjustments
      /\ reference_parts adjustment = Some parts
      /\ line = join ";" (lotecart_line_parts py_float adjustment parts
                            (current_line_number + 1000 * (Z.of_nat i + 1))).
Proof.
  induction adjustments as [|a adjustments IH]; intros cur i line H; [discriminate|].
  cbn [generate_lotecart_lines_from] in H.
  assert (Hrest : generate_lotecart_lines_from py_float adjustments cur !! i = Some line ->
                  exists adjustment parts,
                    In adjustment (a :: adjustments)
                    /\ reference_parts adjustment = Some parts
                    /\ line = join ";" (lotecart_line_parts py_float adjustment parts
                                          (cur + 1000 * (Z.of_nat i + 1)))).
  { intros H'. destruct (IH _ _ _ H') as [adj [parts [Hin Hrest]]].
    exists adj, parts. split; [right; exact Hin | exact Hrest]. }
  destruct (negb (flag_truthy (is_new_lotecart a))); [exact (Hrest H)|].
  destruct (reference_parts a) as [parts|] eqn:Eparts; [|exact (Hrest H)].
  destruct i as [|i].
  - injection H as <-. exists a, parts. split; [left; reflexivity|]. split; [exact Eparts|].
    do 2 f_equal; try lia.
  - cbn in H. destruct (IH _ _ _ H) as [adj [parts' [Hin [Hp ->]]]].
    exists adj, parts'. split; [right; exact Hin|]. split; [exact Hp|].
    do 2 f_equal; try lia.
Qed.

Lemma generate_lotecart_lines_length (py_float : string -> option Q) (adjustments : list Row) :
  forall current_line_number : Z,
    length (generate_lotecart_lines_from py_float adjustments current_line_number)
    = length (List.filter (fun a => flag_truthy (is_new_lotecart a) && has_usable_reference a)
                          adjustments).
Proof.
  induction adjustments as [|a adjustments IH]; intros cur; [reflexivity|].
  cbn [generate_lotecart_lines_from List.filter]. unfold has_usable_reference at 1.
  destruct (flag_truthy (is_new_lotecart a)); cbn [negb andb]; [|apply IH].
  destruct (reference_parts a); [|apply IH].
  cbn [length]. rewrite IH. reflexivity.
Qed.

Lemma max_line_number_lower (py_int : string -> option Z) (original : list Orig.Row) :
  forall start, (start <= fold_left (update_max_line_number py_int) original start)%Z.
Proof.
  induction original as [|row original IH]; intros start; simpl; [lia|].
  etransitivity; [|apply IH].
  unfold update_max_line_number.
  destruct (15 <=? _)%nat; [|lia]. destruct (py_int _); lia.
Qed.

Lemma max_line_number_bounds (py_int : string -> option Z) (original : list Orig.Row) :
  forall start original_row r,
    In original_row original ->
    (15 <= length (split ";" (Orig.original_s_line_raw original_row)))%nat ->
    py_int (nth 3 (split ";" (Orig.original_s_line_raw original_row)) "") = Some r ->
    (r <= fold_left (update_max_line_number py_int) original start)%Z.
Proof.
  induction original as [|row original IH]; intros start original_row r Hin Hlen Hr;
    [inversion Hin|].
  simpl. destruct Hin as [-> | Hin].
  - etransitivity; [|apply max_line_number_lower].
    unfold update_max_line_number. apply Nat.leb_le in Hlen. rewrite Hlen, Hr. lia.
  - eapply IH; eassumption.
Qed.

Lemma ex_int_py_str_int (z : Z) : ex_int (py_str_int z) = Some z.
Proof.
  unfold ex_int, py_str_int. rewrite NilZero.isi.
  - simpl. rewrite DecimalZ.of_to. reflexivity.
  - destruct z; simpl; try discriminate.
    intros H. injection H as H. exact (DecimalPos.Unsigned.to_uint_nonnil _ H).
  - destruct z; simpl; try discriminate.
    intros H. injection H as H. exact (DecimalPos.Unsigned.to_uint_nonnil _ H).
Qed.

Lemma map_lookup_Some {A B : Type} (f : A -> B) (l : list A) :
  forall (i : nat) (y : B),
    map f l !! i = Some y -> exists x, l !! i = Some x /\ y = f x.
Proof.
  induction l as [|a l IH]; intros i y H; [discriminate|].
  destruct i as [|i]; simpl in H.
  - injection H as <-. exists a. split; reflexivity.
  - apply IH, H.
Qed.

Lemma appended_line_lookup (py_float : string -> option Q) (py_int : string -> option Z)
    (distributed : list Row) (original : list Orig.Row) (i : nat) (line : string) :
  appended_lines py_float py_int distributed original !! i = Some line ->
  exists adjustment parts,
    In adjustment (new_lotecart_adjustments distributed)
    /\ (15 <= length parts)%nat /\ Forall no_sep parts
    /\ line = adapt_lotecart_line
                (join ";" (lotecart_line_parts py_float adjustment parts
                             (max_line_number_of py_int original + 1000 * (Z.of_nat i + 1)))).
Proof.
  unfold appended_lines, generate_lotecart_lines. intros H.
  apply map_lookup_Some in H as [generated [Hg ->]].
  apply generate_lotecart_lines_lookup in Hg as [adjustment [parts [Hin [Hparts ->]]]].
  destruct (reference_parts_some _ _ Hparts) as [Hlen Hns].
  exists adjustment, parts. repeat split; assumption.
Qed.

(** C7. One line is appended to the final file for each new-line
    adjustment whose reference line is usable.  The [i]-th of them
    (counting from 0) carries in field 3 the rank [max + 1000 * (i + 1)],
    where [max] is the largest rank read on the original lines of at least
    15 fields (0 when none is read).  That rank is strictly greater than
    every rank read on an original line, its text reads back as the same
    number, and a later appended line carries a rank greater by 1000 for
    each position in between, hence strictly greater. *)
Theorem new_line_ranks :
  forall (py_float : string -> option Q) (py_int : string -> option Z)
         (distributed : list Row) (original : list Orig.Row),
    length (appended_lines py_float py_int distributed original)
    = length (List.filter has_usable_reference (new_lotecart_adjustments distributed))
    /\
    forall (i : nat) (line : string),
    appended_lines py_float py_int distributed original !! i = Some line ->
    let max_line_number := max_line_number_of py_int original in
    let rank := (max_line_number + 1000 * (Z.of_nat i + 1))%Z in
    split ";" line !! 3%nat = Some (py_str_int rank)
    /\ ex_int (py_str_int rank) = Some rank
    /\ (forall original_row r,
          In original_row original ->
          (15 <= length (split ";" (Orig.original_s_line_raw original_row)))%nat ->
          py_int (nth 3 (split ";" (Orig.original_s_line_raw original_row)) "") = Some r ->
          (r <= max_line_number /\ r < rank)%Z)
    /\ (forall (j : nat) (line' : string),
          (i < j)%nat ->
          appended_lines py_float py_int distributed original !! j = Some line' ->
          exists rank' : Z,
            split ";" line' !! 3%nat = Some (py_str_int rank')
            /\ (rank' = rank + 1000 * (Z.of_nat j - Z.of_nat i))%Z
            /\ (rank < rank')%Z).
Proof.
  intros py_float py_int distributed original. split.
  { unfold appended_lines, generate_lotecart_lines.
    rewrite length_map, generate_lotecart_lines_length.
    unfold new_lotecart_adjustments. f_equal.
    induction distributed as [|a distributed IH]; [reflexivity|].
    cbn [List.filter].
    destruct (flag_truthy (is_new_lotecart a)) eqn:Enew; cbn [andb]; [|exact IH].
    destruct (negb (flag_truthy (is_existing_update a))); [|exact IH].
    cbn [List.filter]. rewrite Enew. cbn [andb].
    destruct (has_usable_reference a); [f_equal|]; exact IH. }
  intros i line Hline max_line_number rank.
  assert (Hfield : forall k l,
            appended_lines py_float py_int distributed original !! k = Some l ->
            split ";" l !! 3%nat
            = Some (py_str_int (max_line_number + 1000 * (Z.of_nat k + 1)))).
  { intros k l Hl.
    apply appended_line_lookup in Hl as [adjustment [parts [_ [Hlen [Hns ->]]]]].
    apply (adapted_line_fields py_float adjustment parts _ Hlen Hns). }
  split; [exact (Hfield i line Hline)|].
  split; [apply ex_int_py_str_int|].
  split.
  - intros original_row r Hin Hlen Hr.
    pose proof (max_line_number_bounds py_int original 0%Z original_row r Hin Hlen Hr) as Hmax.
    fold (max_line_number_of py_int original) in Hmax. fold max_line_number in Hmax.
    subst rank. lia.
  - intros j line' Hij Hline'.
    exists (max_line_number + 1000 * (Z.of_nat j + 1))%Z.
    split; [exact (Hfield j line' Hline')|]. subst rank. lia.
Qed.

Lemma new_line_ranks_witness :
  let original := [ex_stock_line; ex_stock_line'] in
  let completed := [ex_counted "ART3" 0 (5 # 2); ex_counted "ART4" 0 1] in
  let appended :=
    appended_lines decimal_literal ex_int (ex_distributed FIFO original completed) original in
  let line0 := "S;SES01;INV01;8000;SITE1;0;2,5;2;ART3;EMP1;A;UN;0;ZONE1;LOTECART" in
  let line1 := "S;SES01;INV01;9000;SITE1;0;1;2;ART4;EMP2;A;UN;0;ZONE1;LOTECART" in
  appended = [line0; line1]
  /\ max_line_number_of ex_int original = 7000%Z
  /\ split ";" line0 !! 3%nat = Some "8000"
  /\ split ";" line1 !! 3%nat = Some "9000".
Proof.
  intros original completed appended line0 line1.
  assert (Happended : appended = [line0; line1]) by (vm_compute; reflexivity).
  assert (H0 : appended !! 0%nat = Some line0) by (rewrite Happended; reflexivity).
  assert (H1 : appended !! 1%nat = Some line1) by (rewrite Happended; reflexivity).
  split; [exact Happended|]. split; [vm_compute; reflexivity|]. split.
  - exact (proj1 (proj2 (new_line_ranks decimal_literal ex_int _ original) 0%nat line0 H0)).
  - exact (proj1 (proj2 (new_line_ranks decimal_literal ex_int _ original) 1%nat line1 H1)).
Defined.

Section IndicatorProperties.
Local Open Scope Q_scope.

Lemma count_indicator_two (q : Q) :
  count_indicator q = "2" <-> Qabs q < 1 # 1000000000.
Proof.
  unfold count_indicator, _zero_epsilon.
  destruct (Qgt_bool _ _) eqn:E; qbool; split; intros H; try reflexivity; try discriminate;
    try assumption; lra.
Qed.

Lemma count_indicator_one (q : Q) :
  count_indicator q = "1" <-> 1 # 1000000000 <= Qabs q.
Proof.
  unfold count_indicator, _zero_epsilon.
  destruct (Qgt_bool _ _) eqn:E; qbool; split; intros H; try reflexivity; try discriminate;
    try assumption; lra.
Qed.

(** C3, as the code has it.  An original line (of at least 15 fields)
    that has an adjustment is written with its corrected quantity in
    field 6 and with field 7 equal to "2" if and only if the absolute
    value of that quantity is below 1e-9, and equal to "1" otherwise.  A
    new found-stock line appended to the file is written with field 7
    equal to "2" whatever its quantity, which field 6 carries. *)
Theorem count_indicator_rule :
  forall (py_float : string -> option Q) (py_int : string -> option Z),
    (forall (adjustments : gmap (string * string * string) AdjustmentData)
            (emplacements : gmap (string * string) string)
            (original_row : Orig.Row) (data : AdjustmentData),
       adjustments !! original_key original_row = Some data ->
       (15 <= length (split ";" (Orig.original_s_line_raw original_row)))%nat ->
       let corrected := qte_theo_ajustee data in
       exists parts : list string,
         replay_line py_float adjustments emplacements original_row = Some parts
         /\ parts !! 6%nat = Some (_to_csv_number py_float (VNum corrected) ",")
         /\ (parts !! 7%nat = Some "2" <-> Qabs corrected < 1 # 1000000000)
         /\ (parts !! 7%nat = Some "1" <-> 1 # 1000000000 <= Qabs corrected)
         /\ (parts !! 7%nat = Some "2" \/ parts !! 7%nat = Some "1"))
    /\
    (forall (distributed : list Row) (original : list Orig.Row) (line : string),
       In line (appended_lines py_float py_int distributed original) ->
       exists adjustment : Row,
         In adjustment (new_lotecart_adjustments distributed)
         /\ split ";" line !! 6%nat
            = Some (replace_char "." ","
                      (_format_number py_float (VNum (QUANTITE_CORRIGEE adjustment))))
         /\ split ";" line !! 7%nat = Some "2").
Proof.
  intros py_float py_int. split.
  - intros adjustments emplacements original_row data Hdata Hlen corrected.
    destruct (replay_line_written py_float adjustments emplacements original_row Hlen)
      as [parts Hreplay].
    destruct (replay_line_adjusted _ _ _ _ _ _ Hdata Hreplay) as [_ [_ [_ [H6 [H7 _]]]]].
    exists parts. split; [exact Hreplay|]. split; [exact H6|].
    rewrite H7. fold corrected.
    rewrite <- count_indicator_two, <- count_indicator_one.
    split; [|split].
    + split; [intros H; injection H as H; exact H | intros ->; reflexivity].
    + split; [intros H; injection H as H; exact H | intros ->; reflexivity].
    + unfold count_indicator. destruct (Qgt_bool _ _); auto.
  - intros distributed original line Hin.
    apply list_elem_of_In, list_elem_of_lookup in Hin as [i Hi].
    apply appended_line_lookup in Hi as [adjustment [parts [Hadj [Hlen [Hns ->]]]]].
    exists adjustment. split; [exact Hadj|].
    destruct (adapted_line_fields py_float adjustment parts
                (max_line_number_of py_int original + 1000 * (Z.of_nat i + 1))%Z Hlen Hns)
      as [_ [_ [H6 [H7 _]]]].
    split; assumption.
Qed.

Lemma count_indicator_rule_witness :
  let distributed :=
    [zeroed 5 (discrepancy_row ex_lot_old 5); unchanged 5 (discrepancy_row ex_lot_new 5)] in
  fst (distribute_group FIFO "ART1" (ex_rows 5)) = distributed
  /\ (exists parts,
        replay_line decimal_literal (adjustments_dict distributed) ∅ ex_lot_old = Some parts
        /\ parts !! 6%nat = Some "0" /\ parts !! 7%nat = Some "2")
  /\ (exists parts,
        replay_line decimal_literal (adjustments_dict distributed) ∅ ex_lot_new = Some parts
        /\ parts !! 6%nat = Some "5" /\ parts !! 7%nat = Some "1").
Proof.
  intros distributed. split; [reflexivity|].
  pose proof (proj1 (count_indicator_rule decimal_literal ex_int)) as Hrule.
  split.
  - assert (Hdata : adjustments_dict distributed !! original_key ex_lot_old
                    = Some (adjustment_data (zeroed 5 (discrepancy_row ex_lot_old 5))))
      by (vm_compute; reflexivity).
    assert (Hlen : (15 <= length (split ";" (Orig.original_s_line_raw ex_lot_old)))%nat)
      by (apply Nat.leb_le; vm_compute; reflexivity).
    destruct (Hrule _ ∅ _ _ Hdata Hlen) as [parts [Hreplay [H6 [[_ Htwo] _]]]].
    exists parts. split; [exact Hreplay|]. split; [exact H6|].
    apply Htwo. reflexivity.
  - assert (Hdata : adjustments_dict distributed !! original_key ex_lot_new
                    = Some (adjustment_data (unchanged 5 (discrepancy_row ex_lot_new 5))))
      by (vm_compute; reflexivity).
    assert (Hlen : (15 <= length (split ";" (Orig.original_s_line_raw ex_lot_new)))%nat)
      by (apply Nat.leb_le; vm_compute; reflexivity).
    destruct (Hrule _ ∅ _ _ Hdata Hlen) as [parts [Hreplay [H6 [_ [[_ Hone] _]]]]].
    exists parts. split; [exact Hreplay|]. split; [exact H6|].
    apply Hone. discriminate.
Defined.

(** C3 as stated fails on appended lines.  A stock line of article ART3
    holds 4; the template counts 2.5 on a row of ART3 with theoretical
    quantity 0.  The new line appended to the file carries the corrected
    quantity 2.5 in field 6, which is not within 1e-9 of zero, and "2" in
    field 7. *)
Lemma new_line_indicator_ignores_quantity :
  let original := [ex_stock_line] in
  let completed := [ex_counted "ART3" 0 (5 # 2)] in
  let line := "S;SES01;INV01;6000;SITE1;0;2,5;2;ART3;EMP1;A;UN;0;ZONE1;LOTECART" in
  (exists distributed log lines,
     ex_run FIFO original completed = Some (distributed, log, lines)
     /\ In line lines
     /\ map QUANTITE_CORRIGEE (new_lotecart_adjustments distributed) = [5 # 2])
  /\ appended_lines decimal_literal ex_int (ex_distributed FIFO original completed) original
     = [line]
  /\ split ";" line !! 6%nat = Some "2,5"
  /\ split ";" line !! 7%nat = Some "2"
  /\ ~ Qabs (5 # 2) < 1 # 1000000000.
Proof.
  intros original completed line. split; [|split; [|split; [|split]]].
  - eexists _, _, _. split; [vm_compute; reflexivity|]. split.
    + simpl. auto 10.
    + vm_compute. reflexivity.
  - vm_compute. reflexivity.
  - vm_compute. reflexivity.
  - vm_compute. reflexivity.
  - intros H. discriminate.
Qed.

End IndicatorProperties.

(* ===================================================================== *)
(** * Part III: further properties of the code                            *)
(* ===================================================================== *)

(** ** Distribution engine: totals of a group *)

Section DistributionTotals.
Local Open Scope Q_scope.

Lemma Qsum_app (a b : list Q) : Qsum (a ++ b) == Qsum a + Qsum b.
Proof.
  induction a as [|x a IH]; cbn [app].
  - unfold Qsum at 2. simpl. lra.
  - rewrite !Qsum_cons, IH. lra.
Qed.

Lemma Qsum_perm (a b : list Q) : Permutation a b -> Qsum a == Qsum b.
Proof.
  induction 1 as [|x a b _ IH|x y a|a b c _ IH1 _ IH2].
  - reflexivity.
  - rewrite !Qsum_cons, IH. reflexivity.
  - rewrite !Qsum_cons. lra.
  - rewrite IH1. exact IH2.
Qed.

(** The loop body only writes the three computed columns of a line. *)
Lemma distribute_lot_line saisie idx rem lot :
  exists ajustement corrigee,
    fst (distribute_lot saisie idx rem lot) = set_distribution lot ajustement corrigee saisie
    /\ corrigee == QUANTITE_ORIGINALE lot + ajustement.
Proof.
  unfold distribute_lot.
  repeat match goal with |- context [if ?b then _ else _] => destruct b end;
    eexists _, _; (split; [reflexivity | lra]).
Qed.

Lemma distribute_loop_lines saisie lots : forall idx rem,
  Forall2 (fun lot row =>
             exists ajustement corrigee,
               row = set_distribution lot ajustement corrigee saisie
               /\ corrigee == QUANTITE_ORIGINALE lot + ajustement)
          lots (fst (distribute_loop saisie idx rem lots)).
Proof.
  induction lots as [|lot rest IH]; intros idx rem.
  - constructor.
  - cbn [distribute_loop].
    pose proof (distribute_lot_line saisie idx rem lot) as Hl.
    destruct (distribute_lot saisie idx rem lot) as [row rem'].
    specialize (IH (S idx) rem').
    destruct (distribute_loop saisie (S idx) rem' rest) as [rows final].
    simpl in *. constructor; assumption.
Qed.

Lemma distribute_loop_corrected_sum saisie lots : forall idx rem,
  Qsum (map QUANTITE_CORRIGEE (fst (distribute_loop saisie idx rem lots)))
  == Qsum (map QUANTITE_ORIGINALE lots)
     + Qsum (map AJUSTEMENT (fst (distribute_loop saisie idx rem lots))).
Proof.
  intros idx rem. pose proof (distribute_loop_lines saisie lots idx rem) as H.
  induction H as [|lot row lots rows (a & c & -> & Hc) _ IH].
  - reflexivity.
  - cbn [map]. rewrite !Qsum_cons, IH. simpl. lra.
Qed.

(** Once the remaining shortfall is covered by the lots still to come,
    none of which is negative, the loop ends with nothing left. *)
Lemma distribute_loop_covered saisie lots : forall idx rem,
  Forall (fun lot => 0 <= QUANTITE_ORIGINALE lot) lots ->
  rem <= 0 -> - rem <= Qsum (map QUANTITE_ORIGINALE lots) ->
  snd (distribute_loop saisie idx rem lots) == 0.
Proof.
  induction lots as [|lot rest IH]; intros idx rem Hpos Hrem Hsum.
  - simpl. change (Qsum (map QUANTITE_ORIGINALE [])) with 0 in Hsum. lra.
  - inversion Hpos as [|? ? Hlot Hrest]; subst.
    cbn [map] in Hsum. rewrite Qsum_cons in Hsum.
    destruct (Qeq_dec rem 0) as [Hz|Hnz].
    + rewrite (distribute_loop_settled _ _ _ _ Hz). exact Hz.
    + assert (Hneg : rem < 0) by lra.
      cbn [distribute_loop].
      destruct (Qlt_le_dec (- rem) (QUANTITE_ORIGINALE lot)) as [Hlt|Hle].
      * rewrite (distribute_lot_absorb _ _ _ _ Hneg Hlt).
        rewrite distribute_loop_settled by reflexivity. reflexivity.
      * rewrite (distribute_lot_drain _ _ _ _ Hneg Hle).
        specialize (IH (S idx) (rem + QUANTITE_ORIGINALE lot) Hrest).
        destruct (distribute_loop saisie (S idx) (rem + QUANTITE_ORIGINALE lot) rest)
          as [rows final].
        simpl in *. apply IH; lra.
Qed.

Lemma distribute_group_corrected_total strategy article group :
  Qsum (map QUANTITE_CORRIGEE (fst (distribute_group strategy article group)))
  + snd (distribute_loop (quantite_reelle_saisie group) 0 (ecart_total group)
           (sort_for strategy group))
  == quantite_reelle_saisie group.
Proof.
  rewrite distribute_group_rows, distribute_loop_corrected_sum.
  pose proof (distribute_loop_balance (quantite_reelle_saisie group)
                (sort_for strategy group) 0%nat (ecart_total group)) as Hb.
  assert (Hperm : Qsum (map QUANTITE_ORIGINALE (sort_for strategy group))
                  == quantite_originale_totale group).
  { unfold quantite_originale_totale. apply Qsum_perm, Permutation_map.
    apply Permutation_sym, sort_for_perm. }
  assert (He : ecart_total group
               == quantite_reelle_saisie group - quantite_originale_totale group)
    by reflexivity.
  lra.
Qed.

(** X1. In every group, each distributed line keeps the columns of its
    line of the sorted group and carries
    [QUANTITE_CORRIGEE = QUANTITE_ORIGINALE + AJUSTEMENT]; the corrected
    quantities of the group and the part of the difference that could not
    be placed add up to the counted quantity. *)
Theorem corrected_total_of_group :
  forall (strategy : Strategy) (article : string) (group : list Row),
    let saisie := quantite_reelle_saisie group in
    let rows := fst (distribute_group strategy article group) in
    let residual :=
      snd (distribute_loop saisie 0 (ecart_total group) (sort_for strategy group)) in
    Forall2 (fun lot row =>
               exists ajustement corrigee,
                 row = set_distribution lot ajustement corrigee saisie
                 /\ corrigee == QUANTITE_ORIGINALE lot + ajustement)
            (sort_for strategy group) rows
    /\ Qsum (map QUANTITE_CORRIGEE rows) + residual == saisie.
Proof.
  intros strategy article group saisie rows residual. split.
  - subst rows. rewrite distribute_group_rows. apply distribute_loop_lines.
  - apply distribute_group_corrected_total.
Qed.

(** X2. When no line of a non-empty group has a negative original
    quantity and the counted quantity is not negative, the whole
    difference is placed: nothing remains, no warning is logged and the
    corrected quantities of the group add up to the counted quantity. *)
Theorem count_fully_distributed :
  forall (strategy : Strategy) (article : string) (group : list Row),
    group <> [] ->
    Forall (fun lot => 0 <= QUANTITE_ORIGINALE lot) group ->
    0 <= quantite_reelle_saisie group ->
    let rows := fst (distribute_group strategy article group) in
    snd (distribute_loop (quantite_reelle_saisie group) 0 (ecart_total group)
           (sort_for strategy group)) == 0
    /\ snd (distribute_group strategy article group) = []
    /\ Qsum (map QUANTITE_CORRIGEE rows) == quantite_reelle_saisie group.
Proof.
  intros strategy article group Hne Hpos Hsaisie rows.
  set (saisie := quantite_reelle_saisie group) in *.
  set (sorted := sort_for strategy group).
  assert (Hperm : Permutation group sorted) by apply sort_for_perm.
  assert (Hres : snd (distribute_loop saisie 0 (ecart_total group) sorted) == 0).
  { destruct (Qlt_le_dec 0 (ecart_total group)) as [Hgt|Hle].
    - destruct sorted as [|first others] eqn:Hs.
      + apply Permutation_sym, Permutation_nil in Hperm. contradiction.
      + rewrite (distribute_loop_surplus _ _ _ _ Hgt). reflexivity.
    - apply distribute_loop_covered.
      + eapply Permutation_Forall; [exact Hperm | exact Hpos].
      + exact Hle.
      + rewrite <- (Qsum_perm _ _ (Permutation_map QUANTITE_ORIGINALE Hperm)).
        unfold ecart_total, quantite_originale_totale. fold saisie. lra. }
  split; [exact Hres|]. split.
  - rewrite distribute_group_log. fold saisie sorted. cbv zeta.
    destruct (Qgt_bool _ _) eqn:E; [|reflexivity].
    qbool. rewrite Hres in E. discriminate E.
  - pose proof (distribute_group_corrected_total strategy article group) as Ht.
    fold saisie sorted rows in Ht. lra.
Qed.

Lemma count_fully_distributed_witness :
  snd (distribute_group LIFO "ART1" (ex_rows 8)) = []
  /\ Qsum (map QUANTITE_CORRIGEE (fst (distribute_group LIFO "ART1" (ex_rows 8)))) == 8.
Proof.
  assert (Hne : ex_rows 8 <> []) by discriminate.
  assert (Hpos : Forall (fun lot => 0 <= QUANTITE_ORIGINALE lot) (ex_rows 8))
    by (repeat constructor; discriminate).
  assert (Hs : 0 <= quantite_reelle_saisie (ex_rows 8)) by discriminate.
  exact (proj2 (count_fully_distributed LIFO "ART1" (ex_rows 8) Hne Hpos Hs)).
Defined.

End DistributionTotals.

(** ** Distribution engine: direction of the adjustments *)

Section AdjustmentDirection.
Local Open Scope Q_scope.

Lemma distribute_loop_surplus_sign saisie lots : forall idx rem,
  0 <= rem ->
  Forall (fun row => 0 <= AJUSTEMENT row /\ QUANTITE_ORIGINALE row <= QUANTITE_CORRIGEE row)
         (fst (distribute_loop saisie idx rem lots)).
Proof.
  induction lots as [|lot rest IH]; intros idx rem Hrem; [constructor|].
  cbn [distribute_loop].
  assert (Hstep : 0 <= snd (distribute_lot saisie idx rem lot)
                  /\ 0 <= AJUSTEMENT (fst (distribute_lot saisie idx rem lot))
                  /\ QUANTITE_ORIGINALE (fst (distribute_lot saisie idx rem lot))
                     <= QUANTITE_CORRIGEE (fst (distribute_lot saisie idx rem lot))).
  { unfold distribute_lot.
    destruct (Qeq_bool rem 0) eqn:E0; [cbn; repeat split; lra|].
    destruct (Qgt_bool rem 0) eqn:E1; qbool; [|lra].
    destruct (Nat.eqb idx 0); cbn; repeat split; lra. }
  destruct (distribute_lot saisie idx rem lot) as [row rem'].
  destruct Hstep as (Hrem' & Ha & Hc). cbn [fst snd] in *.
  specialize (IH (S idx) rem' Hrem').
  destruct (distribute_loop saisie (S idx) rem' rest) as [rows final].
  cbn [fst] in *. constructor; [split; assumption | exact IH].
Qed.

Lemma distribute_loop_shortfall_sign saisie lots : forall idx rem,
  rem <= 0 ->
  Forall (fun lot => 0 <= QUANTITE_ORIGINALE lot) lots ->
  Forall (fun row => - QUANTITE_ORIGINALE row <= AJUSTEMENT row <= 0
                     /\ 0 <= QUANTITE_CORRIGEE row <= QUANTITE_ORIGINALE row)
         (fst (distribute_loop saisie idx rem lots)).
Proof.
  induction lots as [|lot rest IH]; intros idx rem Hrem Hpos; [constructor|].
  inversion Hpos as [|? ? Hlot Hrest]; subst.
  cbn [distribute_loop].
  assert (Hstep : snd (distribute_lot saisie idx rem lot) <= 0
                  /\ (- QUANTITE_ORIGINALE (fst (distribute_lot saisie idx rem lot))
                      <= AJUSTEMENT (fst (distribute_lot saisie idx rem lot)) <= 0)
                  /\ (0 <= QUANTITE_CORRIGEE (fst (distribute_lot saisie idx rem lot))
                      <= QUANTITE_ORIGINALE (fst (distribute_lot saisie idx rem lot)))).
  { unfold distribute_lot.
    destruct (Qeq_bool rem 0) eqn:E0; [cbn; repeat split; lra|].
    destruct (Qgt_bool rem 0) eqn:E1; qbool; [lra|].
    destruct (Qle_bool (QUANTITE_ORIGINALE lot) (Qabs rem)) eqn:E2; qbool;
      rewrite Qabs_neg in E2 by lra; cbn; repeat split; lra. }
  destruct (distribute_lot saisie idx rem lot) as [row rem'].
  destruct Hstep as (Hrem' & Ha & Hc). cbn [fst snd] in *.
  specialize (IH (S idx) rem' Hrem' Hrest).
  destruct (distribute_loop saisie (S idx) rem' rest) as [rows final].
  cbn [fst] in *. constructor; [split; assumption | exact IH].
Qed.

(** X3. The adjustments of a group all go in the direction of its
    difference.  When the counted quantity is at least the original total
    no line is reduced; when it is at most the original total and no line
    has a negative original quantity, no line is increased and none is
    reduced below zero: every corrected quantity lies between 0 and the
    original quantity of its line. *)
Theorem adjustments_follow_the_difference :
  forall (strategy : Strategy) (article : string) (group : list Row),
    let rows := fst (distribute_group strategy article group) in
    (0 <= ecart_total group ->
     Forall (fun row => 0 <= AJUSTEMENT row
                        /\ QUANTITE_ORIGINALE row <= QUANTITE_CORRIGEE row) rows)
    /\ (ecart_total group <= 0 ->
        Forall (fun lot => 0 <= QUANTITE_ORIGINALE lot) group ->
        Forall (fun row => - QUANTITE_ORIGINALE row <= AJUSTEMENT row <= 0
                           /\ 0 <= QUANTITE_CORRIGEE row <= QUANTITE_ORIGINALE row) rows).
Proof.
  intros strategy article group rows. subst rows. rewrite distribute_group_rows. split.
  - intros H. apply distribute_loop_surplus_sign, H.
  - intros H Hpos. apply distribute_loop_shortfall_sign; [exact H|].
    eapply Permutation_Forall; [apply sort_for_perm | exact Hpos].
Qed.

Lemma adjustments_follow_the_difference_witness :
  Forall (fun row => - QUANTITE_ORIGINALE row <= AJUSTEMENT row <= 0
                     /\ 0 <= QUANTITE_CORRIGEE row <= QUANTITE_ORIGINALE row)
         (fst (distribute_group FIFO "ART1" (ex_rows 8)))
  /\ Forall (fun row => 0 <= AJUSTEMENT row
                        /\ QUANTITE_ORIGINALE row <= QUANTITE_CORRIGEE row)
            (fst (distribute_group FIFO "ART1" (ex_rows 20))).
Proof.
  split.
  - apply (proj2 (adjustments_follow_the_difference FIFO "ART1" (ex_rows 8))).
    + discriminate.
    + repeat constructor; discriminate.
  - apply (proj1 (adjustments_follow_the_difference FIFO "ART1" (ex_rows 20))).
    discriminate.
Defined.

End AdjustmentDirection.

(** ** Distribution engine: a negative count *)

Section NegativeCount.
Local Open Scope Q_scope.

Lemma distribute_loop_exhausted saisie lots : forall idx rem,
  Forall (fun lot => 0 <= QUANTITE_ORIGINALE lot) lots ->
  rem + Qsum (map QUANTITE_ORIGINALE lots) < 0 ->
  fst (distribute_loop saisie idx rem lots) = map (zeroed saisie) lots
  /\ snd (distribute_loop saisie idx rem lots) == rem + Qsum (map QUANTITE_ORIGINALE lots).
Proof.
  induction lots as [|lot rest IH]; intros idx rem Hpos Hsum.
  - cbn [distribute_loop map fst snd]. split; [reflexivity|].
    change (Qsum []) with 0. lra.
  - inversion Hpos as [|? ? Hlot Hrest]; subst.
    cbn [map] in Hsum |- *. rewrite Qsum_cons in Hsum.
    assert (Hnonneg : 0 <= Qsum (map QUANTITE_ORIGINALE rest)).
    { clear -Hrest. induction Hrest as [|x l Hx _ IH]; [discriminate|].
      cbn [map]. rewrite Qsum_cons. lra. }
    cbn [distribute_loop].
    rewrite (distribute_lot_drain saisie idx rem lot) by lra.
    destruct (IH (S idx) (rem + QUANTITE_ORIGINALE lot) Hrest ltac:(lra)) as [Hrows Hfinal].
    destruct (distribute_loop saisie (S idx) (rem + QUANTITE_ORIGINALE lot) rest)
      as [rows final].
    cbn [fst snd] in *. split; [rewrite Hrows; reflexivity|].
    rewrite Hfinal, Qsum_cons. lra.
Qed.

(** X4. A negative counted quantity cannot be placed.  When no line of
    the group has a negative original quantity and the count is negative,
    every line of the group is set to zero ([AJUSTEMENT = - original],
    [QUANTITE_CORRIGEE = 0]) and the count itself remains as residual; a
    warning is logged for the group exactly when the count is below
    [-0.01]. *)
Theorem negative_count_zeroes_the_group :
  forall (strategy : Strategy) (article : string) (group : list Row),
    Forall (fun lot => 0 <= QUANTITE_ORIGINALE lot) group ->
    quantite_reelle_saisie group < 0 ->
    let saisie := quantite_reelle_saisie group in
    let residual :=
      snd (distribute_loop saisie 0 (ecart_total group) (sort_for strategy group)) in
    fst (distribute_group strategy article group)
    = map (zeroed saisie) (sort_for strategy group)
    /\ residual == saisie
    /\ (saisie < - (1 # 100) ->
        snd (distribute_group strategy article group) = [WarnResidual article residual])
    /\ (- (1 # 100) <= saisie -> snd (distribute_group strategy article group) = []).
Proof.
  intros strategy article group Hpos Hneg saisie residual.
  assert (Hsorted : Forall (fun lot => 0 <= QUANTITE_ORIGINALE lot) (sort_for strategy group))
    by (eapply Permutation_Forall; [apply sort_for_perm | exact Hpos]).
  assert (Hsum : Qsum (map QUANTITE_ORIGINALE (sort_for strategy group))
                 == quantite_originale_totale group).
  { unfold quantite_originale_totale. apply Qsum_perm, Permutation_map.
    apply Permutation_sym, sort_for_perm. }
  assert (He : ecart_total group == saisie - quantite_originale_totale group)
    by reflexivity.
  destruct (distribute_loop_exhausted saisie (sort_for strategy group) 0%nat
              (ecart_total group) Hsorted ltac:(fold saisie in Hneg; lra))
    as [Hrows Hfinal].
  fold residual in Hfinal.
  assert (Hres : residual == saisie) by lra.
  rewrite distribute_group_rows, distribute_group_log. fold saisie residual. cbv zeta.
  split; [exact Hrows|]. split; [exact Hres|].
  fold saisie in Hneg.
  assert (Habs : Qabs residual == - saisie) by (rewrite Hres; apply Qabs_neg; lra).
  change residual_tolerance with (1 # 100).
  split; intros H.
  - destruct (Qgt_bool (Qabs residual) (1 # 100)) eqn:E; [reflexivity|]. qbool. lra.
  - destruct (Qgt_bool (Qabs residual) (1 # 100)) eqn:E; [|reflexivity]. qbool. lra.
Qed.

Lemma negative_count_zeroes_the_group_witness :
  fst (distribute_group FIFO "ART1" (ex_rows (-2)))
  = map (zeroed (-2)) (sort_for FIFO (ex_rows (-2)))
  /\ exists residual,
       residual == -2
       /\ snd (distribute_group FIFO "ART1" (ex_rows (-2))) = [WarnResidual "ART1" residual].
Proof.
  destruct (negative_count_zeroes_the_group FIFO "ART1" (ex_rows (-2)))
    as (Hrows & Hres & Hwarn & _).
  - repeat constructor; discriminate.
  - reflexivity.
  - split; [exact Hrows|]. eexists. split; [exact Hres|]. apply Hwarn. reflexivity.
Defined.

End NegativeCount.

(** ** Distribution engine: balance of a group *)

Section GroupBalance.
Local Open Scope Q_scope.





End GroupBalance.

(** ** Grouping *)

Lemma string_compare_refl (s : string) : String.compare s s = Eq.
Proof.
  pose proof (String.compare_antisym s s) as H.
  destruct (String.compare s s); simpl in H; congruence.
Qed.

Lemma ascii_compare_lt_trans (a b c : ascii) :
  Ascii.compare a b = Lt -> Ascii.compare b c = Lt -> Ascii.compare a c = Lt.
Proof.
  unfold Ascii.compare. rewrite !N.compare_lt_iff. apply N.lt_trans.
Qed.

Lemma string_compare_lt_trans (a : string) : forall b c,
  String.compare a b = Lt -> String.compare b c = Lt -> String.compare a c = Lt.
Proof.
  induction a as [|x a IH]; intros [|y b] [|z c]; simpl; try congruence.
  destruct (Ascii.compare x y) eqn:Exy; try discriminate;
    destruct (Ascii.compare y z) eqn:Eyz; try discriminate; intros H1 H2.
  - apply Ascii.compare_eq_iff in Exy, Eyz. subst.
    assert (Hr : Ascii.compare z z = Eq).
    { pose proof (Ascii.compare_antisym z z) as H.
      destruct (Ascii.compare z z); simpl in H; congruence. }
    rewrite Hr. eapply IH; eassumption.
  - apply Ascii.compare_eq_iff in Exy. subst. rewrite Eyz. reflexivity.
  - apply Ascii.compare_eq_iff in Eyz. subst. rewrite Exy. reflexivity.
  - rewrite (ascii_compare_lt_trans _ _ _ Exy Eyz). reflexivity.
Qed.

Lemma lex_lt (a b : string) (d : comparison) :
  lex (String.compare a b) d = Lt <-> String.compare a b = Lt \/ (a = b /\ d = Lt).
Proof.
  unfold lex. destruct (String.compare a b) eqn:E.
  - apply String.compare_eq_iff in E. subst. intuition congruence.
  - intuition congruence.
  - split; [discriminate|]. intros [H|[-> _]]; [discriminate|].
    rewrite string_compare_refl in E. discriminate.
Qed.

Lemma group_key_compare_eq (a b : GroupKey) : group_key_compare a b = Eq <-> a = b.
Proof.
  destruct a as [[[[[a1 a2] a3] a4] a5] a6], b as [[[[[b1 b2] b3] b4] b5] b6].
  unfold group_key_compare, lex. split.
  - intros H.
    destruct (String.compare a1 b1) eqn:E1; try discriminate.
    destruct (String.compare a2 b2) eqn:E2; try discriminate.
    destruct (String.compare a3 b3) eqn:E3; try discriminate.
    destruct (String.compare a4 b4) eqn:E4; try discriminate.
    destruct (String.compare a5 b5) eqn:E5; try discriminate.
    apply String.compare_eq_iff in E1, E2, E3, E4, E5, H. congruence.
  - intros H. injection H as -> -> -> -> -> ->.
    rewrite !string_compare_refl. reflexivity.
Qed.

Lemma group_key_compare_lt_trans (a b c : GroupKey) :
  group_key_compare a b = Lt -> group_key_compare b c = Lt -> group_key_compare a c = Lt.
Proof.
  destruct a as [[[[[a1 a2] a3] a4] a5] a6], b as [[[[[b1 b2] b3] b4] b5] b6],
           c as [[[[[c1 c2] c3] c4] c5] c6].
  unfold group_key_compare. rewrite !lex_lt.
  intros H1 H2.
  repeat match goal with
         | H : _ \/ _ |- _ => destruct H
         | H : _ /\ _ |- _ => destruct H
         end; subst;
    eauto 12 using string_compare_lt_trans.
Qed.

Lemma group_key_compare_antisym (a b : GroupKey) :
  group_key_compare a b = Gt -> group_key_compare b a = Lt.
Proof.
  destruct a as [[[[[a1 a2] a3] a4] a5] a6], b as [[[[[b1 b2] b3] b4] b5] b6].
  unfold group_key_compare, lex.
  rewrite (String.compare_antisym a1 b1), (String.compare_antisym a2 b2),
          (String.compare_antisym a3 b3), (String.compare_antisym a4 b4),
          (String.compare_antisym a5 b5), (String.compare_antisym a6 b6).
  destruct (String.compare b1 a1); simpl; try congruence.
  destruct (String.compare b2 a2); simpl; try congruence.
  destruct (String.compare b3 a3); simpl; try congruence.
  destruct (String.compare b4 a4); simpl; try congruence.
  destruct (String.compare b5 a5); simpl; try congruence.
  destruct (String.compare b6 a6); simpl; congruence.
Qed.

Lemma insert_key_In (k x : GroupKey) (keys : list GroupKey) :
  In x (insert_key k keys) <-> x = k \/ In x keys.
Proof.
  induction keys as [|k' keys IH]; simpl.
  - intuition.
  - destruct (group_key_compare k k') eqn:E; simpl.
    + apply group_key_compare_eq in E. subst k'. intuition.
    + intuition.
    + rewrite IH. intuition.
Qed.

(** [insert_key] keeps the keys in strictly ascending order. *)
Lemma insert_key_ascending (k : GroupKey) (keys : list GroupKey) :
  ForallOrdPairs (fun a b => group_key_compare a b = Lt) keys ->
  ForallOrdPairs (fun a b => group_key_compare a b = Lt) (insert_key k keys).
Proof.
  induction 1 as [|k' keys Hk' Hkeys IH]; simpl.
  - repeat constructor.
  - destruct (group_key_compare k k') eqn:E.
    + constructor; assumption.
    + constructor; [|constructor; assumption].
      constructor; [exact E|].
      eapply List.Forall_impl; [|exact Hk'].
      intros x Hx. exact (group_key_compare_lt_trans _ _ _ E Hx).
    + constructor; [|exact IH].
      apply List.Forall_forall. intros x Hx. apply insert_key_In in Hx as [->|Hx].
      * apply group_key_compare_antisym, E.
      * rewrite List.Forall_forall in Hk'. apply Hk', Hx.
Qed.

Lemma keys_ascending {A : Type} (key : A -> GroupKey) (df : list A) :
  ForallOrdPairs (fun a b => group_key_compare a b = Lt)
                 (fold_right insert_key [] (map key df)).
Proof.
  induction df as [|r df IH]; simpl.
  - constructor.
  - apply insert_key_ascending, IH.
Qed.

Lemma keys_In {A : Type} (key : A -> GroupKey) (df : list A) (k : GroupKey) :
  In k (fold_right insert_key [] (map key df)) <-> exists r, In r df /\ key r = k.
Proof.
  induction df as [|r df IH]; simpl.
  - split; [intros [] | intros [r [[] _]]].
  - rewrite insert_key_In, IH. split.
    + intros [->|[r' [Hr' Hk]]]; [exists r; auto | exists r'; auto].
    + intros [r' [[<-|Hr'] Hk]]; [left; auto | right; exists r'; auto].
Qed.

Lemma group_keys_ascending (df : list Row) :
  ForallOrdPairs (fun a b => group_key_compare a b = Lt) (group_keys df).
Proof. apply keys_ascending. Qed.

Lemma group_keys_In (df : list Row) (k : GroupKey) :
  In k (group_keys df) <-> exists r, In r df /\ group_key r = k.
Proof. apply keys_In. Qed.

Lemma ascending_NoDup (keys : list GroupKey) :
  ForallOrdPairs (fun a b => group_key_compare a b = Lt) keys -> List.NoDup keys.
Proof.
  induction 1 as [|k keys Hk _ IH]; constructor; [|exact IH].
  intros Hin. rewrite List.Forall_forall in Hk. specialize (Hk k Hin).
  rewrite (proj2 (group_key_compare_eq k k) eq_refl) in Hk. discriminate.
Qed.

(** Two selections that exclude each other split their union. *)
Lemma filter_disjoint_union {A : Type} (p q : A -> bool) (l : list A) :
  (forall x, In x l -> p x = true -> q x = false) ->
  Permutation (List.filter p l ++ List.filter q l)
              (List.filter (fun x => p x || q x) l).
Proof.
  induction l as [|x l IH]; intros H; simpl.
  - constructor.
  - assert (IH' := IH (fun y Hy => H y (or_intror Hy))).
    destruct (p x) eqn:Ep; simpl.
    + rewrite (H x (or_introl eq_refl) Ep). apply perm_skip, IH'.
    + destruct (q x); simpl; [|exact IH'].
      apply Permutation_sym. eapply perm_trans; [apply perm_skip, Permutation_sym, IH'|].
      apply Permutation_middle.
Qed.

Lemma groups_of_keys {A : Type} (key : A -> GroupKey) (df : list A)
    (keys : list GroupKey) :
  List.NoDup keys ->
  Permutation
    (concat (map (fun k => List.filter (fun r => bool_decide (key r = k)) df) keys))
    (List.filter (fun r => existsb (fun k => bool_decide (key r = k)) keys) df).
Proof.
  induction 1 as [|k keys Hk Hkeys IH]; simpl.
  - induction df; simpl; [constructor | assumption].
  - eapply perm_trans; [apply Permutation_app_head, IH|].
    apply filter_disjoint_union.
    intros r _ Hr. apply bool_decide_eq_true in Hr. subst k.
    apply not_true_is_false. intros He. apply existsb_exists in He as [k [Hin He]].
    apply bool_decide_eq_true in He. subst k. contradiction.
Qed.

(** The groups of a table by a key hold every row exactly once. *)
Lemma groups_partition {A : Type} (key : A -> GroupKey) (df : list A) :
  Permutation
    (concat (map (fun k => List.filter (fun r => bool_decide (key r = k)) df)
                 (fold_right insert_key [] (map key df))))
    df.
Proof.
  eapply perm_trans; [apply groups_of_keys, ascending_NoDup, keys_ascending|].
  rewrite (filter_ext_in _ (fun _ => true)).
  - induction df as [|r df IH]; simpl; [constructor | apply perm_skip, IH].
  - intros r Hr. apply existsb_exists. exists (key r). split.
    + apply keys_In. exists r. auto.
    + apply bool_decide_eq_true. reflexivity.
Qed.

(** The groups of [groupby] hold every row of the table exactly once. *)
Lemma groupby_partition (df : list Row) :
  Permutation (concat (map snd (groupby df))) df.
Proof.
  unfold groupby. rewrite map_map. cbn [snd]. apply (groups_partition group_key).
Qed.

Lemma groupby_In (df : list Row) (key : GroupKey) (group : list Row) :
  In (key, group) (groupby df) ->
  group = List.filter (fun r => bool_decide (group_key r = key)) df
  /\ group <> []
  /\ Forall (fun r => In r df /\ group_key r = key) group.
Proof.
  unfold groupby. intros H. apply in_map_iff in H as [k [Hk Hin]].
  injection Hk as -> <-. split; [reflexivity|]. split.
  - apply group_keys_In in Hin as [r [Hr Hkey]].
    intros Hnil.
    assert (Hmem : In r (List.filter (fun r => bool_decide (group_key r = key)) df)).
    { apply filter_In. split; [exact Hr|]. apply bool_decide_eq_true, Hkey. }
    rewrite Hnil in Hmem. exact Hmem.
  - apply List.Forall_forall. intros r Hr. apply filter_In in Hr as [Hr Hk].
    apply bool_decide_eq_true in Hk. auto.
Qed.

Lemma distribute_groups_rows strategy (groups : list (GroupKey * list Row)) :
  fst (distribute_groups strategy groups)
  = concat (map (fun g => fst (distribute_group strategy (key_article (fst g)) (snd g)))
                groups).
Proof.
  induction groups as [|[key group] groups IH]; simpl; [reflexivity|].
  destruct (distribute_group _ _ _) as [rows log].
  destruct (distribute_groups strategy groups) as [rows' log'].
  simpl in *. rewrite IH. reflexivity.
Qed.

Section TableProperties.
Local Open Scope Q_scope.

Lemma distribute_groups_lines strategy (groups : list (GroupKey * list Row)) :
  exists lines : list Row,
    Permutation lines (concat (map snd groups))
    /\ Forall2 (fun lot row =>
                  exists ajustement corrigee saisie,
                    row = set_distribution lot ajustement corrigee saisie
                    /\ corrigee == QUANTITE_ORIGINALE lot + ajustement)
               lines (fst (distribute_groups strategy groups)).
Proof.
  induction groups as [|[key group] groups (lines & Hperm & Hrows)].
  - exists []. split; constructor.
  - exists (sort_for strategy group ++ lines)%list. split.
    + cbn [map concat snd]. apply Permutation_app; [|exact Hperm].
      apply Permutation_sym, sort_for_perm.
    + cbn [distribute_groups].
      pose proof (distribute_loop_lines (quantite_reelle_saisie group)
                    (sort_for strategy group) 0%nat (ecart_total group)) as Hg.
      rewrite <- distribute_group_rows with (article := key_article key) in Hg.
      destruct (distribute_group strategy (key_article key) group) as [rows log].
      destruct (distribute_groups strategy groups) as [rows' log'].
      cbn [fst] in *. apply Forall2_app; [|exact Hrows].
      eapply Forall2_impl; [exact Hg|].
      intros lot row (a & c & Hrow & Hc). exists a, c, (quantite_reelle_saisie group). auto.
Qed.

(** ** Discrepancy calculator *)

Lemma real_quantities_dict_snoc (completed : list Tpl.Row) (row : Tpl.Row) :
  real_quantities_dict (completed ++ [row])
  = <[(Tpl.Code_Article row, Tpl.Numero_Inventaire row) := Tpl.Quantite_Reelle row]>
      (real_quantities_dict completed).
Proof. unfold real_quantities_dict. rewrite fold_left_app. reflexivity. Qed.

Lemma real_quantities_dict_missing (completed : list Tpl.Row) (key : string * string) :
  Forall (fun t => (Tpl.Code_Article t, Tpl.Numero_Inventaire t) <> key) completed ->
  real_quantities_dict completed !! key = None.
Proof.
  induction completed as [|t completed IH] using rev_ind; intros H.
  - apply lookup_empty.
  - apply Forall_app in H as [H Ht]. inversion Ht as [|? ? Hne _]; subst.
    rewrite real_quantities_dict_snoc, lookup_insert_ne by exact Hne. apply IH, H.
Qed.

Lemma real_quantities_dict_last (after : list Tpl.Row) :
  forall (before : list Tpl.Row) (t : Tpl.Row),
    Forall (fun t' => (Tpl.Code_Article t', Tpl.Numero_Inventaire t')
                      <> (Tpl.Code_Article t, Tpl.Numero_Inventaire t)) after ->
    real_quantities_dict (before ++ t :: after)
      !! (Tpl.Code_Article t, Tpl.Numero_Inventaire t)
    = Some (Tpl.Quantite_Reelle t).
Proof.
  induction after as [|t' after IH] using rev_ind; intros before t H.
  - rewrite real_quantities_dict_snoc. apply lookup_insert_eq.
  - apply Forall_app in H as [H Ht]. inversion Ht as [|? ? Hne _]; subst.
    change (before ++ t :: after ++ [t'])%list with (before ++ (t :: after) ++ [t'])%list.
    rewrite app_assoc, real_quantities_dict_snoc, lookup_insert_ne by exact Hne.
    apply IH, H.
Qed.

(** An entry of the dictionary is the counted cell of some template row. *)
Lemma real_quantities_dict_from (completed : list Tpl.Row) (key : string * string) (c : Cell) :
  real_quantities_dict completed !! key = Some c ->
  exists t, In t completed /\ Tpl.Quantite_Reelle t = c.
Proof.
  induction completed as [|t completed IH] using rev_ind.
  - change (real_quantities_dict []) with (∅ : gmap (string * string) Cell).
    rewrite lookup_empty. discriminate.
  - rewrite real_quantities_dict_snoc.
    destruct (decide ((Tpl.Code_Article t, Tpl.Numero_Inventaire t) = key)) as [<-|Hne].
    + rewrite lookup_insert_eq. intros [= <-]. exists t. split; [|reflexivity].
      apply in_or_app. right. left. reflexivity.
    + rewrite lookup_insert_ne by exact Hne. intros H.
      destruct (IH H) as [t' [Hin Hc]]. exists t'. split; [|exact Hc].
      apply in_or_app. left. exact Hin.
Qed.

Lemma calculate_discrepancies_rows_spec (d : gmap (string * string) Cell)
    (original : list Orig.Row) (discrepancies : list Row) :
  _calculate_discrepancies_rows d original = Some discrepancies ->
  Forall2 (fun o r =>
             exists q,
               cell_number (default (CNum 0) (d !! (Orig.CODE_ARTICLE o, Orig.NUMERO_INVENTAIRE o)))
               = Some q
               /\ r = discrepancy_row o q)
          original discrepancies.
Proof.
  revert discrepancies. induction original as [|o original IH]; intros discrepancies; simpl.
  - intros [= <-]. constructor.
  - destruct (cell_number _) as [q|] eqn:Eq; [|discriminate].
    destruct (_calculate_discrepancies_rows d original) as [rows|]; [|discriminate].
    intros [= <-]. constructor; [|apply IH; reflexivity].
    exists q. auto.
Qed.

Lemma calculate_discrepancies_rows_total (d : gmap (string * string) Cell)
    (original : list Orig.Row) :
  (forall key c, d !! key = Some c -> exists q, c = CNum q) ->
  exists discrepancies, _calculate_discrepancies_rows d original = Some discrepancies.
Proof.
  intros Hd. induction original as [|o original [rows IH]]; simpl.
  - eexists. reflexivity.
  - rewrite IH.
    destruct (d !! (Orig.CODE_ARTICLE o, Orig.NUMERO_INVENTAIRE o)) as [c|] eqn:E; simpl.
    + destruct (Hd _ _ E) as [q ->]. simpl. eexists. reflexivity.
    + eexists. reflexivity.
Qed.

(** X6. When every counted cell of the template is a number,
    [_calculate_discrepancies] returns one row per original line, in the
    order of the lines, built from the line with [AJUSTEMENT = 0] and
    [QUANTITE_CORRIGEE] equal to the original quantity.  The counted
    quantity of the row is the one of the last template row that has the
    article and the inventory of the line, and 0 when the template has no
    such row. *)
Theorem discrepancies_follow_template :
  forall (completed : list Tpl.Row) (original : list Orig.Row),
    Forall (fun t => exists q, Tpl.Quantite_Reelle t = CNum q) completed ->
    exists discrepancies : list Row,
      _calculate_discrepancies completed original = Some discrepancies
      /\ length discrepancies = length original
      /\ forall (i : nat) (o : Orig.Row),
           original !! i = Some o ->
           exists q : Q,
             discrepancies !! i = Some (discrepancy_row o q)
             /\ AJUSTEMENT (discrepancy_row o q) = 0
             /\ QUANTITE_CORRIGEE (discrepancy_row o q) = Orig.QUANTITE o
             /\ (Forall (fun t => (Tpl.Code_Article t, Tpl.Numero_Inventaire t)
                                  <> (Orig.CODE_ARTICLE o, Orig.NUMERO_INVENTAIRE o))
                        completed -> q = 0)
             /\ (forall before t after,
                   completed = (before ++ t :: after)%list ->
                   (Tpl.Code_Article t, Tpl.Numero_Inventaire t)
                   = (Orig.CODE_ARTICLE o, Orig.NUMERO_INVENTAIRE o) ->
                   Forall (fun t' => (Tpl.Code_Article t', Tpl.Numero_Inventaire t')
                                     <> (Orig.CODE_ARTICLE o, Orig.NUMERO_INVENTAIRE o))
                          after ->
                   Tpl.Quantite_Reelle t = CNum q).
Proof.
  intros completed original Hnum.
  destruct (calculate_discrepancies_rows_total (real_quantities_dict completed) original)
    as [discrepancies Hcalc].
  { intros key c Hc. apply real_quantities_dict_from in Hc as [t [Hin <-]].
    rewrite List.Forall_forall in Hnum. apply Hnum, Hin. }
  exists discrepancies. split; [exact Hcalc|].
  pose proof (calculate_discrepancies_rows_spec _ _ _ Hcalc) as Hrows.
  split; [symmetry; apply (Forall2_length _ _ _ Hrows)|].
  intros i o Hi.
  destruct (Forall2_lookup_l _ _ _ _ _ Hrows Hi) as (r & Hr & q & Hq & ->).
  exists q. split; [exact Hr|]. split; [reflexivity|]. split; [reflexivity|]. split.
  - intros Hmissing. rewrite (real_quantities_dict_missing _ _ Hmissing) in Hq.
    simpl in Hq. congruence.
  - intros before t after -> Hkey Hafter. rewrite <- Hkey in Hq, Hafter.
    rewrite (real_quantities_dict_last _ _ _ Hafter) in Hq. simpl in Hq.
    destruct (Tpl.Quantite_Reelle t); simpl in Hq; congruence.
Qed.

Lemma discrepancies_follow_template_witness :
  exists discrepancies : list Row,
    _calculate_discrepancies [ex_counted "ART1" 15 7; ex_counted "ART1" 15 8]
      [ex_lot_old; ex_stock_line] = Some discrepancies
    /\ discrepancies !! 0%nat = Some (discrepancy_row ex_lot_old 8)
    /\ discrepancies !! 1%nat = Some (discrepancy_row ex_stock_line 0).
Proof.
  destruct (discrepancies_follow_template
              [ex_counted "ART1" 15 7; ex_counted "ART1" 15 8] [ex_lot_old; ex_stock_line])
    as (discrepancies & Hcalc & _ & Hrows).
  { repeat constructor; eexists; reflexivity. }
  exists discrepancies. split; [exact Hcalc|]. split.
  - destruct (Hrows 0%nat ex_lot_old eq_refl) as (q & Hq & _ & _ & _ & Hlast).
    specialize (Hlast [ex_counted "ART1" 15 7] (ex_counted "ART1" 15 8) [] eq_refl eq_refl
                      (List.Forall_nil _)).
    injection Hlast as <-. exact Hq.
  - destruct (Hrows 1%nat ex_stock_line eq_refl) as (q & Hq & _ & _ & Hmissing & _).
    rewrite Hmissing in Hq; [exact Hq|].
    repeat constructor; discriminate.
Defined.

(** X5. When every counted cell of the template is a number,
    [process_completed_file] saves the discrepancies of the session and
    [distribute_discrepancies] then succeeds, and it neither drops nor
    repeats a line: the rows it computes before the LOTECART adjustments
    are, line for line, a rearrangement of the rows of [discrepancies_df],
    each with only [AJUSTEMENT], [QUANTITE_CORRIGEE] and
    [QUANTITE_REELLE_SAISIE] rewritten and
    [QUANTITE_CORRIGEE = QUANTITE_ORIGINALE + AJUSTEMENT]; there is one
    such row for each line of the extract, and the table is saved in the
    session as [distributed_df]. *)
Theorem distribution_keeps_every_line :
  forall (to_numeric : string -> option Q) (session : Session)
         (completed : list Tpl.Row) (original : list Orig.Row) (strategy : Strategy),
    original_df session = Some original ->
    Forall (fun t => exists q, Tpl.Quantite_Reelle t = CNum q) completed ->
    exists (session1 session2 : Session) (discrepancies rows : list Row)
           (log : list LogEvent) (lines : list Row),
      process_completed_file to_numeric session completed = Some (Ok session1)
      /\ discrepancies_df session1 = Some discrepancies
      /\ _calculate_discrepancies completed original = Some discrepancies
      /\ distribute_discrepancies session1 strategy
         = Ok (session2,
               (rows ++ map with_saisie (fst (session_lotecart_adjustments session1)))%list,
               log)
      /\ distributed_df session2
         = Some (rows ++ map with_saisie (fst (session_lotecart_adjustments session1)))%list
      /\ Permutation lines discrepancies
      /\ Forall2 (fun lot row =>
                    exists ajustement corrigee saisie,
                      row = set_distribution lot ajustement corrigee saisie
                      /\ corrigee == QUANTITE_ORIGINALE lot + ajustement)
                 lines rows
      /\ length rows = length original.
Proof.
  intros to_numeric session completed original strategy Horig Hnum.
  destruct (calculate_discrepancies_rows_total (real_quantities_dict completed) original)
    as [discrepancies Hcalc].
  { intros key c Hc. apply real_quantities_dict_from in Hc as [t [Hin <-]].
    rewrite List.Forall_forall in Hnum. apply Hnum, Hin. }
  pose proof (calculate_discrepancies_rows_spec _ _ _ Hcalc) as Hspec.
  destruct (distribute_groups_lines strategy (groupby discrepancies))
    as (lines & Hperm & Hrows).
  assert (Hp : Permutation lines discrepancies).
  { eapply perm_trans; [exact Hperm | apply groupby_partition]. }
  assert (Hproc : exists session1,
            process_completed_file to_numeric session completed = Some (Ok session1)
            /\ discrepancies_df session1 = Some discrepancies).
  { unfold process_completed_file. rewrite Horig.
    unfold _calculate_discrepancies. rewrite Hcalc. eexists. split; reflexivity. }
  destruct Hproc as (session1 & Hproc & Hdisc).
  exists session1. unfold distribute_discrepancies. rewrite Hdisc.
  destruct (distribute_groups strategy (groupby discrepancies)) as [rows log].
  destruct (session_lotecart_adjustments session1) as [adjustments log'].
  cbn [fst] in *.
  eexists _, discrepancies, rows, _, lines.
  split; [exact Hproc|]. split; [reflexivity|]. split; [exact Hcalc|].
  split; [reflexivity|]. split; [reflexivity|].
  split; [exact Hp|]. split; [exact Hrows|].
  rewrite <- (Forall2_length _ _ _ Hrows), (Permutation_length Hp).
  symmetry. apply (Forall2_length _ _ _ Hspec).
Qed.

Lemma distribution_keeps_every_line_witness :
  exists (session1 session2 : Session) (rows : list Row) (log : list LogEvent)
         (lines : list Row),
    process_completed_file decimal_literal (ex_session [ex_lot_new; ex_lot_old])
      [ex_counted "ART1" 15 8] = Some (Ok session1)
    /\ discrepancies_df session1 = Some (ex_rows 8)
    /\ distribute_discrepancies session1 FIFO = Ok (session2, (rows ++ [])%list, log)
    /\ Permutation lines (ex_rows 8)
    /\ Forall2 (fun lot row =>
                  exists ajustement corrigee saisie,
                    row = set_distribution lot ajustement corrigee saisie
                    /\ corrigee == QUANTITE_ORIGINALE lot + ajustement)
               lines rows
    /\ length rows = 2%nat.
Proof.
  destruct (distribution_keeps_every_line decimal_literal
              (ex_session [ex_lot_new; ex_lot_old]) [ex_counted "ART1" 15 8]
              [ex_lot_new; ex_lot_old] FIFO eq_refl)
    as (session1 & session2 & discrepancies & rows & log & lines
        & Hproc & Hdisc & Hcalc & Hdist & _ & Hperm & Hrows & Hlen).
  { repeat constructor. eexists. reflexivity. }
  assert (Hd : discrepancies = ex_rows 8).
  { vm_compute in Hcalc. injection Hcalc as <-. reflexivity. }
  subst discrepancies.
  assert (Hadj : fst (session_lotecart_adjustments session1) = []).
  { vm_compute in Hproc. injection Hproc as <-. reflexivity. }
  rewrite Hadj in Hdist. cbn [map] in Hdist.
  exists session1, session2, rows, log, lines.
  repeat split; assumption.
Defined.

(** X7. In the table computed from a template, the rows of a group of
    [groupby] all carry the counted quantity that the group reads on its
    first row, so each distributed row of the group has, in
    [QUANTITE_REELLE_SAISIE], the quantity counted for its own article
    and inventory; a group is never empty. *)
Theorem group_shares_counted_quantity :
  forall (completed : list Tpl.Row) (original : list Orig.Row) (discrepancies : list Row)
         (strategy : Strategy) (key : GroupKey) (group : list Row),
    _calculate_discrepancies completed original = Some discrepancies ->
    In (key, group) (groupby discrepancies) ->
    group <> []
    /\ Forall (fun r => group_key r = key
                        /\ QUANTITE_REELLE_SAISIE_TOTALE r = quantite_reelle_saisie group) group
    /\ Forall (fun row =>
                 QUANTITE_REELLE_SAISIE row = Some (QUANTITE_REELLE_SAISIE_TOTALE row)
                 /\ cell_number
                      (default (CNum 0)
                         (real_quantities_dict completed
                            !! (CODE_ARTICLE row, NUMERO_INVENTAIRE row)))
                    = Some (QUANTITE_REELLE_SAISIE_TOTALE row))
              (fst (distribute_group strategy (key_article key) group)).
Proof.
  intros completed original discrepancies strategy key group Hcalc Hin.
  apply calculate_discrepancies_rows_spec in Hcalc.
  assert (Hcounted : forall r, In r discrepancies ->
            cell_number
              (default (CNum 0)
                 (real_quantities_dict completed !! (CODE_ARTICLE r, NUMERO_INVENTAIRE r)))
            = Some (QUANTITE_REELLE_SAISIE_TOTALE r)).
  { intros r Hr. apply list_elem_of_In, list_elem_of_lookup in Hr as [i Hi].
    destruct (Forall2_lookup_r _ _ _ _ _ Hcalc Hi) as (o & _ & q & Hq & ->). exact Hq. }
  destruct (groupby_In _ _ _ Hin) as (_ & Hne & Hgroup).
  assert (Hsame : Forall (fun r => group_key r = key
                    /\ QUANTITE_REELLE_SAISIE_TOTALE r = quantite_reelle_saisie group) group).
  { destruct group as [|first group]; [contradiction|].
    rewrite List.Forall_forall in Hgroup.
    destruct (Hgroup first (or_introl eq_refl)) as [Hfirst Hkfirst].
    apply List.Forall_forall. intros r Hr. destruct (Hgroup r Hr) as [Hrd Hkr].
    split; [exact Hkr|]. cbn [quantite_reelle_saisie].
    pose proof (Hcounted r Hrd) as H1. pose proof (Hcounted first Hfirst) as H2.
    assert (Hk : (CODE_ARTICLE r, NUMERO_INVENTAIRE r)
                 = (CODE_ARTICLE first, NUMERO_INVENTAIRE first)).
    { rewrite <- Hkfirst in Hkr. unfold group_key in Hkr. congruence. }
    rewrite Hk in H1. congruence. }
  split; [exact Hne|]. split; [exact Hsame|].
  rewrite distribute_group_rows.
  pose proof (distribute_loop_lines (quantite_reelle_saisie group)
                (sort_for strategy group) 0%nat (ecart_total group)) as Hlines.
  assert (Hsorted : Forall (fun r => In r group) (sort_for strategy group)).
  { apply List.Forall_forall. intros r Hr.
    eapply Permutation_in; [apply Permutation_sym, sort_for_perm | exact Hr]. }
  revert Hlines Hsorted.
  generalize (fst (distribute_loop (quantite_reelle_saisie group) 0 (ecart_total group)
                     (sort_for strategy group))).
  generalize (sort_for strategy group).
  intros lots rows Hlines. induction Hlines as [|lot row lots rows (a & c & -> & _) _ IH];
    intros Hsorted; [constructor|].
  inversion Hsorted as [|? ? Hlot Hrest]; subst.
  constructor; [|apply IH, Hrest].
  rewrite List.Forall_forall in Hsame, Hgroup.
  destruct (Hsame lot Hlot) as [_ Hs]. destruct (Hgroup lot Hlot) as [Hd _].
  cbn [QUANTITE_REELLE_SAISIE QUANTITE_REELLE_SAISIE_TOTALE CODE_ARTICLE NUMERO_INVENTAIRE
       set_distribution].
  split; [congruence | apply Hcounted, Hd].
Qed.

Lemma group_shares_counted_quantity_witness :
  let discrepancies := [discrepancy_row ex_lot_old 8; discrepancy_row ex_lot_new 8] in
  Forall (fun r => group_key r = ("ART1", "INV01", "A", "UN", "ZONE1", "EMP1")
                   /\ QUANTITE_REELLE_SAISIE_TOTALE r = quantite_reelle_saisie discrepancies)
         discrepancies
  /\ Forall (fun row => QUANTITE_REELLE_SAISIE row = Some (QUANTITE_REELLE_SAISIE_TOTALE row)
                        /\ cell_number
                             (default (CNum 0)
                                (real_quantities_dict [ex_counted "ART1" 15 8]
                                   !! (CODE_ARTICLE row, NUMERO_INVENTAIRE row)))
                           = Some (QUANTITE_REELLE_SAISIE_TOTALE row))
            (fst (distribute_group FIFO "ART1" discrepancies)).
Proof.
  intros discrepancies.
  assert (Hcalc : _calculate_discrepancies [ex_counted "ART1" 15 8] [ex_lot_old; ex_lot_new]
                  = Some discrepancies) by reflexivity.
  assert (Hin : In (("ART1", "INV01", "A", "UN", "ZONE1", "EMP1"), discrepancies)
                   (groupby discrepancies)) by (left; reflexivity).
  exact (proj2 (group_shares_counted_quantity _ _ _ FIFO _ _ Hcalc Hin)).
Defined.

End TableProperties.

(** ** Ordering of the lots *)

Lemma date_compare_lt (a b : Date) :
  date_compare a b = Lt
  <-> (d_year a < d_year b
       \/ (d_year a = d_year b
           /\ (d_month a < d_month b
               \/ (d_month a = d_month b /\ d_day a < d_day b))))%Z.
Proof.
  unfold date_compare.
  destruct (Z.compare_spec (d_year a) (d_year b));
    destruct (Z.compare_spec (d_month a) (d_month b));
    destruct (Z.compare_spec (d_day a) (d_day b));
    (split; [intros; try discriminate; lia | intros; try reflexivity; lia]).
Qed.

Lemma date_compare_eq (a b : Date) : date_compare a b = Eq <-> a = b.
Proof.
  unfold date_compare. destruct a as [ya ma da], b as [yb mb db]. simpl.
  destruct (Z.compare_spec ya yb); destruct (Z.compare_spec ma mb);
    destruct (Z.compare_spec da db);
    (split; [intros; try discriminate; congruence
            | intros [= ? ? ?]; try reflexivity; lia]).
Qed.

Lemma date_compare_gt (a b : Date) : date_compare a b = Gt <-> date_compare b a = Lt.
Proof.
  unfold date_compare.
  rewrite (Z.compare_antisym (d_year a)), (Z.compare_antisym (d_month a)),
          (Z.compare_antisym (d_day a)).
  destruct (d_year a ?= d_year b)%Z; simpl; try (split; congruence).
  destruct (d_month a ?= d_month b)%Z; simpl; try (split; congruence).
  destruct (d_day a ?= d_day b)%Z; simpl; split; congruence.
Qed.

Lemma date_key_compare_lt_trans (a b c : option Date) :
  date_key_compare a b = Lt -> date_key_compare b c = Lt -> date_key_compare a c = Lt.
Proof.
  destruct a as [a|], b as [b|], c as [c|]; simpl; try congruence.
  rewrite !date_compare_lt. lia.
Qed.

Lemma date_key_compare_eq (a b : option Date) : date_key_compare a b = Eq <-> a = b.
Proof.
  destruct a as [a|], b as [b|]; simpl; try (split; congruence).
  rewrite date_compare_eq. split; congruence.
Qed.

Lemma date_key_compare_gt (a b : option Date) :
  date_key_compare a b = Gt <-> date_key_compare b a = Lt.
Proof.
  destruct a as [a|], b as [b|]; simpl; try (split; congruence).
  apply date_compare_gt.
Qed.

Lemma string_compare_gt (a b : string) : String.compare a b = Gt <-> String.compare b a = Lt.
Proof.
  rewrite (String.compare_antisym a b).
  destruct (String.compare b a); simpl; split; congruence.
Qed.

Lemma fifo_compare_lt (a b : Row) :
  fifo_compare a b = Lt
  <-> date_key_compare (Date_Lot a) (Date_Lot b) = Lt
      \/ (Date_Lot a = Date_Lot b /\ String.compare (NUMERO_LOT a) (NUMERO_LOT b) = Lt).
Proof.
  unfold fifo_compare.
  destruct (date_key_compare (Date_Lot a) (Date_Lot b)) eqn:E.
  - apply date_key_compare_eq in E. intuition congruence.
  - intuition congruence.
  - split; [discriminate|]. intros [H|[Hd _]]; [discriminate|].
    apply date_key_compare_eq in Hd. congruence.
Qed.

Lemma fifo_compare_eq (a b : Row) :
  fifo_compare a b = Eq <-> Date_Lot a = Date_Lot b /\ NUMERO_LOT a = NUMERO_LOT b.
Proof.
  unfold fifo_compare.
  destruct (date_key_compare (Date_Lot a) (Date_Lot b)) eqn:E.
  - apply date_key_compare_eq in E. split.
    + intros H. apply String.compare_eq_iff in H. auto.
    + intros [_ ->]. apply string_compare_refl.
  - split; [discriminate|]. intros [Hd _]. apply date_key_compare_eq in Hd. congruence.
  - split; [discriminate|]. intros [Hd _]. apply date_key_compare_eq in Hd. congruence.
Qed.

Lemma fifo_compare_gt (a b : Row) : fifo_compare a b = Gt <-> fifo_compare b a = Lt.
Proof.
  unfold fifo_compare.
  destruct (date_key_compare (Date_Lot a) (Date_Lot b)) eqn:E.
  - apply date_key_compare_eq in E.
    rewrite (proj2 (date_key_compare_eq (Date_Lot b) (Date_Lot a)) (eq_sym E)).
    apply string_compare_gt.
  - assert (E' : date_key_compare (Date_Lot b) (Date_Lot a) = Gt)
      by (apply date_key_compare_gt, E).
    rewrite E'. split; congruence.
  - apply date_key_compare_gt in E. rewrite E. split; congruence.
Qed.

Lemma fifo_compare_lt_trans (a b c : Row) :
  fifo_compare a b = Lt -> fifo_compare b c = Lt -> fifo_compare a c = Lt.
Proof.
  rewrite !fifo_compare_lt.
  intros [H1|[H1 H1']] [H2|[H2 H2']].
  - left. eapply date_key_compare_lt_trans; eassumption.
  - left. rewrite <- H2. exact H1.
  - left. rewrite H1. exact H2.
  - right. split; [congruence|]. eapply string_compare_lt_trans; eassumption.
Qed.

Lemma fifo_le_total (a b : Row) : fifo_le a b = false -> fifo_le b a = true.
Proof.
  unfold fifo_le. destruct (fifo_compare a b) eqn:E; try discriminate.
  apply fifo_compare_gt in E. rewrite E. reflexivity.
Qed.

Lemma fifo_le_trans (a b c : Row) :
  fifo_le a b = true -> fifo_le b c = true -> fifo_le a c = true.
Proof.
  unfold fifo_le.
  destruct (fifo_compare a b) eqn:E1; try discriminate;
    destruct (fifo_compare b c) eqn:E2; try discriminate; intros _ _.
  - apply fifo_compare_eq in E1 as [Hd1 Hl1]. apply fifo_compare_eq in E2 as [Hd2 Hl2].
    rewrite (proj2 (fifo_compare_eq a c)); [reflexivity | split; congruence].
  - apply fifo_compare_eq in E1 as [Hd1 Hl1].
    assert (H : fifo_compare a c = Lt).
    { apply fifo_compare_lt. apply fifo_compare_lt in E2. rewrite Hd1, Hl1. exact E2. }
    rewrite H. reflexivity.
  - apply fifo_compare_eq in E2 as [Hd2 Hl2].
    assert (H : fifo_compare a c = Lt).
    { apply fifo_compare_lt. apply fifo_compare_lt in E1. rewrite <- Hd2, <- Hl2. exact E1. }
    rewrite H. reflexivity.
  - rewrite (fifo_compare_lt_trans _ _ _ E1 E2). reflexivity.
Qed.

(** The insertion sort of the model sorts, for any total and transitive
    comparison. *)
Lemma insert_sorted_ordered (le : Row -> Row -> bool) (x : Row) (l : list Row) :
  (forall a b, le a b = false -> le b a = true) ->
  (forall a b c, le a b = true -> le b c = true -> le a c = true) ->
  ForallOrdPairs (fun a b => le a b = true) l ->
  ForallOrdPairs (fun a b => le a b = true) (insert_sorted le x l).
Proof.
  intros Htotal Htrans. induction 1 as [|y l Hy Hl IH]; simpl.
  - repeat constructor.
  - destruct (le x y) eqn:E.
    + constructor; [|constructor; assumption].
      constructor; [exact E|].
      eapply List.Forall_impl; [|exact Hy]. intros z Hz. exact (Htrans _ _ _ E Hz).
    + constructor; [|exact IH].
      apply List.Forall_forall. intros z Hz.
      apply (Permutation_in _ (Permutation_sym (insert_sorted_perm le x l))) in Hz.
      destruct Hz as [<-|Hz]; [apply Htotal, E|].
      rewrite List.Forall_forall in Hy. apply Hy, Hz.
Qed.

Lemma sort_values_ordered (le : Row -> Row -> bool) (l : list Row) :
  (forall a b, le a b = false -> le b a = true) ->
  (forall a b c, le a b = true -> le b c = true -> le a c = true) ->
  ForallOrdPairs (fun a b => le a b = true) (sort_values le l).
Proof.
  intros Htotal Htrans. induction l as [|x l IH]; simpl.
  - constructor.
  - apply insert_sorted_ordered; assumption.
Qed.

Lemma ordered_app_inv (R : Row -> Row -> Prop) (l1 l2 : list Row) :
  ForallOrdPairs R (l1 ++ l2) ->
  ForallOrdPairs R l1 /\ ForallOrdPairs R l2
  /\ forall a b, In a l1 -> In b l2 -> R a b.
Proof.
  induction l1 as [|x l1 IH]; simpl; intros H.
  - split; [constructor|]. split; [exact H|]. intros a b [].
  - inversion H as [|? ? Hx Hl]; subst.
    destruct (IH Hl) as (H1 & H2 & H12).
    apply Forall_app in Hx as [Hx1 Hx2].
    split; [constructor; assumption|]. split; [exact H2|].
    intros a b [<-|Ha] Hb.
    + rewrite List.Forall_forall in Hx2. apply Hx2, Hb.
    + apply H12; assumption.
Qed.

Lemma ordered_rev (R : Row -> Row -> Prop) (l : list Row) :
  ForallOrdPairs R l -> ForallOrdPairs (fun a b => R b a) (rev l).
Proof.
  induction 1 as [|x l Hx _ IH]; simpl.
  - constructor.
  - revert IH. generalize (rev_involutive l).
    assert (Hall : forall z, In z (rev l) -> R x z).
    { intros z Hz. apply in_rev in Hz. rewrite List.Forall_forall in Hx. apply Hx, Hz. }
    revert Hall. generalize (rev l). intros l' Hall _ IH.
    induction IH as [|y l' Hy Hl' IH']; simpl.
    + repeat constructor.
    + constructor.
      * apply Forall_app. split; [exact Hy|].
        constructor; [|constructor]. apply Hall. left. reflexivity.
      * apply IH'. intros z Hz. apply Hall. right. exact Hz.
Qed.

(** Two arrangements of the same rows in strictly ascending order are the
    same list. *)
Lemma strictly_ordered_unique (l1 : list Row) : forall l2 : list Row,
  ForallOrdPairs (fun a b => fifo_compare a b = Lt) l1 ->
  ForallOrdPairs (fun a b => fifo_compare a b = Lt) l2 ->
  Permutation l1 l2 -> l1 = l2.
Proof.
  assert (Hirr : forall a, fifo_compare a a <> Lt).
  { intros a H. rewrite (proj2 (fifo_compare_eq a a)) in H by auto. discriminate. }
  induction l1 as [|a l1 IH]; intros l2 H1 H2 Hperm.
  - apply Permutation_nil in Hperm. congruence.
  - destruct l2 as [|b l2].
    + apply Permutation_sym, Permutation_nil in Hperm. discriminate.
    + inversion H1 as [|? ? Ha Hl1]; subst. inversion H2 as [|? ? Hb Hl2]; subst.
      assert (Hab : a = b).
      { assert (Hina : In a (b :: l2))
          by (eapply Permutation_in; [exact Hperm | left; reflexivity]).
        assert (Hinb : In b (a :: l1))
          by (eapply Permutation_in; [apply Permutation_sym, Hperm | left; reflexivity]).
        destruct Hina as [->|Hina]; [reflexivity|].
        destruct Hinb as [->|Hinb]; [reflexivity|].
        rewrite List.Forall_forall in Ha, Hb.
        exfalso. apply (Hirr a).
        eapply fifo_compare_lt_trans; [apply Ha, Hinb | apply Hb, Hina]. }
      subst b. f_equal. apply IH; try assumption.
      eapply Permutation_cons_inv, Hperm.
Qed.

Lemma ordered_strict (l : list Row) :
  List.NoDup (map (fun r => (Date_Lot r, NUMERO_LOT r)) l) ->
  ForallOrdPairs (fun a b => fifo_le a b = true) l ->
  ForallOrdPairs (fun a b => fifo_compare a b = Lt) l.
Proof.
  intros Hnd H. induction H as [|x l Hx _ IH]; [constructor|].
  cbn [map] in Hnd. inversion Hnd as [|? ? Hnotin Hnd']; subst.
  constructor; [|apply IH, Hnd'].
  apply List.Forall_forall. intros y Hy.
  rewrite List.Forall_forall in Hx. specialize (Hx y Hy).
  unfold fifo_le in Hx. destruct (fifo_compare x y) eqn:E; try discriminate; [|reflexivity].
  exfalso. apply Hnotin. apply fifo_compare_eq in E as [Hd Hn].
  apply in_map_iff. exists y. split; [|exact Hy]. congruence.
Qed.

(** X8. The rows of a group are processed in the order of the strategy:
    [sort_for] rearranges the rows of the group, under FIFO no row comes
    before a row with a smaller key (date, then lot number, rows without
    date last), under LIFO no row comes before a row with a larger key,
    and any other strategy leaves the rows as they are. *)
Theorem lots_are_ordered_by_strategy :
  forall (strategy : Strategy) (group : list Row),
    Permutation group (sort_for strategy group)
    /\ match strategy with
       | FIFO => ForallOrdPairs (fun a b => fifo_compare a b <> Gt) (sort_for strategy group)
       | LIFO => ForallOrdPairs (fun a b => fifo_compare a b <> Lt) (sort_for strategy group)
       | OtherStrategy => sort_for strategy group = group
       end.
Proof.
  intros strategy group. split; [apply sort_for_perm|].
  destruct strategy; cbn [sort_for]; [| |reflexivity].
  - pose proof (sort_values_ordered fifo_le group fifo_le_total fifo_le_trans) as H.
    induction H as [|x l Hx _ IH]; constructor; [|exact IH].
    eapply List.Forall_impl; [|exact Hx].
    intros y Hy. unfold fifo_le in Hy. destruct (fifo_compare x y); congruence.
  - assert (H : ForallOrdPairs (fun a b => lifo_le a b = true) (sort_values lifo_le group)).
    { apply sort_values_ordered; unfold lifo_le.
      - intros a b. apply fifo_le_total.
      - intros a b c H1 H2. eapply fifo_le_trans; eassumption. }
    induction H as [|x l Hx _ IH]; constructor; [|exact IH].
    eapply List.Forall_impl; [|exact Hx].
    intros y Hy. unfold lifo_le, fifo_le in Hy. intros Hlt.
    assert (Hgt : fifo_compare y x = Gt) by (apply fifo_compare_gt, Hlt).
    rewrite Hgt in Hy. discriminate.
Qed.

(** X9. When no two rows of a group have the same date and lot number,
    LIFO processes the rows in exactly the reverse of the FIFO order. *)
Theorem lifo_reverses_fifo :
  forall group : list Row,
    List.NoDup (map (fun r => (Date_Lot r, NUMERO_LOT r)) group) ->
    sort_for LIFO group = rev (sort_for FIFO group).
Proof.
  intros group Hnd. cbn [sort_for].
  rewrite <- (rev_involutive (sort_values lifo_le group)). f_equal.
  apply strictly_ordered_unique.
  - apply ordered_strict.
    + eapply Permutation_NoDup; [|exact Hnd].
      apply Permutation_map.
      eapply perm_trans; [apply sort_values_perm | apply Permutation_rev].
    + assert (H : ForallOrdPairs (fun a b => lifo_le a b = true) (sort_values lifo_le group)).
      { apply sort_values_ordered; unfold lifo_le.
        - intros a b. apply fifo_le_total.
        - intros a b c H1 H2. eapply fifo_le_trans; eassumption. }
      apply ordered_rev in H. exact H.
  - apply ordered_strict.
    + eapply Permutation_NoDup; [|exact Hnd]. apply Permutation_map, sort_values_perm.
    + apply sort_values_ordered; [apply fifo_le_total | apply fifo_le_trans].
  - eapply perm_trans; [apply Permutation_sym, Permutation_rev|].
    eapply perm_trans; [apply Permutation_sym, sort_values_perm | apply sort_values_perm].
Qed.

Lemma lifo_reverses_fifo_witness :
  sort_for LIFO (ex_rows 8) = rev (sort_for FIFO (ex_rows 8)).
Proof.
  apply lifo_reverses_fifo.
  repeat constructor; simpl; intuition discriminate.
Defined.

(** ** Record regenerator: what a replayed line keeps *)

Lemma join_split (sep : ascii) (s : string) : join (String sep "") (split sep s) = s.
Proof.
  induction s as [|c s IH]; [reflexivity|].
  cbn [split]. destruct (Ascii.eqb c sep) eqn:E.
  - apply Ascii.eqb_eq in E. subst c.
    destruct (split sep s) as [|field fields] eqn:Es.
    + destruct s; simpl in Es; [discriminate|].
      destruct (Ascii.eqb _ _); [discriminate|]. destruct (split sep s); discriminate.
    + change (join (String sep "") ("" :: field :: fields))
        with ("" ++ String sep "" ++ join (String sep "") (field :: fields)).
      rewrite IH. reflexivity.
  - destruct (split sep s) as [|field fields] eqn:Es.
    + destruct s; simpl in Es; [discriminate|].
      destruct (Ascii.eqb _ _); [discriminate|]. destruct (split sep s); discriminate.
    + destruct fields as [|field' fields].
      * cbn [join] in *. rewrite IH. reflexivity.
      * change (join (String sep "") (String c field :: field' :: fields))
          with (String c field ++ String sep "" ++ join (String sep "") (field' :: fields)).
        change (join (String sep "") (field :: field' :: fields))
          with (field ++ String sep "" ++ join (String sep "") (field' :: fields)) in IH.
        rewrite string_app_cons, IH. reflexivity.
Qed.

Lemma adjustments_dict_missing (distributed : list Row) (key : string * string * string) :
  adjustments_dict distributed !! key = None
  <-> Forall (fun r => adjustment_key r <> key) distributed.
Proof.
  induction distributed as [|r distributed IH] using rev_ind.
  - split; [constructor | intros _; apply lookup_empty].
  - rewrite adjustments_dict_snoc, Forall_app.
    destruct (decide (adjustment_key r = key)) as [<-|Hne].
    + rewrite lookup_insert_eq. split; [discriminate|].
      intros [_ H]. inversion H; subst. contradiction.
    + rewrite lookup_insert_ne by exact Hne. rewrite IH. split.
      * intros H. split; [exact H|]. constructor; [exact Hne | constructor].
      * intros [H _]. exact H.
Qed.

(** X10. An original line of at least 15 fields is written with the same
    number of fields, and only fields 6, 7, 9 and 14 can differ from the
    line read: field 9 is rewritten exactly when the template gives a
    location for the article and the inventory of the line, field 14 only
    when the adjustment of the line has type [lotecart].  A line of fewer
    than 15 fields is not written at all. *)
Theorem replay_changes_four_fields :
  forall (py_float : string -> option Q)
         (adjustments : gmap (string * string * string) AdjustmentData)
         (emplacements : gmap (string * string) string) (original_row : Orig.Row),
    let original_parts := split ";" (Orig.original_s_line_raw original_row) in
    let location :=
      emplacements !! (Orig.CODE_ARTICLE original_row, Orig.NUMERO_INVENTAIRE original_row) in
    ((length original_parts < 15)%nat ->
     replay_line py_float adjustments emplacements original_row = None)
    /\ ((15 <= length original_parts)%nat ->
        exists parts : list string,
          replay_line py_float adjustments emplacements original_row = Some parts
          /\ length parts = length original_parts
          /\ (forall i : nat,
                i <> 6%nat -> i <> 7%nat -> i <> 9%nat -> i <> 14%nat ->
                parts !! i = original_parts !! i)
          /\ parts !! 9%nat
             = match location with Some e => Some e | None => original_parts !! 9%nat end
          /\ (forall data,
                adjustments !! original_key original_row = Some data ->
                type_lot data <> lotecart ->
                parts !! 14%nat = original_parts !! 14%nat)).
Proof.
  intros py_float adjustments emplacements original_row original_parts location.
  split.
  - intros Hshort. unfold replay_line. fold original_parts.
    apply Nat.leb_gt in Hshort. rewrite Hshort. reflexivity.
  - intros Hlen. unfold replay_line. fold original_parts location.
    pose proof Hlen as Hleb. apply Nat.leb_le in Hleb. rewrite Hleb.
    assert (H5 : Some (nth 5 original_parts "") = original_parts !! 5%nat).
    { rewrite nth_lookup.
      destruct (lookup_lt_is_Some_2 original_parts 5%nat ltac:(lia)) as [x ->]. reflexivity. }
    eexists. split; [reflexivity|].
    split.
    { destruct (adjustments !! _) as [data|];
        [destruct (LotType_eqb (type_lot data) lotecart)|];
        destruct location; rewrite ?length_insert; reflexivity. }
    split.
    { intros i H6 H7 H9 H14.
      destruct (decide (i = 5%nat)) as [->|Hi5].
      - destruct (adjustments !! _) as [data|];
          [destruct (LotType_eqb (type_lot data) lotecart)|];
          destruct location; parts_lookup; exact H5.
      - destruct (adjustments !! _) as [data|];
          [destruct (LotType_eqb (type_lot data) lotecart)|];
          destruct location; parts_lookup; reflexivity. }
    split.
    { destruct (adjustments !! _) as [data|];
        [destruct (LotType_eqb (type_lot data) lotecart)|];
        destruct location; parts_lookup; reflexivity. }
    intros data Hdata Htype. rewrite Hdata.
    assert (Hnot : LotType_eqb (type_lot data) lotecart = false)
      by (destruct (type_lot data); try reflexivity; contradiction).
    rewrite Hnot. destruct location; parts_lookup; reflexivity.
Qed.

Lemma replay_changes_four_fields_witness :
  exists parts : list string,
    replay_line decimal_literal ∅ ∅ ex_lot_old = Some parts
    /\ length parts = 15%nat
    /\ parts !! 8%nat = Some "ART1"
    /\ parts !! 9%nat = Some "EMP1".
Proof.
  destruct (proj2 (replay_changes_four_fields decimal_literal ∅ ∅ ex_lot_old))
    as (parts & Hreplay & Hlen & Hkeep & Hloc & _).
  { vm_compute. lia. }
  exists parts. split; [exact Hreplay|]. split; [exact Hlen|]. split.
  - rewrite Hkeep by lia. reflexivity.
  - exact Hloc.
Defined.

(** X11. An original line that no row of the distributed table addresses
    (no row with its article, inventory and trimmed lot number) is written
    with its quantity text in fields 5 and 6 and with indicator 1.  When,
    in addition, the template gives no location for it and the line read
    already had field 6 equal to field 5 and indicator 1, the line written
    is the line read. *)
Theorem unaddressed_line_written_back :
  forall (py_float : string -> option Q) (distributed : list Row)
         (emplacements : gmap (string * string) string) (original_row : Orig.Row),
    let original_parts := split ";" (Orig.original_s_line_raw original_row) in
    Forall (fun r => adjustment_key r <> original_key original_row) distributed ->
    (15 <= length original_parts)%nat ->
    exists parts : list string,
      replay_line py_float (adjustments_dict distributed) emplacements original_row
      = Some parts
      /\ parts !! 5%nat = original_parts !! 5%nat
      /\ parts !! 6%nat = original_parts !! 5%nat
      /\ parts !! 7%nat = Some "1"
      /\ (emplacements !! (Orig.CODE_ARTICLE original_row,
                           Orig.NUMERO_INVENTAIRE original_row) = None ->
          original_parts !! 6%nat = original_parts !! 5%nat ->
          original_parts !! 7%nat = Some "1" ->
          join ";" parts = Orig.original_s_line_raw original_row).
Proof.
  intros py_float distributed emplacements original_row original_parts Hmissing Hlen.
  apply adjustments_dict_missing in Hmissing.
  unfold replay_line. fold original_parts. rewrite Hmissing.
  pose proof Hlen as Hleb. apply Nat.leb_le in Hleb. rewrite Hleb.
  assert (H5 : original_parts !! 5%nat = Some (nth 5 original_parts "")).
  { rewrite nth_lookup.
    destruct (lookup_lt_is_Some_2 original_parts 5%nat ltac:(lia)) as [x ->]. reflexivity. }
  eexists. split; [reflexivity|].
  split; [destruct (emplacements !! _); parts_lookup; symmetry; exact H5|].
  split; [destruct (emplacements !! _); parts_lookup; symmetry; exact H5|].
  split; [destruct (emplacements !! _); parts_lookup; reflexivity|].
  intros -> H6 H7.
  rewrite (list_insert_id original_parts 5%nat _ H5).
  rewrite (list_insert_id original_parts 6%nat (nth 5 original_parts ""))
    by (rewrite H6; exact H5).
  rewrite (list_insert_id original_parts 7%nat "1" H7).
  apply join_split.
Qed.

Lemma unaddressed_line_written_back_witness :
  exists parts : list string,
    replay_line decimal_literal (adjustments_dict []) ∅
      (ex_line "1000" "ART1" 0 "0" "EMP1" "LOT010125" None type2) = Some parts
    /\ join ";" parts = "S;SES01;INV01;1000;SITE1;0;0;1;ART1;EMP1;A;UN;0;ZONE1;LOT010125".
Proof.
  destruct (unaddressed_line_written_back decimal_literal [] ∅
              (ex_line "1000" "ART1" 0 "0" "EMP1" "LOT010125" None type2))
    as (parts & Hreplay & _ & _ & _ & Hsame).
  { constructor. }
  { vm_compute. lia. }
  exists parts. split; [exact Hreplay|].
  apply Hsame; reflexivity.
Defined.

(** ** Record regenerator: locations and coverage *)

Lemma emplacement_updates_snoc (completed : list Tpl.Row) (row : Tpl.Row) :
  emplacement_updates (Some (completed ++ [row])%list)
  = match Tpl.Emplacements row with
    | Some new_emplacement =>
        if negb (String.eqb (Tpl.Code_Article row) "")
           && negb (String.eqb (Tpl.Numero_Inventaire row) "")
           && negb (String.eqb (py_strip new_emplacement) "")
        then <[(Tpl.Code_Article row, Tpl.Numero_Inventaire row) := py_strip new_emplacement]>
               (emplacement_updates (Some completed))
        else emplacement_updates (Some completed)
    | None => emplacement_updates (Some completed)
    end.
Proof. unfold emplacement_updates. cbn [from_option id]. rewrite fold_left_app. reflexivity. Qed.

Lemma emplacement_updates_last (after : list Tpl.Row) :
  forall (before : list Tpl.Row) (t : Tpl.Row) (new_emplacement : string),
    Tpl.Emplacements t = Some new_emplacement ->
    Tpl.Code_Article t <> "" -> Tpl.Numero_Inventaire t <> "" ->
    py_strip new_emplacement <> "" ->
    Forall (fun t' =>
              (Tpl.Code_Article t', Tpl.Numero_Inventaire t')
              = (Tpl.Code_Article t, Tpl.Numero_Inventaire t) ->
              forall s, Tpl.Emplacements t' = Some s -> py_strip s = "")
           after ->
    emplacement_updates (Some (before ++ t :: after)%list)
      !! (Tpl.Code_Article t, Tpl.Numero_Inventaire t)
    = Some (py_strip new_emplacement).
Proof.
  induction after as [|t' after IH] using rev_ind;
    intros before t new_emplacement He Ha Hi Hs Hafter.
  - rewrite emplacement_updates_snoc, He.
    apply String.eqb_neq in Ha, Hi, Hs. rewrite Ha, Hi, Hs. cbn [negb andb].
    apply lookup_insert_eq.
  - apply Forall_app in Hafter as [Hafter Ht']. inversion Ht' as [|? ? Hblank _]; subst.
    change (before ++ t :: after ++ [t'])%list with (before ++ (t :: after) ++ [t'])%list.
    rewrite app_assoc, emplacement_updates_snoc.
    specialize (IH before t new_emplacement He Ha Hi Hs Hafter).
    destruct (Tpl.Emplacements t') as [s|] eqn:Es; [|exact IH].
    destruct (negb _ && negb _ && negb (String.eqb (py_strip s) "")) eqn:Ev; [|exact IH].
    destruct (decide ((Tpl.Code_Article t', Tpl.Numero_Inventaire t')
                      = (Tpl.Code_Article t, Tpl.Numero_Inventaire t))) as [Hk|Hk].
    + rewrite (Hblank Hk s eq_refl) in Ev. rewrite !andb_false_r in Ev. discriminate.
    + rewrite lookup_insert_ne by exact Hk. exact IH.
Qed.

Lemma emplacement_updates_none (completed : list Tpl.Row) (key : string * string) :
  Forall (fun t' =>
            (Tpl.Code_Article t', Tpl.Numero_Inventaire t') = key ->
            forall s, Tpl.Emplacements t' = Some s -> py_strip s = "")
         completed ->
  emplacement_updates (Some completed) !! key = None.
Proof.
  induction completed as [|t' completed IH] using rev_ind; intros H.
  - apply lookup_empty.
  - apply Forall_app in H as [H Ht']. inversion Ht' as [|? ? Hblank _]; subst.
    rewrite emplacement_updates_snoc. specialize (IH H).
    destruct (Tpl.Emplacements t') as [s|] eqn:Es; [|exact IH].
    destruct (negb _ && negb _ && negb (String.eqb (py_strip s) "")) eqn:Ev; [|exact IH].
    destruct (decide ((Tpl.Code_Article t', Tpl.Numero_Inventaire t') = key)) as [Hk|Hk].
    + rewrite (Hblank Hk s eq_refl) in Ev. rewrite !andb_false_r in Ev. discriminate.
    + rewrite lookup_insert_ne by exact Hk. exact IH.
Qed.

(** X12. The location written in field 9 of a line depends only on the
    article and the inventory of the line: it is the trimmed location of
    the last template row of that article and inventory whose location
    cell holds a non-blank text (the article code and the inventory number
    of the row not being empty), whatever the location of the line itself,
    and the location read on the line when the template has no such row. *)
Theorem template_location_overrides :
  forall (py_float : string -> option Q)
         (adjustments : gmap (string * string * string) AdjustmentData)
         (completed : list Tpl.Row) (original_row : Orig.Row),
    let key := (Orig.CODE_ARTICLE original_row, Orig.NUMERO_INVENTAIRE original_row) in
    let original_parts := split ";" (Orig.original_s_line_raw original_row) in
    (15 <= length original_parts)%nat ->
    exists parts : list string,
      replay_line py_float adjustments (emplacement_updates (Some completed)) original_row
      = Some parts
      /\ (forall before t after new_emplacement,
            completed = (before ++ t :: after)%list ->
            (Tpl.Code_Article t, Tpl.Numero_Inventaire t) = key ->
            Tpl.Emplacements t = Some new_emplacement ->
            Tpl.Code_Article t <> "" -> Tpl.Numero_Inventaire t <> "" ->
            py_strip new_emplacement <> "" ->
            Forall (fun t' =>
                      (Tpl.Code_Article t', Tpl.Numero_Inventaire t') = key ->
                      forall s, Tpl.Emplacements t' = Some s -> py_strip s = "")
                   after ->
            parts !! 9%nat = Some (py_strip new_emplacement))
      /\ (Forall (fun t' =>
                    (Tpl.Code_Article t', Tpl.Numero_Inventaire t') = key ->
                    forall s, Tpl.Emplacements t' = Some s -> py_strip s = "")
                 completed ->
          parts !! 9%nat = original_parts !! 9%nat).
Proof.
  intros py_float adjustments completed original_row key original_parts Hlen.
  unfold replay_line. fold original_parts key.
  pose proof Hlen as Hleb. apply Nat.leb_le in Hleb. rewrite Hleb.
  eexists. split; [reflexivity|]. split.
  - intros before t after new_emplacement -> Hkey He Ha Hi Hs Hafter.
    rewrite <- Hkey in Hafter |- *.
    rewrite (emplacement_updates_last _ _ _ _ He Ha Hi Hs Hafter).
    apply list_lookup_insert_eq.
    destruct (adjustments !! _) as [data|];
      [destruct (LotType_eqb (type_lot data) lotecart)|];
      rewrite ?length_insert; lia.
  - intros Hnone. rewrite (emplacement_updates_none _ _ Hnone).
    destruct (adjustments !! _) as [data|];
      [destruct (LotType_eqb (type_lot data) lotecart)|];
      parts_lookup; reflexivity.
Qed.

Lemma template_location_overrides_witness :
  exists parts : list string,
    replay_line decimal_literal ∅
      (emplacement_updates
         (Some [ {| Tpl.Code_Article := "ART1"; Tpl.Numero_Inventaire := "INV01";
                    Tpl.Quantite_Theorique := CNum 10; Tpl.Quantite_Reelle := CNum 10;
                    Tpl.Emplacements := Some "EMP1" |};
                 {| Tpl.Code_Article := "ART1"; Tpl.Numero_Inventaire := "INV01";
                    Tpl.Quantite_Theorique := CNum 6; Tpl.Quantite_Reelle := CNum 6;
                    Tpl.Emplacements := Some " EMP2 " |} ]))
      ex_same_lot_emp1 = Some parts
    /\ Orig.EMPLACEMENT ex_same_lot_emp1 = "EMP1"
    /\ parts !! 9%nat = Some "EMP2".
Proof.
  destruct (template_location_overrides decimal_literal ∅
              [ {| Tpl.Code_Article := "ART1"; Tpl.Numero_Inventaire := "INV01";
                   Tpl.Quantite_Theorique := CNum 10; Tpl.Quantite_Reelle := CNum 10;
                   Tpl.Emplacements := Some "EMP1" |};
                {| Tpl.Code_Article := "ART1"; Tpl.Numero_Inventaire := "INV01";
                   Tpl.Quantite_Theorique := CNum 6; Tpl.Quantite_Reelle := CNum 6;
                   Tpl.Emplacements := Some " EMP2 " |} ]
              ex_same_lot_emp1) as (parts & Hreplay & Hlast & _).
  { vm_compute. lia. }
  exists parts. split; [exact Hreplay|]. split; [reflexivity|].
  apply (Hlast [ {| Tpl.Code_Article := "ART1"; Tpl.Numero_Inventaire := "INV01";
                    Tpl.Quantite_Theorique := CNum 10; Tpl.Quantite_Reelle := CNum 10;
                    Tpl.Emplacements := Some "EMP1" |} ]
               {| Tpl.Code_Article := "ART1"; Tpl.Numero_Inventaire := "INV01";
                  Tpl.Quantite_Theorique := CNum 6; Tpl.Quantite_Reelle := CNum 6;
                  Tpl.Emplacements := Some " EMP2 " |} [] " EMP2 ");
    try reflexivity; try discriminate.
  constructor.
Defined.

Lemma lstrip_with_head f (s : string) :
  match lstrip_with f s with
  | EmptyString => True
  | String c _ => f c = false
  end.
Proof.
  induction s as [|c s IH]; simpl; [exact I|].
  destruct (f c) eqn:E; [exact IH | exact E].
Qed.

Lemma lstrip_with_fixed f (s : string) :
  match s with EmptyString => True | String c _ => f c = false end ->
  lstrip_with f s = s.
Proof. destruct s as [|c s]; simpl; [reflexivity|]. intros ->. reflexivity. Qed.

Lemma rstrip_with_head f (s : string) :
  match s with EmptyString => True | String c _ => f c = false end ->
  match rstrip_with f s with EmptyString => True | String c _ => f c = false end.
Proof.
  destruct s as [|c s]; simpl; [auto|].
  intros Hc. destruct (rstrip_with f s); [rewrite Hc|]; exact Hc.
Qed.

Lemma py_strip_idem (s : string) : py_strip (py_strip s) = py_strip s.
Proof.
  unfold py_strip.
  rewrite (lstrip_with_fixed is_py_space (rstrip_with _ _)).
  - apply rstrip_with_fixed. intros c. apply rstrip_with_last.
  - apply rstrip_with_head, lstrip_with_head.
Qed.

Lemma adjustments_dict_present (distributed : list Row) (row : Row) :
  In row distributed ->
  exists data, adjustments_dict distributed !! adjustment_key row = Some data.
Proof.
  intros Hin. destruct (adjustments_dict distributed !! adjustment_key row) as [data|] eqn:E.
  - exists data. reflexivity.
  - apply adjustments_dict_missing in E. rewrite List.Forall_forall in E.
    exfalso. exact (E row Hin eq_refl).
Qed.

(** X13. In a session that went through [process_completed_file] and
    [distribute_discrepancies], every line of the extract has an entry in
    [adjustments_dict]: a line of at least 15 fields is always written
    with a formatted corrected quantity in field 6 and an indicator
    computed from it in field 7, never with its own quantity text copied
    by the branch for lines without adjustment. *)
Theorem every_line_has_an_adjustment :
  forall (to_numeric : string -> option Q) (session session1 session2 : Session)
         (completed : list Tpl.Row) (strategy : Strategy)
         (distributed : list Row) (log : list LogEvent) (original : list Orig.Row),
    original_df session = Some original ->
    process_completed_file to_numeric session completed = Some (Ok session1) ->
    distribute_discrepancies session1 strategy = Ok (session2, distributed, log) ->
    distributed_df session2 = Some distributed
    /\ original_df session2 = Some original
    /\ forall original_row : Orig.Row,
         In original_row original ->
         exists data : AdjustmentData,
           adjustments_dict distributed !! original_key original_row = Some data
           /\ forall (py_float : string -> option Q)
                     (emplacements : gmap (string * string) string),
                (15 <= length (split ";" (Orig.original_s_line_raw original_row)))%nat ->
                exists parts : list string,
                  replay_line py_float (adjustments_dict distributed) emplacements original_row
                  = Some parts
                  /\ parts !! 6%nat
                     = Some (_to_csv_number py_float (VNum (qte_theo_ajustee data)) ",")
                  /\ parts !! 7%nat = Some (count_indicator (qte_theo_ajustee data)).
Proof.
  intros to_numeric session session1 session2 completed strategy distributed log original
         Horig Hprocess Hdistribute.
  unfold process_completed_file in Hprocess. rewrite Horig in Hprocess.
  destruct (_calculate_discrepancies completed original) as [discrepancies|] eqn:Hcalc;
    [|discriminate].
  injection Hprocess as <-.
  unfold distribute_discrepancies in Hdistribute. cbn [discrepancies_df] in Hdistribute.
  destruct (distribute_groups_lines strategy (groupby discrepancies))
    as (lines & Hperm & Hrows).
  destruct (distribute_groups strategy (groupby discrepancies)) as [rows log1].
  destruct (session_lotecart_adjustments _) as [adjustments log2].
  injection Hdistribute as <- <- <-. cbn [fst] in Hrows.
  split; [reflexivity|]. split; [reflexivity|].
  intros original_row Hin.
  apply calculate_discrepancies_rows_spec in Hcalc.
  apply list_elem_of_In, list_elem_of_lookup in Hin as [i Hi].
  destruct (Forall2_lookup_l _ _ _ _ _ Hcalc Hi) as (r & Hr & q & _ & ->).
  assert (Hline : In (discrepancy_row original_row q) lines).
  { eapply Permutation_in.
    - apply Permutation_sym. eapply perm_trans; [exact Hperm | apply groupby_partition].
    - apply list_elem_of_In, list_elem_of_lookup. exists i. exact Hr. }
  apply list_elem_of_In, list_elem_of_lookup in Hline as [j Hj].
  destruct (Forall2_lookup_l _ _ _ _ _ Hrows Hj) as (row & Hrow & a & c & s & -> & _).
  destruct (adjustments_dict_present
              (rows ++ map with_saisie adjustments)%list
              (set_distribution (discrepancy_row original_row q) a c s)) as [data Hdata].
  { apply in_or_app. left. apply list_elem_of_In, list_elem_of_lookup. exists j. exact Hrow. }
  assert (Hkey : adjustment_key (set_distribution (discrepancy_row original_row q) a c s)
                 = original_key original_row).
  { unfold adjustment_key, original_key. simpl. rewrite py_strip_idem. reflexivity. }
  rewrite Hkey in Hdata.
  exists data. split; [exact Hdata|].
  intros py_float emplacements Hlen.
  destruct (replay_line_written py_float
              (adjustments_dict (rows ++ map with_saisie adjustments)%list)
              emplacements original_row Hlen) as [parts Hreplay].
  destruct (replay_line_adjusted _ _ _ _ _ _ Hdata Hreplay) as (_ & _ & _ & H6 & H7 & _).
  exists parts. auto.
Qed.

Lemma every_line_has_an_adjustment_witness :
  let original := [ex_lot_old; ex_lot_new] in
  let completed := [ex_counted "ART1" 15 8] in
  exists session1 session2 distributed log data,
    process_completed_file decimal_literal (ex_session original) completed = Some (Ok session1)
    /\ distribute_discrepancies session1 FIFO = Ok (session2, distributed, log)
    /\ adjustments_dict distributed !! original_key ex_lot_old = Some data.
Proof.
  intros original completed.
  destruct (process_completed_file decimal_literal (ex_session original) completed)
    as [[session1|msg]|] eqn:E1; [|vm_compute in E1; discriminate..].
  destruct (distribute_discrepancies session1 FIFO)
    as [[[session2 distributed] log]|msg] eqn:E2.
  - destruct (every_line_has_an_adjustment decimal_literal (ex_session original) session1
                session2 completed FIFO distributed log original eq_refl E1 E2)
      as (_ & _ & H).
    destruct (H ex_lot_old (or_introl eq_refl)) as (data & Hdata & _).
    exists session1, session2, distributed, log, data. auto.
  - exfalso. vm_compute in E1. injection E1 as <-. vm_compute in E2. discriminate.
Defined.

(** ** Found stock: accounting *)

Section FoundStockAccounting.
Local Open Scope Q_scope.

Lemma create_lotecart_adjustment_cases (original : list Orig.Row) (candidate : Candidate) :
  let code_article := Tpl.Code_Article (cand_row candidate) in
  let numero_inventaire := Tpl.Numero_Inventaire (cand_row candidate) in
  (exists existing_line others,
     List.filter (is_zero_qty_line code_article numero_inventaire) original
     = existing_line :: others
     /\ create_lotecart_adjustment original candidate
        = (Some (lotecart_adjustment code_article numero_inventaire
                   (Orig.NUMERO_LOT existing_line) (cand_Quantite_Reelle candidate)
                   (Orig.Date_Lot existing_line)
                   (Some (Orig.original_s_line_raw existing_line)) None false), []))
  \/ (exists ref_lot others,
        List.filter (is_zero_qty_line code_article numero_inventaire) original = []
        /\ List.filter (is_reference_lot code_article numero_inventaire) original
           = ref_lot :: others
        /\ create_lotecart_adjustment original candidate
           = (Some (lotecart_adjustment code_article numero_inventaire "LOTECART"
                      (cand_Quantite_Reelle candidate) None None
                      (Some (Orig.original_s_line_raw ref_lot)) true), []))
  \/ (List.filter (is_zero_qty_line code_article numero_inventaire) original = []
      /\ List.filter (is_reference_lot code_article numero_inventaire) original = []
      /\ create_lotecart_adjustment original candidate
         = (None, [WarnNoReference code_article])).
Proof.
  intros code_article numero_inventaire. unfold create_lotecart_adjustment.
  fold code_article numero_inventaire.
  destruct (List.filter (is_zero_qty_line _ _) original) as [|existing_line others].
  - destruct (List.filter (is_reference_lot _ _) original) as [|ref_lot others'].
    + right. right. auto.
    + right. left. exists ref_lot, others'. auto.
  - left. exists existing_line, others. auto.
Qed.

Lemma count_adjustment_kinds_acc (adjustments : list Row) : forall e n,
  fold_left
    (fun '(existing_updates, new_lines) adjustment =>
       if flag_truthy (is_existing_update adjustment) then (S existing_updates, new_lines)
       else if flag_truthy (is_new_lotecart adjustment) then (existing_updates, S new_lines)
       else (existing_updates, new_lines))
    adjustments (e, n)
  = ((e + fst (count_adjustment_kinds adjustments))%nat,
     (n + snd (count_adjustment_kinds adjustments))%nat).
Proof.
  unfold count_adjustment_kinds.
  induction adjustments as [|a adjustments IH]; intros e n.
  - simpl. f_equal; lia.
  - cbn [fold_left].
    destruct (flag_truthy (is_existing_update a)); [|destruct (flag_truthy (is_new_lotecart a))];
      rewrite IH; symmetry; rewrite IH; cbn [fst snd]; f_equal; lia.
Qed.

Lemma count_adjustment_kinds_cons (a : Row) (adjustments : list Row) :
  count_adjustment_kinds (a :: adjustments)
  = let '(e, n) := count_adjustment_kinds adjustments in
    if flag_truthy (is_existing_update a) then (S e, n)
    else if flag_truthy (is_new_lotecart a) then (e, S n)
    else (e, n).
Proof.
  unfold count_adjustment_kinds at 1. cbn [fold_left].
  destruct (count_adjustment_kinds adjustments) as [e n] eqn:E.
  destruct (flag_truthy (is_existing_update a)); [|destruct (flag_truthy (is_new_lotecart a))];
    rewrite count_adjustment_kinds_acc, E; cbn [fst snd]; f_equal; lia.
Qed.

(** X14. [create_lotecart_adjustments] settles every candidate in one of
    three ways: the update of the first line of the article with quantity
    zero, a new line copied from the first line of the article, or, when
    the extract has no line of the article, no adjustment and one warning.
    The figures of [get_lotecart_summary] follow: adjustments and warnings
    together are as many as the candidates, every adjustment is counted
    either as an updated line or as a new line, the updated lines are as
    many as the candidates that have a line with quantity zero, and the
    total quantity is the sum of the counted quantities of the
    candidates. *)
Theorem found_stock_accounting :
  forall (candidates : list Candidate) (original : list Orig.Row),
    let adjustments := fst (create_lotecart_adjustments candidates original) in
    let log := snd (create_lotecart_adjustments candidates original) in
    let summary := get_lotecart_summary candidates adjustments in
    let has_zero_line candidate :=
      match List.filter (is_zero_qty_line (Tpl.Code_Article (cand_row candidate))
                           (Tpl.Numero_Inventaire (cand_row candidate))) original with
      | [] => false
      | _ => true
      end in
    let has_line candidate :=
      match List.filter (is_reference_lot (Tpl.Code_Article (cand_row candidate))
                           (Tpl.Numero_Inventaire (cand_row candidate))) original with
      | [] => false
      | _ => true
      end in
    candidates_detected summary = length candidates
    /\ (adjustments_created summary + length log)%nat = candidates_detected summary
    /\ (existing_lines_updated summary + new_lines_created summary)%nat
       = adjustments_created summary
    /\ existing_lines_updated summary = length (List.filter has_zero_line candidates)
    /\ log = map (fun candidate => WarnNoReference (Tpl.Code_Article (cand_row candidate)))
                 (List.filter (fun candidate =>
                                 negb (has_zero_line candidate) && negb (has_line candidate))
                              candidates)
    /\ total_quantity summary == Qsum (map cand_Quantite_Reelle candidates).
Proof.
  intros candidates original adjustments log summary has_zero_line has_line.
  assert (Hcount :
            (length adjustments + length log)%nat = length candidates
            /\ (fst (count_adjustment_kinds adjustments)
                + snd (count_adjustment_kinds adjustments))%nat = length adjustments
            /\ fst (count_adjustment_kinds adjustments)
               = length (List.filter has_zero_line candidates)
            /\ log = map (fun candidate =>
                            WarnNoReference (Tpl.Code_Article (cand_row candidate)))
                         (List.filter (fun candidate =>
                                         negb (has_zero_line candidate)
                                         && negb (has_line candidate))
                                      candidates)).
  { subst adjustments log. induction candidates as [|candidate candidates IH].
    - repeat split; reflexivity.
    - cbn [create_lotecart_adjustments List.filter].
      destruct IH as (IH1 & IH2 & IH3 & IH4).
      pose proof (create_lotecart_adjustment_cases original candidate) as Hcases.
      cbv zeta in Hcases.
      destruct (create_lotecart_adjustments candidates original) as [adjs logs].
      cbn [fst snd] in *.
      destruct Hcases as [(existing_line & others & Hz & ->)
                         |[(ref_lot & others & Hz & Hr & ->) | (Hz & Hr & ->)]].
      + assert (Ez : has_zero_line candidate = true)
          by (unfold has_zero_line; rewrite Hz; reflexivity).
        rewrite Ez. cbn [negb andb fst snd length app map].
        rewrite count_adjustment_kinds_cons.
        destruct (count_adjustment_kinds adjs) as [e n]. cbn [fst snd] in *.
        cbn [lotecart_adjustment is_existing_update is_new_lotecart flag_truthy negb
             fst snd length].
        repeat split; try lia; assumption.
      + assert (Ez : has_zero_line candidate = false)
          by (unfold has_zero_line; rewrite Hz; reflexivity).
        assert (Er : has_line candidate = true)
          by (unfold has_line; rewrite Hr; reflexivity).
        rewrite Ez, Er. cbn [negb andb fst snd length app map].
        rewrite count_adjustment_kinds_cons.
        destruct (count_adjustment_kinds adjs) as [e n]. cbn [fst snd] in *.
        cbn [lotecart_adjustment is_existing_update is_new_lotecart flag_truthy negb
             fst snd length].
        repeat split; try lia; assumption.
      + assert (Ez : has_zero_line candidate = false)
          by (unfold has_zero_line; rewrite Hz; reflexivity).
        assert (Er : has_line candidate = false)
          by (unfold has_line; rewrite Hr; reflexivity).
        rewrite Ez, Er. cbn [negb andb fst snd length app map].
        repeat split; try lia; try assumption. f_equal. assumption. }
  destruct Hcount as (H1 & H2 & H3 & H4).
  subst summary. unfold get_lotecart_summary.
  destruct (count_adjustment_kinds adjustments) as [e n] eqn:E. cbn [fst snd] in *.
  destruct candidates as [|c candidates];
    cbn [candidates_detected adjustments_created existing_lines_updated new_lines_created
         total_quantity];
    repeat split; try assumption; reflexivity.
Qed.

(** X15. Every found-stock adjustment built from the candidates that
    [detect_lotecart_candidates] returns has type [lotecart], original
    quantity 0 and, as adjustment and as corrected quantity, the counted
    quantity of a candidate, which is positive; it is flagged either as
    the update of an existing line or as a new line, never both. *)
Theorem found_stock_adjustments_positive :
  forall (to_numeric : string -> option Q) (completed : list Tpl.Row)
         (original : list Orig.Row),
    Forall (fun adjustment =>
              TYPE_LOT adjustment = lotecart
              /\ QUANTITE_ORIGINALE adjustment = 0
              /\ AJUSTEMENT adjustment = QUANTITE_CORRIGEE adjustment
              /\ 0 < QUANTITE_CORRIGEE adjustment
              /\ exists is_new : bool,
                   is_new_lotecart adjustment = Some is_new
                   /\ is_existing_update adjustment = Some (negb is_new))
           (fst (create_lotecart_adjustments
                   (detect_lotecart_candidates to_numeric completed) original)).
Proof.
  intros to_numeric completed original.
  assert (Hpos : Forall (fun c => 0 < cand_Quantite_Reelle c)
                        (detect_lotecart_candidates to_numeric completed)).
  { apply List.Forall_forall. intros c Hc. unfold detect_lotecart_candidates in Hc.
    apply filter_In in Hc as [_ Hmask]. apply lotecart_mask_true in Hmask. tauto. }
  induction Hpos as [|candidate candidates Hc _ IH]; [constructor|].
  cbn [create_lotecart_adjustments].
  pose proof (create_lotecart_adjustment_cases original candidate) as Hcases.
  cbv zeta in Hcases.
  destruct (create_lotecart_adjustments candidates original) as [adjs logs].
  cbn [fst] in *.
  destruct Hcases as [(existing_line & others & _ & ->)
                     |[(ref_lot & others & _ & _ & ->) | (_ & _ & ->)]];
    cbn [fst]; [constructor; [|exact IH] ..|exact IH];
    (repeat split; try reflexivity; try exact Hc; eexists; split; reflexivity).
Qed.

End FoundStockAccounting.

(** ** Found stock: the line appended for a new adjustment *)

Lemma split_length_le (sep : ascii) (s : string) :
  (length (split sep s) <= S (String.length s))%nat.
Proof.
  induction s as [|c s IH]; simpl; [lia|].
  destruct (Ascii.eqb c sep); simpl; [lia|].
  destruct (split sep s); simpl in *; lia.
Qed.

Lemma py_lower_length (s : string) : String.length (py_lower s) = String.length s.
Proof. induction s as [|c s IH]; simpl; congruence. Qed.

(** A reference line that splits into at least 15 fields passes the
    checks of [generate_lotecart_lines]. *)
Lemma reference_parts_usable (adjustment : Row) (reference : string) :
  reference_line adjustment = Some reference ->
  (15 <= length (split ";" (py_strip reference)))%nat ->
  reference_parts adjustment = Some (split ";" (py_strip reference)).
Proof.
  intros Href Hlen. unfold reference_parts. rewrite Href.
  pose proof (split_length_le ";" (py_strip reference)) as Hle.
  destruct (String.eqb reference "") eqn:E1.
  { apply String.eqb_eq in E1. subst reference. simpl in Hlen. lia. }
  destruct (String.eqb (py_strip reference) "") eqn:E2.
  { apply String.eqb_eq in E2. rewrite E2 in Hlen. simpl in Hlen. lia. }
  destruct (String.eqb (py_lower (py_strip reference)) "nan") eqn:E3.
  { apply String.eqb_eq in E3. apply (f_equal String.length) in E3.
    rewrite py_lower_length in E3. simpl in E3. lia. }
  destruct (String.eqb (py_lower (py_strip reference)) "none") eqn:E4.
  { apply String.eqb_eq in E4. apply (f_equal String.length) in E4.
    rewrite py_lower_length in E4. simpl in E4. lia. }
  cbn [orb]. apply Nat.leb_le in Hlen.
  destruct (length (split ";" (py_strip reference)) <? 15)%nat eqn:E5; [|reflexivity].
  apply Nat.ltb_lt in E5. apply Nat.leb_le in Hlen. lia.
Qed.

(** A line is generated for every new adjustment with a usable
    reference. *)
Lemma generate_lotecart_lines_In (py_float : string -> option Q) (adjustments : list Row) :
  forall (current_line_number : Z) (adjustment : Row) (parts : list string),
    In adjustment adjustments ->
    flag_truthy (is_new_lotecart adjustment) = true ->
    reference_parts adjustment = Some parts ->
    exists i : nat,
      generate_lotecart_lines_from py_float adjustments current_line_number !! i
      = Some (join ";" (lotecart_line_parts py_float adjustment parts
                          (current_line_number + 1000 * (Z.of_nat i + 1)))).
Proof.
  induction adjustments as [|a adjustments IH]; intros cur adjustment parts Hin Hnew Hparts;
    [inversion Hin|].
  cbn [generate_lotecart_lines_from].
  destruct Hin as [->|Hin].
  - rewrite Hnew, Hparts. cbn [negb]. exists 0%nat. cbv zeta. rewrite lookup_cons.
    do 3 f_equal; try lia.
  - destruct (negb (flag_truthy (is_new_lotecart a))); [eapply IH; eassumption|].
    destruct (reference_parts a) as [parts'|]; [|eapply IH; eassumption].
    destruct (IH (cur + 1000)%Z adjustment parts Hin Hnew Hparts) as [i Hi].
    exists (S i). cbv zeta. rewrite lookup_cons, Hi. do 3 f_equal; try lia.
Qed.

Lemma map_lookup_of {A B : Type} (f : A -> B) (l : list A) :
  forall (i : nat) (x : A), l !! i = Some x -> map f l !! i = Some (f x).
Proof.
  induction l as [|a l IH]; intros i x H; [discriminate|].
  destruct i as [|i]; simpl in *; [congruence | apply IH, H].
Qed.

Lemma lotecart_line_parts_others (py_float : string -> option Q) (adjustment : Row)
    (parts : list string) (rank : Z) (k : nat) :
  k <> 3%nat -> k <> 5%nat -> k <> 6%nat -> k <> 7%nat -> k <> 14%nat ->
  lotecart_line_parts py_float adjustment parts rank !! k = parts !! k.
Proof.
  intros H3 H5 H6 H7 H14. unfold lotecart_line_parts. parts_lookup. reflexivity.
Qed.

(** X16. Found stock for an article that has no line with quantity zero
    but has lines in the extract: the adjustment is a new line, with lot
    number [LOTECART], whose reference is the raw text of the first line
    of the article.  When that text, trimmed, has at least 15 fields, one
    line is appended to the final file for it; the line has as many
    fields as the reference, field 5 is [0], field 6 the counted quantity
    with a decimal comma, field 14 [LOTECART], and every field other than
    3, 5, 6, 7 and 14 is copied from the reference line. *)
Theorem found_stock_new_line :
  forall (py_float : string -> option Q) (py_int : string -> option Z)
         (candidates : list Candidate) (original : list Orig.Row)
         (candidate : Candidate) (ref_lot : Orig.Row) (other_lines : list Orig.Row)
         (distributed_rows : list Row),
    In candidate candidates ->
    List.filter (is_zero_qty_line (Tpl.Code_Article (cand_row candidate))
                                  (Tpl.Numero_Inventaire (cand_row candidate))) original = [] ->
    List.filter (is_reference_lot (Tpl.Code_Article (cand_row candidate))
                                  (Tpl.Numero_Inventaire (cand_row candidate))) original
    = ref_lot :: other_lines ->
    let reference_fields := split ";" (py_strip (Orig.original_s_line_raw ref_lot)) in
    (15 <= length reference_fields)%nat ->
    let distributed :=
      (distributed_rows
       ++ map with_saisie (fst (create_lotecart_adjustments candidates original)))%list in
    exists (adjustment : Row) (i : nat) (line : string),
      create_lotecart_adjustment original candidate = (Some adjustment, [])
      /\ In adjustment (fst (create_lotecart_adjustments candidates original))
      /\ NUMERO_LOT adjustment = "LOTECART"
      /\ is_new_lotecart adjustment = Some true
      /\ is_existing_update adjustment = Some false
      /\ reference_line adjustment = Some (Orig.original_s_line_raw ref_lot)
      /\ appended_lines py_float py_int distributed original !! i = Some line
      /\ length (split ";" line) = length reference_fields
      /\ (forall k : nat,
            k <> 3%nat -> k <> 5%nat -> k <> 6%nat -> k <> 7%nat -> k <> 14%nat ->
            split ";" line !! k = reference_fields !! k)
      /\ split ";" line !! 5%nat = Some "0"
      /\ split ";" line !! 6%nat
         = Some (replace_char "." ","
                   (_format_number py_float (VNum (cand_Quantite_Reelle candidate))))
      /\ split ";" line !! 14%nat = Some "LOTECART".
Proof.
  intros py_float py_int candidates original candidate ref_lot other_lines distributed_rows
         Hin Hzero Href reference_fields Hlen distributed.
  set (adjustment :=
         lotecart_adjustment (Tpl.Code_Article (cand_row candidate))
           (Tpl.Numero_Inventaire (cand_row candidate)) "LOTECART"
           (cand_Quantite_Reelle candidate) None None
           (Some (Orig.original_s_line_raw ref_lot)) true).
  assert (Hcreate : create_lotecart_adjustment original candidate = (Some adjustment, [])).
  { unfold create_lotecart_adjustment. rewrite Hzero, Href. reflexivity. }
  pose proof (create_lotecart_adjustments_In _ _ _ _ _ Hin Hcreate) as Hmember.
  assert (Hparts : reference_parts (with_saisie adjustment) = Some reference_fields).
  { apply reference_parts_usable; [reflexivity | exact Hlen]. }
  assert (Hnew : In (with_saisie adjustment) (new_lotecart_adjustments distributed)).
  { unfold new_lotecart_adjustments. apply filter_In. split; [|reflexivity].
    apply in_or_app. right. apply in_map, Hmember. }
  destruct (generate_lotecart_lines_In py_float (new_lotecart_adjustments distributed)
              (max_line_number_of py_int original) (with_saisie adjustment) reference_fields
              Hnew eq_refl Hparts) as [i Hi].
  set (rank := (max_line_number_of py_int original + 1000 * (Z.of_nat i + 1))%Z) in Hi.
  exists adjustment, i,
    (adapt_lotecart_line
       (join ";" (lotecart_line_parts py_float (with_saisie adjustment) reference_fields rank))).
  do 6 (split; [first [exact Hcreate | exact Hmember | reflexivity]|]).
  split.
  { unfold appended_lines, generate_lotecart_lines. apply map_lookup_of, Hi. }
  assert (Hns : Forall no_sep reference_fields) by apply split_fields_no_sep.
  destruct (lotecart_line_parts_ok py_float (with_saisie adjustment) reference_fields rank
              Hlen Hns) as (Hl & Hns' & _ & H5 & _ & H14).
  set (new_parts := lotecart_line_parts py_float (with_saisie adjustment) reference_fields rank)
    in *.
  assert (Hne : new_parts <> []) by (intros E; rewrite E in Hl; simpl in Hl; lia).
  assert (Hsplit : split ";" (join ";" new_parts) = new_parts) by (apply split_join; assumption).
  unfold adapt_lotecart_line. rewrite Hsplit.
  assert (Hleb : (15 <=? length new_parts)%nat = true) by (apply Nat.leb_le; lia).
  rewrite Hleb. rewrite (nth_lookup_Some _ _ "" _ H5).
  rewrite split_join.
  - split; [rewrite !length_insert; exact Hl|].
    split.
    { intros k H3' H5' H6' H7' H14'. parts_lookup.
      apply lotecart_line_parts_others; assumption. }
    repeat split; parts_lookup; first [reflexivity | exact H14].
  - intros E'. apply (f_equal length) in E'. rewrite !length_insert in E'. simpl in E'. lia.
  - apply Forall_insert; [apply Forall_insert; [exact Hns' | reflexivity]|].
    apply replace_char_no_sep; [discriminate | apply format_number_no_sep].
Qed.

Lemma found_stock_new_line_witness :
  let candidate := clean_row decimal_literal (ex_counted "ART3" 0 (5 # 2)) in
  let original := [ex_stock_line; ex_stock_line'] in
  exists (adjustment : Row) (i : nat) (line : string),
    create_lotecart_adjustment original candidate = (Some adjustment, [])
    /\ appended_lines decimal_literal ex_int
         (map with_saisie (fst (create_lotecart_adjustments [candidate] original))) original
       !! i = Some line
    /\ split ";" line !! 8%nat = Some "ART3"
    /\ split ";" line !! 9%nat = Some "EMP1"
    /\ split ";" line !! 6%nat = Some "2,5"
    /\ split ";" line !! 14%nat = Some "LOTECART".
Proof.
  intros candidate original.
  destruct (found_stock_new_line decimal_literal ex_int [candidate] original candidate
              ex_stock_line [] [])
    as (adjustment & i & line & Hcreate & _ & _ & _ & _ & _ & Hline & _ & Hcopy & _ & H6 & H14).
  - left. reflexivity.
  - reflexivity.
  - reflexivity.
  - vm_compute. lia.
  - exists adjustment, i, line.
    split; [exact Hcreate|]. split; [exact Hline|].
    split; [rewrite Hcopy by lia; reflexivity|].
    split; [rewrite Hcopy by lia; reflexivity|].
    split; [exact H6 | exact H14].
Defined.

(** ** Session statistics *)

Section SessionStatistics.
Local Open Scope Q_scope.

Lemma create_lotecart_adjustments_balance (original : list Orig.Row)
    (candidates : list Candidate) :
  Forall (fun a => QUANTITE_ORIGINALE a = 0 /\ AJUSTEMENT a = QUANTITE_CORRIGEE a)
         (fst (create_lotecart_adjustments candidates original)).
Proof.
  induction candidates as [|candidate candidates IH]; [constructor|].
  cbn [create_lotecart_adjustments].
  pose proof (create_lotecart_adjustment_cases original candidate) as Hcases.
  cbv zeta in Hcases.
  destruct (create_lotecart_adjustments candidates original) as [adjs logs].
  cbn [fst] in *.
  destruct Hcases as [(existing_line & others & _ & ->)
                     |[(ref_lot & others & _ & _ & ->) | (_ & _ & ->)]];
    cbn [fst]; [constructor; [split; reflexivity | exact IH] ..|exact IH].
Qed.

Lemma corrected_sum_of_rows (rows : list Row) :
  Forall (fun row => QUANTITE_CORRIGEE row == QUANTITE_ORIGINALE row + AJUSTEMENT row) rows ->
  Qsum (map QUANTITE_CORRIGEE rows)
  == Qsum (map QUANTITE_ORIGINALE rows) + Qsum (map AJUSTEMENT rows).
Proof.
  induction 1 as [|row rows Hrow _ IH]; [reflexivity|].
  cbn [map]. rewrite !Qsum_cons, IH, Hrow. lra.
Qed.

(** X17. Every row of the table that [distribute_discrepancies] returns,
    the found-stock adjustments included, has
    [QUANTITE_CORRIGEE = QUANTITE_ORIGINALE + AJUSTEMENT].  The statistic
    [total_discrepancy] stored for the session is therefore the corrected
    total of the table minus its original total, and the number of
    adjusted items is at most the number of rows. *)
Theorem session_stats_balance :
  forall (session session' : Session) (strategy : Strategy)
         (distributed : list Row) (log : list LogEvent),
    distribute_discrepancies session strategy = Ok (session', distributed, log) ->
    let stats := _calculate_session_stats distributed in
    Forall (fun row => QUANTITE_CORRIGEE row == QUANTITE_ORIGINALE row + AJUSTEMENT row)
           distributed
    /\ total_discrepancy stats
       == Qsum (map QUANTITE_CORRIGEE distributed) - Qsum (map QUANTITE_ORIGINALE distributed)
    /\ (adjusted_items_count stats <= length distributed)%nat.
Proof.
  intros session session' strategy distributed log Hd stats.
  assert (Hrows : Forall (fun row => QUANTITE_CORRIGEE row
                                     == QUANTITE_ORIGINALE row + AJUSTEMENT row) distributed).
  { unfold distribute_discrepancies in Hd.
    destruct (discrepancies_df session) as [discrepancies|]; [|discriminate].
    destruct (distribute_groups_lines strategy (groupby discrepancies))
      as (lines & _ & Hlines).
    destruct (distribute_groups strategy (groupby discrepancies)) as [rows log1].
    assert (Hadj : Forall (fun a => QUANTITE_ORIGINALE a = 0
                                    /\ AJUSTEMENT a = QUANTITE_CORRIGEE a)
                          (fst (session_lotecart_adjustments session))).
    { unfold session_lotecart_adjustments.
      destruct (lotecart_candidates session) as [[|c candidates]|]; try constructor.
      destruct (original_df session); [|constructor].
      apply create_lotecart_adjustments_balance. }
    destruct (session_lotecart_adjustments session) as [adjustments log2].
    injection Hd as _ <- _. cbn [fst] in *.
    apply Forall_app. split.
    - clear -Hlines. induction Hlines as [|lot row lines rows (a & c & s & -> & Hc) _ IH];
        constructor; [exact Hc | exact IH].
    - apply List.Forall_forall. intros row Hrow.
      apply in_map_iff in Hrow as (a & <- & Ha).
      rewrite List.Forall_forall in Hadj. destruct (Hadj a Ha) as [Ho Hc].
      cbn [with_saisie QUANTITE_CORRIGEE QUANTITE_ORIGINALE AJUSTEMENT].
      rewrite Ho, Hc. lra. }
  split; [exact Hrows|]. split.
  - subst stats. cbn [total_discrepancy _calculate_session_stats].
    rewrite (corrected_sum_of_rows _ Hrows). lra.
  - subst stats. cbn [adjusted_items_count _calculate_session_stats].
    apply filter_length_le.
Qed.

Lemma session_stats_balance_witness :
  let session :=
    {| header_lines := []; original_df := None; completed_df := None;
       lotecart_candidates := None; discrepancies_df := Some (ex_rows 8);
       distributed_df := None |} in
  exists (session' : Session) (distributed : list Row) (log : list LogEvent),
    distribute_discrepancies session FIFO = Ok (session', distributed, log)
    /\ total_discrepancy (_calculate_session_stats distributed)
       == Qsum (map QUANTITE_CORRIGEE distributed) - Qsum (map QUANTITE_ORIGINALE distributed).
Proof.
  intros session.
  destruct (distribute_discrepancies session FIFO)
    as [[[session' distributed] log]|msg] eqn:E; [|vm_compute in E; discriminate].
  exists session', distributed, log. split; [reflexivity|].
  exact (proj1 (proj2 (session_stats_balance session session' FIFO distributed log E))).
Defined.

End SessionStatistics.

(** ** Reading the extract *)

Lemma startswith_cons (c : ascii) (prefix : string) (line : string) :
  startswith (String c prefix) line
  = match line with
    | EmptyString => false
    | String c' line' => Ascii.eqb c' c && startswith prefix line'
    end.
Proof.
  unfold startswith. cbn [take_literal]. destruct line as [|c' line']; [reflexivity|].
  destruct (Ascii.eqb c' c); reflexivity.
Qed.

(** A data line is not a header line. *)
Lemma startswith_S_not_header (line : string) :
  startswith "S;" line = true ->
  startswith "E;" line || startswith "L;" line = false.
Proof.
  rewrite !startswith_cons. destruct line as [|c line]; [discriminate|].
  intros H. apply andb_true_iff in H as [Hc _]. apply Ascii.eqb_eq in Hc. subst c.
  reflexivity.
Qed.

Lemma startswith_nonempty (c : ascii) (prefix line : string) :
  startswith (String c prefix) line = true -> String.eqb line "" = false.
Proof. rewrite startswith_cons. destruct line; [discriminate | reflexivity]. Qed.

Lemma processed_parts_firstn (expected_cols : nat) (parts : list string) :
  (expected_cols <= length parts)%nat ->
  processed_parts expected_cols parts = firstn expected_cols parts
  /\ length (firstn expected_cols parts) = expected_cols.
Proof.
  intros H. unfold processed_parts.
  assert (Hl : length (firstn expected_cols parts) = expected_cols)
    by (rewrite length_firstn; lia).
  rewrite Hl, Nat.ltb_irrefl. auto.
Qed.

(** The header lines and the data lines of a file, trimmed, in the order
    of the file. *)
Lemma read_lines_collects (expected_cols numero_inventaire_index : nat) :
  (numero_inventaire_index < expected_cols)%nat ->
  forall (lines : list string) (i : nat) (acc : Collected),
    Forall (fun line => startswith "S;" (py_strip line) = true ->
                        (expected_cols <= length (split ";" (py_strip line)))%nat) lines ->
    let stripped := map py_strip lines in
    let data_lines := List.filter (startswith "S;") stripped in
    read_lines expected_cols numero_inventaire_index i lines acc
    = inr {| headers :=
               (headers acc
                ++ List.filter (fun l => startswith "E;" l || startswith "L;" l) stripped)%list;
             data_rows :=
               (data_rows acc
                ++ map (fun l => firstn expected_cols (split ";" l)) data_lines)%list;
             original_s_lines_raw :=
               (original_s_lines_raw acc
                ++ map (fun l => join ";" (firstn expected_cols (split ";" l))) data_lines)%list;
             first_s_line_numero_inventaire :=
               match first_s_line_numero_inventaire acc with
               | Some numero => Some numero
               | None =>
                   match data_lines with
                   | [] => None
                   | l :: _ => split ";" l !! numero_inventaire_index
                   end
               end |}.
Proof.
  intros Hidx lines. induction lines as [|line lines IH]; intros i acc Hok.
  - cbn [read_lines map List.filter]. rewrite !app_nil_r.
    destruct acc as [h d r f]. cbn. destruct f; reflexivity.
  - inversion Hok as [|? ? Hline Hrest]; subst.
    cbn [read_lines map List.filter]. unfold read_line.
    destruct (String.eqb (py_strip line) "") eqn:Eblank.
    { apply String.eqb_eq in Eblank. rewrite Eblank. cbn [startswith take_literal orb].
      rewrite (IH (S i) acc Hrest). reflexivity. }
    destruct (startswith "E;" (py_strip line) || startswith "L;" (py_strip line)) eqn:Eh.
    { assert (Es : startswith "S;" (py_strip line) = false).
      { destruct (startswith "S;" (py_strip line)) eqn:Es; [|reflexivity].
        apply startswith_S_not_header in Es. congruence. }
      rewrite Es, (IH (S i) _ Hrest). cbn [headers data_rows original_s_lines_raw
                                            first_s_line_numero_inventaire].
      rewrite <- !app_assoc. reflexivity. }
    destruct (startswith "S;" (py_strip line)) eqn:Es.
    + specialize (Hline eq_refl).
      assert (Hlt : (length (split ";" (py_strip line)) <? expected_cols)%nat = false)
        by (apply Nat.ltb_ge; exact Hline).
      rewrite Hlt.
      destruct (lookup_lt_is_Some_2 (split ";" (py_strip line)) numero_inventaire_index
                  ltac:(lia)) as [numero Hnumero].
      destruct (processed_parts_firstn expected_cols _ Hline) as [-> _].
      destruct (first_s_line_numero_inventaire acc) as [first|] eqn:Ef.
      * rewrite (IH (S i) _ Hrest).
        cbn [headers data_rows original_s_lines_raw first_s_line_numero_inventaire map].
        rewrite <- !app_assoc. reflexivity.
      * rewrite Hnumero, (IH (S i) _ Hrest).
        cbn [headers data_rows original_s_lines_raw first_s_line_numero_inventaire map].
        rewrite <- !app_assoc. cbn [app]. rewrite ?Hnumero. reflexivity.
    + rewrite (IH (S i) acc Hrest). reflexivity.
Qed.

(** X18. [_process_csv_file] reads the extract line by line.  When every
    data line (a line that, trimmed, starts with [S;]) has at least
    [expected_cols] fields and there is at least one, the call succeeds:
    the headers are the trimmed lines that start with [E;] or [L;], in
    the order of the file; there is one row per data line, in order, made
    of its first [expected_cols] fields (further fields are dropped,
    nothing is ever padded); the raw line kept for a row is the row
    joined with [;] and splits back into the row; the inventory number
    remembered is the one of the first data line.  Blank lines and lines
    of any other kind are skipped. *)
Theorem extract_is_read_line_by_line :
  forall (expected_cols numero_inventaire_index : nat) (lines : list string),
    (numero_inventaire_index < expected_cols)%nat ->
    let stripped := map py_strip lines in
    let data_lines := List.filter (startswith "S;") stripped in
    Forall (fun l => (expected_cols <= length (split ";" l))%nat) data_lines ->
    data_lines <> [] ->
    exists collected : Collected,
      _process_csv_file_lines expected_cols numero_inventaire_index lines = inr collected
      /\ headers collected
         = List.filter (fun l => startswith "E;" l || startswith "L;" l) stripped
      /\ data_rows collected = map (fun l => firstn expected_cols (split ";" l)) data_lines
      /\ original_s_lines_raw collected = map (join ";") (data_rows collected)
      /\ Forall (fun row => length row = expected_cols) (data_rows collected)
      /\ Forall (fun row => split ";" (join ";" row) = row) (data_rows collected)
      /\ first_s_line_numero_inventaire collected
         = match data_lines with
           | [] => None
           | l :: _ => split ";" l !! numero_inventaire_index
           end.
Proof.
  intros expected_cols numero_inventaire_index lines Hidx stripped data_lines Hok Hne.
  assert (Hok' : Forall (fun line => startswith "S;" (py_strip line) = true ->
                   (expected_cols <= length (split ";" (py_strip line)))%nat) lines).
  { apply List.Forall_forall. intros line Hin Hs.
    rewrite List.Forall_forall in Hok. apply Hok.
    subst data_lines stripped. apply filter_In. split; [apply in_map, Hin | exact Hs]. }
  unfold _process_csv_file_lines.
  rewrite (read_lines_collects expected_cols numero_inventaire_index Hidx lines 0%nat _ Hok').
  fold stripped. fold data_lines. cbn [headers data_rows original_s_lines_raw
                                       first_s_line_numero_inventaire app].
  destruct (map (fun l => firstn expected_cols (split ";" l)) data_lines) as [|row rows] eqn:Erows.
  { destruct data_lines; [contradiction | discriminate]. }
  rewrite <- Erows. eexists. split; [reflexivity|].
  cbn [headers data_rows original_s_lines_raw first_s_line_numero_inventaire].
  split; [reflexivity|]. split; [reflexivity|]. split; [rewrite map_map; reflexivity|].
  assert (Hrows : Forall (fun row => length row = expected_cols
                                     /\ split ";" (join ";" row) = row)
                         (map (fun l => firstn expected_cols (split ";" l)) data_lines)).
  { apply List.Forall_forall. intros r Hr. apply in_map_iff in Hr as (l & <- & Hl).
    rewrite List.Forall_forall in Hok. specialize (Hok l Hl).
    assert (Hlen : length (firstn expected_cols (split ";" l)) = expected_cols)
      by (rewrite length_firstn; lia).
    split; [exact Hlen|].
    apply split_join.
    - intros E. rewrite E in Hlen. simpl in Hlen. lia.
    - apply Forall_take, split_fields_no_sep. }
  split; [eapply List.Forall_impl; [|exact Hrows]; intros r [H _]; exact H|].
  split; [eapply List.Forall_impl; [|exact Hrows]; intros r [_ H]; exact H|].
  reflexivity.
Qed.

Lemma extract_is_read_line_by_line_witness :
  exists collected : Collected,
    _process_csv_file_lines 3 2
      ["E;SES01;HEADER"; ""; "  S;SES01;INV01;extra  "; "comment"; "S;SES01;INV02"]
    = inr collected
    /\ headers collected = ["E;SES01;HEADER"]
    /\ data_rows collected = [["S"; "SES01"; "INV01"]; ["S"; "SES01"; "INV02"]]
    /\ original_s_lines_raw collected = ["S;SES01;INV01"; "S;SES01;INV02"]
    /\ first_s_line_numero_inventaire collected = Some "INV01".
Proof.
  destruct (extract_is_read_line_by_line 3 2
              ["E;SES01;HEADER"; ""; "  S;SES01;INV01;extra  "; "comment"; "S;SES01;INV02"])
    as (collected & Hread & Hh & Hd & Hr & _ & _ & Hf).
  - lia.
  - vm_compute. constructor; [vm_compute; lia|]. constructor; [vm_compute; lia|]. constructor.
  - vm_compute. discriminate.
  - exists collected. split; [exact Hread|].
    split; [rewrite Hh; vm_compute; reflexivity|].
    split; [rewrite Hd; vm_compute; reflexivity|].
    split; [rewrite Hr, Hd; vm_compute; reflexivity|].
    rewrite Hf. vm_compute. reflexivity.
Defined.

Lemma read_lines_rejects (expected_cols numero_inventaire_index : nat) :
  (numero_inventaire_index < expected_cols)%nat ->
  forall (before : list string) (line : string) (after : list string) (i : nat)
         (acc : Collected),
    Forall (fun l => startswith "S;" (py_strip l) = true ->
                     (expected_cols <= length (split ";" (py_strip l)))%nat) before ->
    startswith "S;" (py_strip line) = true ->
    (length (split ";" (py_strip line)) < expected_cols)%nat ->
    read_lines expected_cols numero_inventaire_index i (before ++ line :: after) acc
    = inl (FormatInvalide (i + length before + 1) expected_cols).
Proof.
  intros Hidx before line after. induction before as [|l before IH]; intros i acc Hok Hs Hshort.
  - cbn [app read_lines]. unfold read_line.
    rewrite (startswith_nonempty _ _ _ Hs), (startswith_S_not_header _ Hs), Hs.
    apply Nat.ltb_lt in Hshort. rewrite Hshort. cbn [length]. do 2 f_equal. lia.
  - inversion Hok as [|? ? Hl Hrest]; subst.
    cbn [app read_lines].
    pose proof (read_lines_collects expected_cols numero_inventaire_index Hidx [l] i acc
                  ltac:(constructor; [exact Hl | constructor])) as Hone.
    cbn [read_lines] in Hone.
    destruct (read_line expected_cols numero_inventaire_index i l acc) as [err|acc'];
      [discriminate|].
    rewrite (IH (S i) acc' Hrest Hs Hshort). cbn [length]. do 2 f_equal. lia.
Qed.

(** X19. The first data line with fewer than [expected_cols] fields stops
    the reading: the call fails with the message for that line, numbered
    from 1 over all the lines of the file, blank lines included, whatever
    follows it; a file without any data line fails with the message that
    no data was found. *)
Theorem extract_rejected_at_first_short_line :
  forall (expected_cols numero_inventaire_index : nat),
    (numero_inventaire_index < expected_cols)%nat ->
    (forall (before : list string) (line : string) (after : list string),
       Forall (fun l => startswith "S;" (py_strip l) = true ->
                        (expected_cols <= length (split ";" (py_strip l)))%nat) before ->
       startswith "S;" (py_strip line) = true ->
       (length (split ";" (py_strip line)) < expected_cols)%nat ->
       _process_csv_file_lines expected_cols numero_inventaire_index
         (before ++ line :: after)%list
       = inl (FormatInvalide (length before + 1) expected_cols))
    /\ (forall lines : list string,
          Forall (fun l => startswith "S;" (py_strip l) = false) lines ->
          _process_csv_file_lines expected_cols numero_inventaire_index lines
          = inl AucuneDonnee).
Proof.
  intros expected_cols numero_inventaire_index Hidx. split.
  - intros before line after Hok Hs Hshort. unfold _process_csv_file_lines.
    rewrite (read_lines_rejects expected_cols numero_inventaire_index Hidx before line after
               0%nat _ Hok Hs Hshort).
    reflexivity.
  - intros lines Hnone. unfold _process_csv_file_lines.
    rewrite (read_lines_collects expected_cols numero_inventaire_index Hidx lines 0%nat).
    + cbn [data_rows app].
      assert (Hd : List.filter (startswith "S;") (map py_strip lines) = []).
      { induction Hnone as [|l lines Hl _ IH]; [reflexivity|].
        cbn [map List.filter]. rewrite Hl. exact IH. }
      rewrite Hd. reflexivity.
    + eapply List.Forall_impl; [|exact Hnone]. intros l Hl Hs. congruence.
Qed.

Lemma extract_rejected_at_first_short_line_witness :
  _process_csv_file_lines 15 2 ["E;SES01;HEADER"; ""; "S;SES01;INV01;1000"; "S;too;late"]
  = inl (FormatInvalide 3 15)
  /\ _process_csv_file_lines 15 2 ["E;SES01;HEADER"; "L;SES01;INV01"] = inl AucuneDonnee.
Proof.
  split.
  - apply (proj1 (extract_rejected_at_first_short_line 15 2 ltac:(lia))
             ["E;SES01;HEADER"; ""] "S;SES01;INV01;1000" ["S;too;late"]).
    + repeat constructor; vm_compute; discriminate.
    + vm_compute. reflexivity.
    + vm_compute. lia.
  - apply (proj2 (extract_rejected_at_first_short_line 15 2 ltac:(lia))).
    repeat constructor; vm_compute; reflexivity.
Defined.

(** What a successful reading has seen, whatever the configuration. *)
Lemma read_lines_success (expected_cols numero_inventaire_index : nat) :
  forall (lines : list string) (i : nat) (acc collected : Collected),
    read_lines expected_cols numero_inventaire_index i lines acc = inr collected ->
    let stripped := map py_strip lines in
    let data_lines := List.filter (startswith "S;") stripped in
    Forall (fun l => (expected_cols <= length (split ";" l))%nat) data_lines
    /\ headers collected
       = (headers acc
          ++ List.filter (fun l => startswith "E;" l || startswith "L;" l) stripped)%list
    /\ original_s_lines_raw collected
       = (original_s_lines_raw acc
          ++ map (fun l => join ";" (firstn expected_cols (split ";" l))) data_lines)%list.
Proof.
  induction lines as [|line lines IH]; intros i acc collected Hread.
  - cbn [read_lines] in Hread. injection Hread as <-.
    cbn [map List.filter]. rewrite !app_nil_r. repeat split. constructor.
  - cbn [read_lines] in Hread. cbn [map List.filter].
    unfold read_line in Hread.
    destruct (String.eqb (py_strip line) "") eqn:Eblank.
    { apply String.eqb_eq in Eblank. rewrite Eblank. cbn [startswith take_literal orb].
      exact (IH _ _ _ Hread). }
    destruct (startswith "E;" (py_strip line) || startswith "L;" (py_strip line)) eqn:Eh.
    { assert (Es : startswith "S;" (py_strip line) = false).
      { destruct (startswith "S;" (py_strip line)) eqn:Es; [|reflexivity].
        apply startswith_S_not_header in Es. congruence. }
      rewrite Es. destruct (IH _ _ _ Hread) as (H1 & H2 & H3).
      cbn [headers original_s_lines_raw] in H2, H3. rewrite <- app_assoc in H2.
      repeat split; assumption. }
    destruct (startswith "S;" (py_strip line)) eqn:Es; [|exact (IH _ _ _ Hread)].
    destruct (length (split ";" (py_strip line)) <? expected_cols)%nat eqn:Hlt;
      [discriminate|].
    apply Nat.ltb_ge in Hlt.
    destruct (processed_parts_firstn expected_cols _ Hlt) as [Hp _]. rewrite Hp in Hread.
    destruct (match first_s_line_numero_inventaire acc with
              | Some numero => Some numero
              | None => split ";" (py_strip line) !! numero_inventaire_index
              end) as [first|]; [|discriminate].
    destruct (IH _ _ _ Hread) as (H1 & H2 & H3).
    cbn [headers original_s_lines_raw] in H2, H3. rewrite <- app_assoc in H3.
    split; [constructor; assumption|]. split; assumption.
Qed.

Lemma replay_line_length (py_float : string -> option Q)
    (adjustments : gmap (string * string * string) AdjustmentData)
    (emplacements : gmap (string * string) string) (original_row : Orig.Row) :
  (15 <= length (split ";" (Orig.original_s_line_raw original_row)))%nat ->
  exists parts : list string,
    replay_line py_float adjustments emplacements original_row = Some parts
    /\ length parts = length (split ";" (Orig.original_s_line_raw original_row)).
Proof.
  intros Hlen. unfold replay_line. apply Nat.leb_le in Hlen. rewrite Hlen.
  eexists. split; [reflexivity|].
  destruct (adjustments !! _) as [data|];
    [destruct (LotType_eqb (type_lot data) lotecart)|];
    destruct (emplacements !! _); rewrite ?length_insert; reflexivity.
Qed.

(** X20. No line of a well-read extract is lost in the final file.  When
    the extract was read with [expected_cols >= 15] and the session holds
    its headers and a table whose raw lines are the ones kept by the
    reading, [generate_final_file] writes the headers of the extract, in
    order, then exactly one line for each data line of the extract, in
    order and with [expected_cols] fields each, then the appended
    lines. *)
Theorem final_file_keeps_every_line :
  forall (py_float : string -> option Q) (py_int : string -> option Z)
         (expected_cols numero_inventaire_index : nat) (lines : list string)
         (collected : Collected) (session : Session)
         (distributed : list Row) (original : list Orig.Row),
    (15 <= expected_cols)%nat ->
    _process_csv_file_lines expected_cols numero_inventaire_index lines = inr collected ->
    header_lines session = headers collected ->
    original_df session = Some original ->
    map Orig.original_s_line_raw original = original_s_lines_raw collected ->
    distributed_df session = Some distributed ->
    exists replayed : list string,
      generate_final_file py_float py_int session
      = Ok (List.filter (fun l => startswith "E;" l || startswith "L;" l) (map py_strip lines)
            ++ replayed
            ++ appended_lines py_float py_int distributed original)%list
      /\ length replayed = length (List.filter (startswith "S;") (map py_strip lines))
      /\ Forall2 (fun original_row line =>
                    exists parts : list string,
                      replay_line py_float (adjustments_dict distributed)
                        (emplacement_updates (completed_df session)) original_row
                      = Some parts
                      /\ line = join ";" parts
                      /\ length parts = expected_cols)
                 original replayed.
Proof.
  intros py_float py_int expected_cols numero_inventaire_index lines collected session
         distributed original Hcols Hread Hheaders Horiginal Hraw Hdistributed.
  unfold _process_csv_file_lines in Hread.
  destruct (read_lines expected_cols numero_inventaire_index 0 lines _) as [err|c] eqn:Hlines;
    [discriminate|].
  assert (c = collected) as ->
    by (destruct (data_rows c); [discriminate | injection Hread as <-; reflexivity]).
  clear Hread.
  destruct (read_lines_success _ _ _ _ _ _ Hlines) as (Hok & Hh & Hr).
  cbn [headers original_s_lines_raw app] in Hh, Hr.
  set (data_lines := List.filter (startswith "S;") (map py_strip lines)) in *.
  assert (Hfields : Forall (fun original_row =>
                      length (split ";" (Orig.original_s_line_raw original_row))
                      = expected_cols) original).
  { apply List.Forall_forall. intros original_row Hin.
    assert (Hmem : In (Orig.original_s_line_raw original_row)
                      (map (fun l => join ";" (firstn expected_cols (split ";" l))) data_lines)).
    { rewrite <- Hr, <- Hraw. apply in_map, Hin. }
    apply in_map_iff in Hmem as (l & <- & Hl).
    rewrite List.Forall_forall in Hok. specialize (Hok l Hl).
    assert (Hlen : length (firstn expected_cols (split ";" l)) = expected_cols)
      by (rewrite length_firstn; lia).
    rewrite split_join; [exact Hlen| |apply Forall_take, split_fields_no_sep].
    intros E. rewrite E in Hlen. simpl in Hlen. lia. }
  unfold generate_final_file. rewrite Hdistributed, Horiginal, Hheaders, Hh.
  exists (replayed_lines py_float session distributed original).
  split; [reflexivity|].
  assert (Hall : Forall2 (fun original_row line =>
                    exists parts : list string,
                      replay_line py_float (adjustments_dict distributed)
                        (emplacement_updates (completed_df session)) original_row
                      = Some parts
                      /\ line = join ";" parts
                      /\ length parts = expected_cols)
                   original (replayed_lines py_float session distributed original)).
  { unfold replayed_lines. clear Hraw Horiginal.
    induction Hfields as [|original_row original Hrow _ IH]; [constructor|].
    destruct (replay_line_length py_float (adjustments_dict distributed)
                (emplacement_updates (completed_df session)) original_row)
      as (parts & Hreplay & Hlen); [rewrite Hrow; exact Hcols|].
    match goal with
    | |- Forall2 _ _ (omap ?f (?x :: ?l)) =>
        change (omap f (x :: l))
          with (match f x with Some y => y :: omap f l | None => omap f l end)
    end.
    cbv beta. rewrite Hreplay. cbn [fmap option_fmap option_map]. constructor; [|exact IH].
    exists parts. rewrite Hlen, Hrow. auto. }
  split; [|exact Hall].
  rewrite <- (Forall2_length _ _ _ Hall).
  rewrite <- (length_map Orig.original_s_line_raw), Hraw, Hr, length_map. reflexivity.
Qed.

Lemma final_file_keeps_every_line_witness :
  let lines := ["E;SES01;HEADER"; ""; Orig.original_s_line_raw ex_lot_old] in
  let session :=
    {| header_lines := ["E;SES01;HEADER"]; original_df := Some [ex_lot_old];
       completed_df := None; lotecart_candidates := None; discrepancies_df := None;
       distributed_df := Some [] |} in
  exists replayed : list string,
    generate_final_file decimal_literal ex_int session
    = Ok (List.filter (fun l => startswith "E;" l || startswith "L;" l) (map py_strip lines)
          ++ replayed ++ appended_lines decimal_literal ex_int [] [ex_lot_old])%list
    /\ length replayed = 1%nat.
Proof.
  intros lines session.
  destruct (final_file_keeps_every_line decimal_literal ex_int 15 2 lines
              {| headers := ["E;SES01;HEADER"];
                 data_rows := [split ";" (Orig.original_s_line_raw ex_lot_old)];
                 original_s_lines_raw := [Orig.original_s_line_raw ex_lot_old];
                 first_s_line_numero_inventaire := Some "INV01" |}
              session [] [ex_lot_old])
    as (replayed & Hfile & Hlen & _).
  - lia.
  - vm_compute. reflexivity.
  - reflexivity.
  - reflexivity.
  - reflexivity.
  - reflexivity.
  - exists replayed. split; [exact Hfile|]. rewrite Hlen. vm_compute. reflexivity.
Defined.

(** ** Lot classifier: the dates it extracts *)

Lemma digit_value_bound (c : ascii) :
  is_digit c = true -> (0 <= Z.of_nat (nat_of_ascii c - 48) <= 9)%Z.
Proof.
  unfold is_digit. intros H. apply andb_true_iff in H as [H1 H2].
  apply Nat.leb_le in H1, H2. lia.
Qed.

Lemma two_digits_bound (s : string) :
  String.length s = 2%nat -> string_forallb is_digit s = true ->
  (0 <= int_of_digits s <= 99)%Z.
Proof.
  destruct s as [|c1 [|c2 [|c3 s]]]; try discriminate. intros _ H.
  cbn [string_forallb] in H.
  apply andb_true_iff in H as [H1 H]. apply andb_true_iff in H as [H2 _].
  unfold int_of_digits. cbn [digits_value]. rewrite H1, H2.
  pose proof (digit_value_bound c1 H1). pose proof (digit_value_bound c2 H2). lia.
Qed.

Lemma substring_digits (s : string) : forall (start n : nat),
  string_forallb is_digit s = true ->
  string_forallb is_digit (substring start n s) = true.
Proof.
  induction s as [|c s IH]; intros start n H.
  - destruct start, n; reflexivity.
  - cbn [string_forallb] in H. apply andb_true_iff in H as [Hc Hs].
    destruct start as [|start]; destruct n as [|n]; cbn [substring]; try reflexivity.
    + cbn [string_forallb]. rewrite Hc. exact (IH 0%nat n Hs).
    + exact (IH start 0%nat Hs).
    + exact (IH start (S n) Hs).
Qed.

Lemma substring_length (s : string) : forall (start n : nat),
  (start + n <= String.length s)%nat -> String.length (substring start n s) = n.
Proof.
  induction s as [|c s IH]; intros start n H; simpl in H.
  - destruct start, n; simpl; lia.
  - destruct start as [|start]; destruct n as [|n]; cbn [substring]; try reflexivity.
    + simpl. rewrite IH; lia.
    + apply IH. lia.
    + apply IH. lia.
Qed.

(** X21. A lot number never classifies as [lotecart], and a date comes
    out only with [type1]: it is then a date of the calendar whose year
    lies between 2000 and 2099, the two-digit year of the lot number
    being read in the years 2000. *)
Theorem lot_date_only_for_type1 :
  forall (PRIORITY1_SITE_CODES : list string) (lot_number : option string),
    snd (_extract_date_from_lot PRIORITY1_SITE_CODES lot_number) <> lotecart
    /\ forall d : Date,
         fst (_extract_date_from_lot PRIORITY1_SITE_CODES lot_number) = Some d ->
         snd (_extract_date_from_lot PRIORITY1_SITE_CODES lot_number) = type1
         /\ (2000 <= d_year d <= 2099)%Z
         /\ (1 <= d_month d <= 12)%Z
         /\ (1 <= d_day d <= days_in_month (d_year d) (d_month d))%Z.
Proof.
  intros codes lot_number. unfold _extract_date_from_lot.
  destruct lot_number as [lot|]; [|split; [discriminate | intros d; discriminate]].
  destruct (match_type1 (py_strip lot)) as [[[site_code date_part] suffix]|] eqn:E1.
  - destruct (negb (existsb (String.eqb site_code) codes));
      [split; [discriminate | intros d; discriminate]|].
    cbv zeta.
    destruct (negb _); [split; [discriminate | intros d; discriminate]|].
    apply match_type1_some in E1 as (rest & _ & (_ & _ & _ & Hlen & Hdigits & _) & _).
    assert (Hsub : String.length (substring 4 2 date_part) = 2%nat)
      by (apply substring_length; lia).
    pose proof (two_digits_bound (substring 4 2 date_part) Hsub
                  (substring_digits _ _ _ Hdigits)) as Hyear.
    destruct (datetime _ _ _) as [d|] eqn:Ed;
      (split; [discriminate|]); intros d' Hd'; [|discriminate].
    injection Hd' as <-. unfold datetime in Ed.
    destruct (_ && _) eqn:Econd; [|discriminate].
    injection Ed as <-. cbn [d_year d_month d_day].
    repeat (apply andb_true_iff in Econd as [Econd ?]).
    split; [reflexivity|]. lia.
  - destruct (match_type2 (py_strip lot)); split; try discriminate; intros d; discriminate.
Qed.

Lemma lot_date_only_for_type1_witness :
  fst (_extract_date_from_lot ["CPKU1"] (Some "CPKU1311299ABCD")) = Some (mkDate 2099 12 31)
  /\ snd (_extract_date_from_lot ["CPKU1"] (Some "CPKU1311299ABCD")) = type1.
Proof.
  assert (Hd : fst (_extract_date_from_lot ["CPKU1"] (Some "CPKU1311299ABCD"))
               = Some (mkDate 2099 12 31)) by (vm_compute; reflexivity).
  split; [exact Hd|].
  exact (proj1 (proj2 (lot_date_only_for_type1 ["CPKU1"] (Some "CPKU1311299ABCD"))
                  (mkDate 2099 12 31) Hd)).
Defined.

(** ** Inventory date *)

Lemma match_inventory_date_some (s day month : string) :
  match_inventory_date s = Some (day, month) ->
  exists rest,
    s = day ++ month ++ "INV" ++ rest
    /\ String.length day = 2%nat /\ string_forallb is_digit day = true
    /\ String.length month = 2%nat /\ string_forallb is_digit month = true.
Proof.
  unfold match_inventory_date. intros H.
  destruct (take_class is_digit 2 s) as [[a r1]|] eqn:E1; [|discriminate].
  destruct (take_class is_digit 2 r1) as [[b r2]|] eqn:E2; [|discriminate].
  destruct (take_literal "INV" r2) as [r3|] eqn:E3; [|discriminate].
  injection H as <- <-.
  apply take_class_some in E1 as (-> & L1 & F1).
  apply take_class_some in E2 as (-> & L2 & F2).
  apply take_literal_some in E3 as ->.
  exists r3. repeat split; assumption.
Qed.

Lemma match_inventory_date_of (day month rest : string) :
  String.length day = 2%nat -> string_forallb is_digit day = true ->
  String.length month = 2%nat -> string_forallb is_digit month = true ->
  match_inventory_date (day ++ month ++ "INV" ++ rest) = Some (day, month).
Proof.
  intros L1 F1 L2 F2. unfold match_inventory_date.
  rewrite (take_class_app _ _ _ _ L1 F1), (take_class_app _ _ _ _ L2 F2), take_literal_app.
  reflexivity.
Qed.

(** The character at a position that lies in the first part of a text. *)
Lemma char_in_prefix (a : string) : forall (u v w : string) (x : ascii),
  (u ++ v = a ++ String x w)%string ->
  (String.length a < String.length u)%nat ->
  contains_char x u = true.
Proof.
  induction a as [|c a IH]; intros u v w x H Hlen.
  - destruct u as [|c' u]; [simpl in Hlen; lia|].
    rewrite string_app_cons, string_app_nil_l in H. injection H as -> _.
    simpl. rewrite Ascii.eqb_refl. reflexivity.
  - destruct u as [|c' u]; [simpl in Hlen; lia|].
    rewrite !string_app_cons in H. injection H as _ H.
    simpl in Hlen. cbn [contains_char].
    rewrite (IH u v w x H ltac:(lia)). apply orb_true_r.
Qed.

Lemma search_inventory_date_skips (prefix : string) : forall (day month rest : string),
  contains_char "I" prefix = false ->
  String.length day = 2%nat -> string_forallb is_digit day = true ->
  String.length month = 2%nat -> string_forallb is_digit month = true ->
  search_inventory_date (prefix ++ day ++ month ++ "INV" ++ rest) = Some (day, month).
Proof.
  induction prefix as [|c prefix IH]; intros day month rest Hno L1 F1 L2 F2.
  - rewrite string_app_nil_l.
    destruct (day ++ month ++ "INV" ++ rest) eqn:E;
      cbn [search_inventory_date]; rewrite <- E, match_inventory_date_of; auto.
  - rewrite string_app_cons. cbn [search_inventory_date].
    destruct (match_inventory_date (String c (prefix ++ day ++ month ++ "INV" ++ rest)))
      as [[day' month']|] eqn:E.
    + exfalso. apply match_inventory_date_some in E as (rest' & Hs & L1' & _ & L2' & _).
      assert (Hc : contains_char "I" (String c prefix ++ day ++ month) = true).
      { apply (char_in_prefix (day' ++ month') _ ("INV" ++ rest) ("NV" ++ rest')).
        - rewrite !string_app_assoc. rewrite !string_app_cons in *.
          rewrite Hs. reflexivity.
        - rewrite ?string_length_app. cbn [String.length]. rewrite ?string_length_app. lia. }
      rewrite !contains_char_app in Hc. rewrite Hno in Hc. cbn [orb] in Hc.
      apply orb_true_iff in Hc as [Hc|Hc].
      * rewrite (contains_char_forallb "I" is_digit day eq_refl F1) in Hc. discriminate.
      * rewrite (contains_char_forallb "I" is_digit month eq_refl F2) in Hc. discriminate.
    + simpl in Hno. apply orb_false_iff in Hno as [_ Hno].
      apply IH; assumption.
Qed.

(** X22. The inventory date is read from the two pairs of digits that
    stand before the first [INV] of the inventory number, as day and
    month, in the year of the session: when no [I] comes before them the
    result is that date when it is in the calendar of the session year,
    and none otherwise.  Whatever the inventory number, a date that comes
    out is a calendar date of the session year; a missing or empty
    number gives none. *)
Theorem inventory_date_in_session_year :
  forall year : Z,
    (forall (prefix day month rest : string),
       contains_char "I" prefix = false ->
       String.length day = 2%nat -> string_forallb is_digit day = true ->
       String.length month = 2%nat -> string_forallb is_digit month = true ->
       _extract_inventory_date (Some (prefix ++ day ++ month ++ "INV" ++ rest)) year
       = datetime year (int_of_digits month) (int_of_digits day))
    /\ (forall (numero_inventaire : option string) (d : Date),
          _extract_inventory_date numero_inventaire year = Some d ->
          d_year d = year
          /\ (1 <= d_month d <= 12)%Z
          /\ (1 <= d_day d <= days_in_month year (d_month d))%Z)
    /\ _extract_inventory_date None year = None
    /\ _extract_inventory_date (Some "") year = None.
Proof.
  intros year. split; [|split; [|split; reflexivity]].
  - intros prefix day month rest Hno L1 F1 L2 F2. unfold _extract_inventory_date.
    rewrite (search_inventory_date_skips prefix day month rest Hno L1 F1 L2 F2).
    destruct (String.eqb _ "") eqn:E; [|reflexivity].
    apply String.eqb_eq in E. apply (f_equal String.length) in E.
    rewrite !string_length_app in E. simpl in E. lia.
  - intros numero d H. unfold _extract_inventory_date in H.
    destruct numero as [numero|]; [|discriminate].
    destruct (String.eqb numero ""); [discriminate|].
    destruct (search_inventory_date numero) as [[day month]|]; [|discriminate].
    unfold datetime in H. destruct (_ && _) eqn:Econd; [|discriminate].
    injection H as <-. cbn [d_year d_month d_day].
    repeat (apply andb_true_iff in Econd as [Econd ?]).
    split; [reflexivity|]. lia.
Qed.

Lemma inventory_date_in_session_year_witness :
  _extract_inventory_date (Some "BKE022508INV00000002") 2025 = Some (mkDate 2025 8 25)
  /\ _extract_inventory_date (Some "2902INV") 2025 = None.
Proof.
  split.
  - exact (proj1 (inventory_date_in_session_year 2025) "BKE02" "25" "08" "00000002"
             eq_refl eq_refl eq_refl eq_refl eq_refl).
  - exact (proj1 (inventory_date_in_session_year 2025) "" "29" "02" ""
             eq_refl eq_refl eq_refl eq_refl eq_refl).
Defined.

(** ** Number formatting: whole and negligible quantities *)

Section FormattingEdges.
Local Open Scope Q_scope.

Lemma round_half_even_below_half (x : Q) :
  0 <= x -> x < 1 # 2 -> round_half_even x = 0%Z.
Proof.
  intros H0 H1. unfold round_half_even.
  assert (Hfl : Qfloor x = 0%Z).
  { pose proof (Qfloor_le x) as Hlo. pose proof (Qlt_floor x) as Hhi.
    rewrite inject_Z_plus in Hhi. change (inject_Z 1) with 1 in Hhi.
    assert (H2 : (Qfloor x < 1)%Z).
    { rewrite Zlt_Qlt. change (inject_Z 1) with 1. lra. }
    assert (H3 : (-1 < Qfloor x)%Z).
    { rewrite Zlt_Qlt. change (inject_Z (-1)) with (-1). lra. }
    lia. }
  rewrite Hfl. change (inject_Z 0) with 0.
  destruct (Qcompare (x - 0) (1 # 2)) eqn:E.
  - apply Qeq_alt in E. lra.
  - reflexivity.
  - apply Qgt_alt in E. lra.
Qed.

Lemma round_half_even_integer (x : Q) (k : Z) :
  x == inject_Z k -> round_half_even x = k.
Proof.
  intros Hx. unfold round_half_even.
  assert (Hfl : Qfloor x = k) by (rewrite (Qfloor_comp _ _ Hx); apply Qfloor_Z).
  rewrite Hfl.
  destruct (Qcompare (x - inject_Z k) (1 # 2)) eqn:E.
  - apply Qeq_alt in E. lra.
  - reflexivity.
  - apply Qgt_alt in E. lra.
Qed.

Lemma sign_text_integer (z : Z) :
  sign_text (inject_Z z) ++ py_str_int (Z.abs z) = py_str_int z.
Proof.
  unfold sign_text. destruct z as [|p|p].
  - reflexivity.
  - reflexivity.
  - reflexivity.
Qed.

Lemma replace_char_id (a b : ascii) (s : string) :
  contains_char a s = false -> replace_char a b s = s.
Proof.
  induction s as [|x s IH]; simpl; [reflexivity|].
  intros H. apply orb_false_iff in H as [Hx Hs]. rewrite Hx, (IH Hs). reflexivity.
Qed.

(** X23. A whole number is written as the integer it is: its digits,
    with a minus sign when it is negative, without a decimal point; as a
    field of the final file the text is the same. *)
Theorem whole_number_text :
  forall (py_float : string -> option Q) (z : Z),
    _format_number py_float (VNum (inject_Z z)) = py_str_int z
    /\ _to_csv_number py_float (VNum (inject_Z z)) "," = py_str_int z.
Proof.
  intros py_float z.
  assert (Hfmt : _format_number py_float (VNum (inject_Z z)) = py_str_int z).
  { rewrite format_number_of_number. cbv zeta.
    assert (Hn : round_half_even (Qabs (inject_Z z) * inject_Z (10 ^ 6))
                 = (Z.abs z * 10 ^ 6)%Z).
    { apply round_half_even_integer.
      rewrite inject_Z_mult. apply Qmult_comp; [|reflexivity].
      destruct z; reflexivity. }
    rewrite Hn, Z.div_mul, Z.mod_mul by lia.
    change (significant_decimals 6 0) with "".
    rewrite string_app_nil_r. apply sign_text_integer. }
  split; [exact Hfmt|].
  unfold _to_csv_number. rewrite Hfmt. cbn [String.eqb Ascii.eqb Bool.eqb].
  apply replace_char_id.
  apply (contains_char_forallb "." (fun c => is_digit c || Ascii.eqb c "-"));
    [reflexivity | apply py_str_int_chars].
Qed.

(** X24. A quantity smaller than half a millionth in absolute value is
    written [0], or [-0] when it is negative, whatever its indicator:
    this covers every quantity that gets indicator 2, and also quantities
    between [0.000000001] and [0.0000005], which get indicator 1. *)
Theorem negligible_quantity_text :
  forall (py_float : string -> option Q) (q : Q),
    Qabs q < 1 # 2000000 ->
    _to_csv_number py_float (VNum q) "," = (if Qgt_bool 0 q then "-0" else "0")
    /\ (count_indicator q = "2" <-> Qabs q < 1 # 1000000000).
Proof.
  intros py_float q Hq. split.
  - unfold _to_csv_number. rewrite format_number_of_number. cbv zeta.
    assert (Hn : round_half_even (Qabs q * inject_Z (10 ^ 6)) = 0%Z).
    { apply round_half_even_below_half.
      - apply Qmult_le_0_compat; [apply Qabs_nonneg | discriminate].
      - change (inject_Z (10 ^ 6)) with 1000000. lra. }
    rewrite Hn. change (0 / 10 ^ 6)%Z with 0%Z. change (0 mod 10 ^ 6)%Z with 0%Z.
    change (significant_decimals 6 0) with "". change (py_str_int 0) with "0".
    unfold sign_text. destruct (Qgt_bool 0 q); reflexivity.
  - unfold count_indicator, _zero_epsilon.
    destruct (Qgt_bool (1 # 1000000000) (Qabs q)) eqn:E; qbool.
    + split; [intros _; exact E | reflexivity].
    + split; [discriminate | intros H; lra].
Qed.

Lemma negligible_quantity_text_witness :
  _to_csv_number decimal_literal (VNum (- (1 # 10000000))) "," = "-0"
  /\ count_indicator (- (1 # 10000000)) = "1".
Proof.
  destruct (negligible_quantity_text decimal_literal (- (1 # 10000000))) as [Htext Hind].
  - reflexivity.
  - split; [exact Htext|].
    destruct (count_indicator (- (1 # 10000000))) eqn:E; vm_compute in E; congruence.
Defined.

End FormattingEdges.

(** ** Aggregation and template *)

Section AggregationProperties.
Local Open Scope Q_scope.

Lemma insert_aggregated_perm (x : Agg.Row) (l : list Agg.Row) :
  Permutation (x :: l) (insert_aggregated x l).
Proof.
  induction l as [|y l IH]; simpl.
  - apply Permutation_refl.
  - destruct (sort_key_le x y).
    + apply Permutation_refl.
    + eapply perm_trans; [apply perm_swap|]. apply perm_skip, IH.
Qed.

Lemma sort_aggregated_perm (l : list Agg.Row) : Permutation l (sort_aggregated l).
Proof.
  induction l as [|x l IH]; simpl.
  - apply perm_nil.
  - eapply perm_trans; [apply perm_skip, IH | apply insert_aggregated_perm].
Qed.

Lemma date_compare_le (a b : Date) :
  date_compare a b <> Gt
  <-> (d_year a < d_year b
       \/ (d_year a = d_year b
           /\ (d_month a < d_month b
               \/ (d_month a = d_month b /\ d_day a <= d_day b))))%Z.
Proof.
  unfold date_compare.
  destruct (Z.compare_spec (d_year a) (d_year b));
    destruct (Z.compare_spec (d_month a) (d_month b));
    destruct (Z.compare_spec (d_day a) (d_day b));
    (split; [intros; try congruence; lia | intros; try discriminate; lia]).
Qed.

Lemma sort_key_le_spec (a b : Agg.Row) :
  sort_key_le a b = true
  <-> (fst (sort_key a) < fst (sort_key b)
       \/ (fst (sort_key a) = fst (sort_key b)
           /\ date_compare (snd (sort_key a)) (snd (sort_key b)) <> Gt))%Z.
Proof.
  unfold sort_key_le.
  destruct (Z.compare_spec (fst (sort_key a)) (fst (sort_key b))).
  - destruct (date_compare _ _); split; intros; try discriminate; try reflexivity.
    + right. split; [assumption | discriminate].
    + right. split; [assumption | discriminate].
    + destruct H0 as [H0|[_ H0]]; [lia | congruence].
  - split; [intros _; left; assumption | reflexivity].
  - split; [discriminate | intros [H0|[H0 _]]; lia].
Qed.

Lemma sort_key_le_total (a b : Agg.Row) : sort_key_le a b = false -> sort_key_le b a = true.
Proof.
  intros H. apply sort_key_le_spec.
  destruct (sort_key_le a b) eqn:E; [discriminate|]. clear H.
  assert (Hn : ~ (fst (sort_key a) < fst (sort_key b)
                  \/ (fst (sort_key a) = fst (sort_key b)
                      /\ date_compare (snd (sort_key a)) (snd (sort_key b)) <> Gt))%Z).
  { intros Hc. apply sort_key_le_spec in Hc. congruence. }
  rewrite date_compare_le in *. lia.
Qed.

Lemma sort_key_le_trans (a b c : Agg.Row) :
  sort_key_le a b = true -> sort_key_le b c = true -> sort_key_le a c = true.
Proof.
  rewrite !sort_key_le_spec, !date_compare_le. lia.
Qed.

Lemma insert_aggregated_ordered (x : Agg.Row) (l : list Agg.Row) :
  ForallOrdPairs (fun a b => sort_key_le a b = true) l ->
  ForallOrdPairs (fun a b => sort_key_le a b = true) (insert_aggregated x l).
Proof.
  induction 1 as [|y l Hy Hl IH]; simpl.
  - repeat constructor.
  - destruct (sort_key_le x y) eqn:E.
    + constructor; [|constructor; assumption].
      constructor; [exact E|].
      eapply List.Forall_impl; [|exact Hy]. intros z Hz. exact (sort_key_le_trans _ _ _ E Hz).
    + constructor; [|exact IH].
      apply List.Forall_forall. intros z Hz.
      apply (Permutation_in _ (Permutation_sym (insert_aggregated_perm x l))) in Hz.
      destruct Hz as [<-|Hz]; [apply sort_key_le_total, E|].
      rewrite List.Forall_forall in Hy. apply Hy, Hz.
Qed.

Lemma sort_aggregated_ordered (l : list Agg.Row) :
  ForallOrdPairs (fun a b => sort_key_le a b = true) (sort_aggregated l).
Proof.
  induction l as [|x l IH]; simpl; [constructor | apply insert_aggregated_ordered, IH].
Qed.

Lemma Qsum_concat {A : Type} (f : A -> list Q) (l : list A) :
  Qsum (map (fun k => Qsum (f k)) l) == Qsum (concat (map f l)).
Proof.
  induction l as [|k l IH]; [reflexivity|].
  cbn [map concat]. rewrite Qsum_cons, Qsum_app, IH. reflexivity.
Qed.

(** What [aggregate_data] returns for a table that is not empty. *)
Lemma aggregate_data_ok (df : list Sage.Row) :
  df <> [] ->
  aggregate_data df
  = Ok (sort_aggregated
          (map (fun key =>
                  aggregate_group key
                    (List.filter (fun r => bool_decide (aggregation_key r = key)) df))
               (fold_right insert_key [] (map aggregation_key df)))).
Proof. destruct df; [contradiction | reflexivity]. Qed.

Lemma aggregate_group_key (key : GroupKey) (group : list Sage.Row) :
  aggregated_key (aggregate_group key group) = key.
Proof. destruct key as [[[[[k1 k2] k3] k4] k5] k6]. reflexivity. Qed.

Lemma aggregate_group_total (key : GroupKey) (group : list Sage.Row) :
  Agg.Quantite_Theorique_Totale (aggregate_group key group)
  = Qsum (map (fun r => Orig.QUANTITE (Sage.line r)) group).
Proof. destruct key as [[[[[k1 k2] k3] k4] k5] k6]. reflexivity. Qed.

(** X25. For an extract that is not empty, [aggregate_data] and
    [generate_template] succeed and the template has exactly one row for
    each combination of article, status, location, zone, unit and
    inventory that occurs in the extract; every row has counted quantity
    0, and the theoretical quantities of the template add up to the
    total quantity of the extract.  On an empty table both calls
    raise. *)
Theorem template_covers_the_extract :
  forall (df : list Sage.Row) (session_id : string),
    df <> [] ->
    exists (aggregated : list Agg.Row) (filename : string) (template_rows : list Template.Row),
      aggregate_data df = Ok aggregated
      /\ generate_template aggregated session_id = Ok (filename, template_rows)
      /\ length template_rows = length aggregated
      /\ List.NoDup (map template_key template_rows)
      /\ (forall key : GroupKey,
            In key (map template_key template_rows)
            <-> exists r, In r df /\ aggregation_key r = key)
      /\ Forall (fun row => Template.Quantite_Reelle row = 0) template_rows
      /\ Qsum (map Template.Quantite_Theorique template_rows)
         == Qsum (map (fun r => Orig.QUANTITE (Sage.line r)) df)
      /\ aggregate_data [] = Raise "DataFrame vide pour l'agregation"
      /\ generate_template [] session_id
         = Raise ("Aucune donnee agregee pour la session " ++ session_id).
Proof.
  intros df session_id Hne.
  set (keys := fold_right insert_key [] (map aggregation_key df)).
  set (groups := map (fun key =>
                        aggregate_group key
                          (List.filter (fun r => bool_decide (aggregation_key r = key)) df))
                     keys).
  assert (Hperm : Permutation groups (sort_aggregated groups)) by apply sort_aggregated_perm.
  assert (Hkeys : map aggregated_key groups = keys).
  { subst groups. rewrite map_map. rewrite <- (map_id keys) at 2.
    apply map_ext. intros key. apply aggregate_group_key. }
  assert (Htkey : forall l, map template_key (map template_row l) = map aggregated_key l).
  { intros l. rewrite map_map. reflexivity. }
  exists (sort_aggregated groups).
  destruct (sort_aggregated groups) as [|first rest] eqn:Hsorted.
  { exfalso. apply Permutation_sym, Permutation_nil in Hperm.
    destruct df as [|r df]; [contradiction|].
    assert (Hin : In (aggregation_key r) keys)
      by (apply keys_In; exists r; split; [left|]; reflexivity).
    rewrite <- Hkeys, Hperm in Hin. exact Hin. }
  rewrite <- Hsorted in *. clear first rest Hsorted.
  assert (Htemplate : exists filename,
            generate_template (sort_aggregated groups) session_id
            = Ok (filename, map template_row (sort_aggregated groups))).
  { unfold generate_template. destruct (sort_aggregated groups) eqn:E.
    - apply Permutation_sym, Permutation_nil in Hperm.
      destruct df as [|r df]; [contradiction|].
      assert (Hin : In (aggregation_key r) keys)
        by (apply keys_In; exists r; split; [left|]; reflexivity).
      rewrite <- Hkeys, Hperm in Hin. destruct Hin.
    - eexists. reflexivity. }
  destruct Htemplate as [filename Htemplate].
  exists filename, (map template_row (sort_aggregated groups)).
  split; [apply aggregate_data_ok, Hne|]. split; [exact Htemplate|].
  split; [apply length_map|].
  assert (Hpk : Permutation keys (map template_key (map template_row (sort_aggregated groups)))).
  { rewrite Htkey, <- Hkeys. apply Permutation_map, Hperm. }
  split.
  { eapply Permutation_NoDup; [exact Hpk|]. apply ascending_NoDup, keys_ascending. }
  split.
  { intros key. rewrite <- (keys_In aggregation_key df key). fold keys.
    split; intros H.
    - eapply Permutation_in; [apply Permutation_sym, Hpk | exact H].
    - eapply Permutation_in; [exact Hpk | exact H]. }
  split.
  { apply List.Forall_forall. intros row Hrow. apply in_map_iff in Hrow as (a & <- & _).
    reflexivity. }
  split; [|split; reflexivity].
  rewrite map_map. cbn [template_row Template.Quantite_Theorique].
  rewrite <- (Qsum_perm _ _ (Permutation_map Agg.Quantite_Theorique_Totale Hperm)).
  subst groups. rewrite map_map.
  rewrite (map_ext _ (fun key =>
             Qsum (map (fun r => Orig.QUANTITE (Sage.line r))
                       (List.filter (fun r => bool_decide (aggregation_key r = key)) df))))
    by (intros key; apply aggregate_group_total).
  rewrite (Qsum_concat
             (fun key => map (fun r => Orig.QUANTITE (Sage.line r))
                             (List.filter (fun r => bool_decide (aggregation_key r = key)) df))).
  rewrite <- (map_map (fun key => List.filter (fun r => bool_decide (aggregation_key r = key)) df)
                      (map (fun r => Orig.QUANTITE (Sage.line r)))).
  rewrite <- concat_map.
  apply Qsum_perm, Permutation_map. apply (groups_partition aggregation_key).
Qed.

Lemma template_covers_the_extract_witness :
  let df := [ {| Sage.line := ex_lot_old; Sage.NUMERO_SESSION := "SES01"; Sage.SITE := "SITE1" |};
              {| Sage.line := ex_same_lot_emp2; Sage.NUMERO_SESSION := "SES01";
                 Sage.SITE := "SITE1" |};
              {| Sage.line := ex_lot_new; Sage.NUMERO_SESSION := "SES01"; Sage.SITE := "SITE1" |} ] in
  exists (aggregated : list Agg.Row) (filename : string) (template_rows : list Template.Row),
    aggregate_data df = Ok aggregated
    /\ generate_template aggregated "abcd1234" = Ok (filename, template_rows)
    /\ length template_rows = 2%nat
    /\ Qsum (map Template.Quantite_Theorique template_rows) == 20.
Proof.
  intros df.
  destruct (template_covers_the_extract df "abcd1234")
    as (aggregated & filename & template_rows & Ha & Ht & Hlen & _ & _ & _ & Hsum & _).
  - discriminate.
  - exists aggregated, filename, template_rows.
    split; [exact Ha|]. split; [exact Ht|]. split.
    + rewrite Hlen. vm_compute in Ha. injection Ha as <-. reflexivity.
    + rewrite Hsum. reflexivity.
Defined.

(** The order of [aggregated_df]. *)
Lemma aggregate_data_ordered (df : list Sage.Row) (aggregated : list Agg.Row) :
  aggregate_data df = Ok aggregated ->
  ForallOrdPairs (fun a b => sort_key_le a b = true) aggregated.
Proof.
  destruct df as [|r df]; [discriminate|].
  intros H. injection H as <-. apply sort_aggregated_ordered.
Qed.

(** X26. The rows of [aggregated_df], and with them the rows of the
    template, are ordered by the priority of their lot type ([type1],
    [type2], [lotecart], [unknown]) and, within a type, by date; a group
    without date stands for the first day of year 1, so within a type no
    group dated after that day comes before a group without date. *)
Theorem aggregated_rows_are_ordered :
  forall (df : list Sage.Row) (aggregated : list Agg.Row),
    aggregate_data df = Ok aggregated ->
    ForallOrdPairs
      (fun a b =>
         (type_priority (Agg.Type_Lot_Prioritaire a)
          <= type_priority (Agg.Type_Lot_Prioritaire b))%Z
         /\ (Agg.Type_Lot_Prioritaire a = Agg.Type_Lot_Prioritaire b ->
             (forall da db,
                Agg.Date_Min a = Some da -> Agg.Date_Min b = Some db ->
                date_compare da db <> Gt)
             /\ (forall da,
                   Agg.Date_Min a = Some da -> Agg.Date_Min b = None ->
                   date_compare da (mkDate 1 1 1) <> Gt)))
      aggregated.
Proof.
  intros df aggregated H. apply aggregate_data_ordered in H.
  induction H as [|a l Ha _ IH]; constructor; [|exact IH].
  eapply List.Forall_impl; [|exact Ha].
  intros b Hab. apply sort_key_le_spec in Hab. unfold sort_key in Hab. cbn [fst snd] in Hab.
  split; [lia|].
  intros Htype. rewrite Htype in Hab.
  destruct Hab as [Hlt|[_ Hle]]; [lia|].
  split.
  - intros da db Hda Hdb. rewrite Hda, Hdb in Hle. exact Hle.
  - intros da Hda Hdb. rewrite Hda, Hdb in Hle. exact Hle.
Qed.

Lemma aggregated_rows_are_ordered_witness :
  let df := [ {| Sage.line := ex_stock_line; Sage.NUMERO_SESSION := "SES01";
                 Sage.SITE := "SITE1" |};
              {| Sage.line := ex_lot_new; Sage.NUMERO_SESSION := "SES01"; Sage.SITE := "SITE1" |} ] in
  exists first second : Agg.Row,
    aggregate_data df = Ok [first; second]
    /\ Agg.CODE_ARTICLE first = "ART1"
    /\ (type_priority (Agg.Type_Lot_Prioritaire first)
        <= type_priority (Agg.Type_Lot_Prioritaire second))%Z.
Proof.
  intros df.
  destruct (aggregate_data df) as [aggregated|msg] eqn:E; [|vm_compute in E; discriminate].
  pose proof (aggregated_rows_are_ordered df aggregated E) as Hordered.
  vm_compute in E. injection E as <-.
  eexists _, _. split; [reflexivity|]. split; [reflexivity|].
  inversion Hordered as [|? ? Hfirst _]; subst.
  inversion Hfirst as [|? ? [Hle _] _]; subst. exact Hle.
Defined.

Lemma first_type_in_spec (priority_order lot_types : list LotType) :
  let result := first_type_in priority_order lot_types in
  (forall t, In t priority_order -> In t lot_types ->
     In result lot_types
     /\ exists before after,
          priority_order = (before ++ result :: after)%list
          /\ Forall (fun t' => ~ In t' lot_types) before)
  /\ ((forall t, In t priority_order -> ~ In t lot_types) -> result = unknown).
Proof.
  assert (Hex : forall p l, existsb (LotType_eqb p) l = true <-> In p l).
  { intros p l. rewrite existsb_exists. split.
    - intros [x [Hx He]]. destruct p, x; try discriminate; exact Hx.
    - intros Hp. exists p. split; [exact Hp | destruct p; reflexivity]. }
  induction priority_order as [|p priority_order IH]; cbn [first_type_in].
  - split; [intros t [] | reflexivity].
  - destruct (existsb (LotType_eqb p) lot_types) eqn:E.
    + apply Hex in E. split.
      * intros t _ _. split; [exact E|]. exists [], priority_order. split; [reflexivity|].
        constructor.
      * intros Hnone. exfalso. apply (Hnone p); [left; reflexivity | exact E].
    + assert (Hp : ~ In p lot_types) by (intros Hp; apply Hex in Hp; congruence).
      destruct IH as [IH1 IH2]. split.
      * intros t [->|Ht] Hin; [contradiction|].
        destruct (IH1 t Ht Hin) as (Hres & before & after & Heq & Hbefore).
        split; [exact Hres|]. exists (p :: before), after.
        split; [rewrite Heq at 1; reflexivity | constructor; assumption].
      * intros Hnone. apply IH2. intros t Ht. apply Hnone. right. exact Ht.
Qed.

Lemma date_compare_le_refl (x : Date) : date_compare x x <> Gt.
Proof. rewrite (proj2 (date_compare_eq x x) eq_refl). discriminate. Qed.

Lemma date_compare_le_trans (x y z : Date) :
  date_compare x y <> Gt -> date_compare y z <> Gt -> date_compare x z <> Gt.
Proof. rewrite !date_compare_le. lia. Qed.

Lemma earlier_date_le (smallest d : option Date) (x : Date) :
  smallest = Some x \/ d = Some x ->
  exists y, earlier_date smallest d = Some y /\ date_compare y x <> Gt.
Proof.
  intros [->| ->]; unfold earlier_date.
  - destruct d as [d'|]; [|exists x; split; [reflexivity | apply date_compare_le_refl]].
    destruct (date_compare d' x) eqn:E.
    + exists x. split; [reflexivity | apply date_compare_le_refl].
    + exists d'. split; [reflexivity | congruence].
    + exists x. split; [reflexivity | apply date_compare_le_refl].
  - destruct smallest as [m|]; [|exists x; split; [reflexivity | apply date_compare_le_refl]].
    destruct (date_compare x m) eqn:E.
    + exists m. split; [reflexivity|]. apply date_compare_eq in E. subst m.
      apply date_compare_le_refl.
    + exists x. split; [reflexivity | apply date_compare_le_refl].
    + exists m. split; [reflexivity|]. apply date_compare_gt in E. congruence.
Qed.

Lemma earlier_date_from (smallest d : option Date) (m : Date) :
  earlier_date smallest d = Some m -> smallest = Some m \/ d = Some m.
Proof.
  unfold earlier_date. destruct smallest as [s|]; [|auto].
  destruct d as [d'|]; [|auto].
  destruct (date_compare d' s); auto.
Qed.

Lemma date_min_fold (dates : list (option Date)) : forall smallest : option Date,
  (forall x, smallest = Some x \/ In (Some x) dates ->
     exists m, fold_left earlier_date dates smallest = Some m /\ date_compare m x <> Gt)
  /\ (forall m, fold_left earlier_date dates smallest = Some m ->
        smallest = Some m \/ In (Some m) dates).
Proof.
  induction dates as [|d dates IH]; intros smallest; cbn [fold_left].
  - split.
    + intros x [->|[]]. exists x. split; [reflexivity | apply date_compare_le_refl].
    + intros m ->. left. reflexivity.
  - destruct (IH (earlier_date smallest d)) as [IH1 IH2]. split.
    + intros x [Hx|[Hx|Hx]].
      * destruct (earlier_date_le smallest d x (or_introl Hx)) as (y & Hy & Hyx).
        destruct (IH1 y (or_introl Hy)) as (m & Hm & Hmy).
        exists m. split; [exact Hm | eapply date_compare_le_trans; eassumption].
      * destruct (earlier_date_le smallest d x (or_intror Hx)) as (y & Hy & Hyx).
        destruct (IH1 y (or_introl Hy)) as (m & Hm & Hmy).
        exists m. split; [exact Hm | eapply date_compare_le_trans; eassumption].
      * exact (IH1 x (or_intror Hx)).
    + intros m Hm. destruct (IH2 m Hm) as [Hs|Hin]; [|right; right; exact Hin].
      destruct (earlier_date_from _ _ _ Hs) as [H|H]; [left; exact H | right; left; exact H].
Qed.

Lemma aggregate_group_summary (key : GroupKey) (group : list Sage.Row) :
  Agg.Date_Min (aggregate_group key group)
  = date_min (map (fun r => Orig.Date_Lot (Sage.line r)) group)
  /\ Agg.Type_Lot_Prioritaire (aggregate_group key group)
     = _get_priority_lot_type (map (fun r => Orig.Type_Lot (Sage.line r)) group).
Proof. destruct key as [[[[[k1 k2] k3] k4] k5] k6]. split; reflexivity. Qed.

(** X27. Each row of [aggregated_df] summarises the lines of the extract
    that have its key, of which there is at least one: its quantity is
    the sum of theirs; its lot type is the type of one of them and no
    line of the group has a type of higher priority; its date, when it
    has one, is the date of one of them and no line of the group has an
    earlier date, and it has none only when no line of the group has a
    date. *)
Theorem aggregated_row_summarises_its_lines :
  forall (df : list Sage.Row) (aggregated : list Agg.Row) (row : Agg.Row),
    aggregate_data df = Ok aggregated ->
    In row aggregated ->
    let group :=
      List.filter (fun r => bool_decide (aggregation_key r = aggregated_key row)) df in
    group <> []
    /\ Agg.Quantite_Theorique_Totale row
       = Qsum (map (fun r => Orig.QUANTITE (Sage.line r)) group)
    /\ (exists r, In r group /\ Orig.Type_Lot (Sage.line r) = Agg.Type_Lot_Prioritaire row)
    /\ (forall r, In r group ->
          (type_priority (Agg.Type_Lot_Prioritaire row)
           <= type_priority (Orig.Type_Lot (Sage.line r)))%Z)
    /\ (forall m, Agg.Date_Min row = Some m ->
          exists r, In r group /\ Orig.Date_Lot (Sage.line r) = Some m)
    /\ (forall r d, In r group -> Orig.Date_Lot (Sage.line r) = Some d ->
          exists m, Agg.Date_Min row = Some m /\ date_compare m d <> Gt).
Proof.
  intros df aggregated row Hagg Hin group.
  assert (Hne0 : df <> []) by (intros ->; discriminate Hagg).
  rewrite (aggregate_data_ok df Hne0) in Hagg. injection Hagg as <-.
  apply (Permutation_in _ (Permutation_sym (sort_aggregated_perm _))) in Hin.
  apply in_map_iff in Hin as (key & <- & Hkey).
  subst group. rewrite aggregate_group_key.
  set (group := List.filter (fun r => bool_decide (aggregation_key r = key)) df).
  apply keys_In in Hkey as (r & Hr & Hrk).
  assert (Hmem : In r group)
    by (apply filter_In; split; [exact Hr | apply bool_decide_eq_true, Hrk]).
  destruct (aggregate_group_summary key group) as [Hdate Htype].
  split; [intros E; rewrite E in Hmem; exact Hmem|].
  split; [apply aggregate_group_total|].
  rewrite Hdate, Htype.
  pose proof (first_type_in_spec [type1; type2; lotecart; unknown]
                (map (fun r => Orig.Type_Lot (Sage.line r)) group)) as [Hfirst _].
  fold (_get_priority_lot_type (map (fun r => Orig.Type_Lot (Sage.line r)) group)) in Hfirst.
  assert (Hall : forall t : LotType, In t [type1; type2; lotecart; unknown])
    by (intros []; simpl; tauto).
  destruct (Hfirst (Orig.Type_Lot (Sage.line r)) (Hall _) (in_map _ _ _ Hmem))
    as (Hres & before & after & Horder & Hbefore).
  split.
  { apply in_map_iff in Hres as (r' & Hr' & Hin'). exists r'. auto. }
  split.
  { intros r' Hr'.
    assert (Hnot : ~ In (Orig.Type_Lot (Sage.line r')) before).
    { intros Hb. rewrite List.Forall_forall in Hbefore.
      exact (Hbefore _ Hb (in_map (fun r => Orig.Type_Lot (Sage.line r)) _ _ Hr')). }
    revert Horder Hnot.
    generalize (_get_priority_lot_type (map (fun r => Orig.Type_Lot (Sage.line r)) group)).
    generalize (Orig.Type_Lot (Sage.line r')).
    intros t result Horder Hnot.
    destruct before as [|b1 [|b2 [|b3 [|b4 before]]]]; cbn [app] in Horder;
      injection Horder; intros; subst;
      destruct t; cbn [type_priority]; try lia;
      exfalso; apply Hnot; simpl; tauto. }
  destruct (date_min_fold (map (fun r => Orig.Date_Lot (Sage.line r)) group) None)
    as [Hmin Hfrom].
  fold (date_min (map (fun r => Orig.Date_Lot (Sage.line r)) group)) in Hmin, Hfrom.
  split.
  - intros m Hm. destruct (Hfrom m Hm) as [H|H]; [discriminate|].
    apply in_map_iff in H as (r' & Hd & Hr'). exists r'. auto.
  - intros r' d Hr' Hd. apply Hmin. right. rewrite <- Hd.
    exact (in_map (fun r => Orig.Date_Lot (Sage.line r)) _ _ Hr').
Qed.

Lemma aggregated_row_summarises_its_lines_witness :
  let df := [ {| Sage.line := ex_lot_new; Sage.NUMERO_SESSION := "SES01"; Sage.SITE := "SITE1" |};
              {| Sage.line := ex_lot_old; Sage.NUMERO_SESSION := "SES01"; Sage.SITE := "SITE1" |} ] in
  exists row : Agg.Row,
    aggregate_data df = Ok [row]
    /\ Agg.Type_Lot_Prioritaire row = type1
    /\ exists m, Agg.Date_Min row = Some m /\ date_compare m (mkDate 2025 1 1) <> Gt.
Proof.
  intros df.
  destruct (aggregate_data df) as [aggregated|msg] eqn:E; [|vm_compute in E; discriminate].
  assert (Hrow : exists row, aggregated = [row])
    by (vm_compute in E; injection E as <-; eexists; reflexivity).
  destruct Hrow as [row ->].
  destruct (aggregated_row_summarises_its_lines df [row] row E (or_introl eq_refl))
    as (_ & _ & _ & _ & _ & Hmin).
  exists row. split; [reflexivity|]. split.
  - vm_compute in E. injection E as <-. reflexivity.
  - apply (Hmin {| Sage.line := ex_lot_old; Sage.NUMERO_SESSION := "SES01";
                   Sage.SITE := "SITE1" |}).
    + vm_compute in E. injection E as <-. right. left. reflexivity.
    + reflexivity.
Defined.

End AggregationProperties.

(** ** Session: found stock across two templates *)

Lemma process_completed_file_saves (to_numeric : string -> option Q)
    (session session1 : Session) (completed : list Tpl.Row) :
  process_completed_file to_numeric session completed = Some (Ok session1) ->
  header_lines session1 = header_lines session
  /\ original_df session1 = original_df session
  /\ completed_df session1 = Some completed
  /\ discrepancies_df session1
     = _calculate_discrepancies completed (default [] (original_df session))
  /\ lotecart_candidates session1
     = match detect_lotecart_candidates to_numeric completed with
       | [] => lotecart_candidates session
       | candidates => Some candidates
       end
  /\ exists original, original_df session = Some original.
Proof.
  unfold process_completed_file. intros H.
  destruct (original_df session) as [original|] eqn:Eo; [|discriminate].
  cbn [default from_option id].
  destruct (_calculate_discrepancies completed original) as [discrepancies|]; [|discriminate].
  injection H as <-.
  cbn [header_lines original_df completed_df discrepancies_df lotecart_candidates].
  repeat split; try reflexivity.
  - destruct (detect_lotecart_candidates to_numeric completed); reflexivity.
  - exists original. reflexivity.
Qed.

(** X28. The found-stock candidates of a session are replaced only by a
    template that has candidates of its own.  When a first template with
    found stock is followed by a second template without any, the
    candidates of the first stay in the session, and the table that
    [distribute_discrepancies] then computes from the second template
    still ends with the adjustments built from the candidates of the
    first. *)
Theorem found_stock_survives_a_new_template :
  forall (to_numeric : string -> option Q) (session session1 session2 session3 : Session)
         (first_template second_template : list Tpl.Row) (original : list Orig.Row)
         (strategy : Strategy) (distributed : list Row) (log : list LogEvent),
    original_df session = Some original ->
    process_completed_file to_numeric session first_template = Some (Ok session1) ->
    detect_lotecart_candidates to_numeric first_template <> [] ->
    process_completed_file to_numeric session1 second_template = Some (Ok session2) ->
    detect_lotecart_candidates to_numeric second_template = [] ->
    distribute_discrepancies session2 strategy = Ok (session3, distributed, log) ->
    lotecart_candidates session2
    = Some (detect_lotecart_candidates to_numeric first_template)
    /\ completed_df session2 = Some second_template
    /\ exists rows : list Row,
         distributed
         = (rows
            ++ map with_saisie
                 (fst (create_lotecart_adjustments
                         (detect_lotecart_candidates to_numeric first_template) original)))%list
         /\ length rows = length original.
Proof.
  intros to_numeric session session1 session2 session3 first_template second_template
         original strategy distributed log Horiginal Hfirst Hfound Hsecond Hnone Hdistribute.
  destruct (process_completed_file_saves _ _ _ _ Hfirst) as (_ & Ho1 & _ & _ & Hc1 & _).
  destruct (process_completed_file_saves _ _ _ _ Hsecond) as (_ & Ho2 & Hcompleted & Hd2 & Hc2 & _).
  rewrite Hnone in Hc2. rewrite Hc2, Hc1.
  assert (Hcandidates : lotecart_candidates session2
                        = Some (detect_lotecart_candidates to_numeric first_template)).
  { rewrite Hc2, Hc1.
    destruct (detect_lotecart_candidates to_numeric first_template); [contradiction|].
    reflexivity. }
  rewrite Hc2, Hc1 in Hcandidates.
  split; [exact Hcandidates|]. split; [exact Hcompleted|].
  rewrite Ho1, Horiginal in Ho2. rewrite Ho1, Horiginal in Hd2. cbn [default from_option id] in Hd2.
  unfold distribute_discrepancies in Hdistribute.
  destruct (discrepancies_df session2) as [discrepancies|] eqn:Ed; [|discriminate].
  destruct (distribute_groups_lines strategy (groupby discrepancies))
    as (lines & Hperm & Hrows).
  destruct (distribute_groups strategy (groupby discrepancies)) as [rows log1].
  assert (Hadj : session_lotecart_adjustments session2
                 = create_lotecart_adjustments
                     (detect_lotecart_candidates to_numeric first_template) original).
  { unfold session_lotecart_adjustments. rewrite Hc2, Hc1, Hcandidates, Ho2.
    destruct (detect_lotecart_candidates to_numeric first_template); [contradiction|].
    reflexivity. }
  rewrite Hadj in Hdistribute.
  destruct (create_lotecart_adjustments _ original) as [adjustments log2].
  injection Hdistribute as _ <- _.
  exists rows. split; [reflexivity|].
  cbn [fst] in Hrows. rewrite <- (Forall2_length _ _ _ Hrows).
  rewrite (Permutation_length Hperm), (Permutation_length (groupby_partition discrepancies)).
  symmetry in Hd2. apply calculate_discrepancies_rows_spec in Hd2.
  symmetry. apply (Forall2_length _ _ _ Hd2).
Qed.

Lemma found_stock_survives_a_new_template_witness :
  let original := [ex_zero_line; ex_stock_line] in
  let first_template := [ex_counted "ART2" 0 7] in
  let second_template := [ex_counted "ART3" 4 4] in
  exists (session1 session2 session3 : Session) (distributed rows : list Row)
         (log : list LogEvent),
    process_completed_file decimal_literal (ex_session original) first_template
    = Some (Ok session1)
    /\ process_completed_file decimal_literal session1 second_template = Some (Ok session2)
    /\ distribute_discrepancies session2 FIFO = Ok (session3, distributed, log)
    /\ distributed
       = (rows
          ++ map with_saisie
               (fst (create_lotecart_adjustments
                       (detect_lotecart_candidates decimal_literal first_template)
                       original)))%list
    /\ length rows = 2%nat.
Proof.
  intros original first_template second_template.
  destruct (process_completed_file decimal_literal (ex_session original) first_template)
    as [[session1|msg]|] eqn:E1; [|vm_compute in E1; discriminate..].
  destruct (process_completed_file decimal_literal session1 second_template)
    as [[session2|msg]|] eqn:E2;
    [|exfalso; vm_compute in E1; injection E1 as <-; vm_compute in E2; discriminate..].
  destruct (distribute_discrepancies session2 FIFO)
    as [[[session3 distributed] log]|msg] eqn:E3;
    [|exfalso; vm_compute in E1; injection E1 as <-; vm_compute in E2; injection E2 as <-;
      vm_compute in E3; discriminate].
  destruct (found_stock_survives_a_new_template decimal_literal (ex_session original)
              session1 session2 session3 first_template second_template original FIFO
              distributed log eq_refl E1 ltac:(vm_compute; discriminate) E2
              ltac:(vm_compute; reflexivity) E3)
    as (_ & _ & rows & Hdistributed & Hlen).
  exists session1, session2, session3, distributed, rows, log.
  repeat split; try reflexivity; assumption.
Defined.

(** ** Validation of the final file *)

(** The text of some fields, each followed by a separator. *)
Lemma join_app_fields (a b : list string) :
  b <> [] ->
  join ";" (a ++ b) = fold_right (fun x r => x ++ ";" ++ r) (join ";" b) a.
Proof.
  intros Hb. induction a as [|x a IH]; [reflexivity|].
  cbn [app fold_right]. rewrite <- IH.
  destruct (a ++ b)%list as [|y l] eqn:E; [|reflexivity].
  apply app_eq_nil in E as [_ E]. contradiction.
Qed.

Lemma split_fields_then (a : list string) (s : string) :
  Forall no_sep a ->
  split ";" (fold_right (fun x r => x ++ ";" ++ r) s a) = (a ++ split ";" s)%list.
Proof.
  induction 1 as [|x a Hx _ IH]; [reflexivity|].
  cbn [fold_right app].
  destruct (split ";" (fold_right (fun x r => x ++ ";" ++ r) s a)) as [|f fs] eqn:E.
  { destruct a; cbn [app] in IH; [|discriminate].
    exfalso. revert IH. clear. destruct s; simpl; [discriminate|].
    destruct (Ascii.eqb _ _); [discriminate|]. destruct (split ";" s); discriminate. }
  rewrite <- IH.
  rewrite (split_app_field ";" x _ "" (f :: fs) Hx).
  - rewrite string_app_nil_r. reflexivity.
  - rewrite string_app_cons, string_app_nil_l. cbn [split]. rewrite Ascii.eqb_refl, E.
    reflexivity.
Qed.

Lemma fields_then_app (a : list string) (s t : string) :
  fold_right (fun x r => x ++ ";" ++ r) (s ++ t) a
  = fold_right (fun x r => x ++ ";" ++ r) s a ++ t.
Proof.
  induction a as [|x a IH]; [reflexivity|].
  cbn [fold_right]. rewrite IH, !string_app_assoc. reflexivity.
Qed.

Lemma rstrip_with_fields_then f (a : list string) (s : string) :
  rstrip_with f s <> "" ->
  rstrip_with f (fold_right (fun x r => x ++ ";" ++ r) s a)
  = fold_right (fun x r => x ++ ";" ++ r) (rstrip_with f s) a.
Proof.
  intros Hs. induction a as [|x a IH]; [reflexivity|].
  cbn [fold_right].
  assert (Hne : rstrip_with f (fold_right (fun x r => x ++ ";" ++ r) s a) <> "").
  { rewrite IH. destruct a as [|y a]; [exact Hs|].
    cbn [fold_right]. intros E. apply string_app_empty in E as [_ E].
    apply string_app_empty in E as [E _]. discriminate. }
  rewrite rstrip_with_app_keep.
  - rewrite rstrip_with_app_keep by exact Hne. rewrite IH. reflexivity.
  - rewrite rstrip_with_app_keep by exact Hne. intros E.
    apply string_app_empty in E as [E _]. discriminate.
Qed.

Lemma join_In (x : string) (l : list string) :
  In x l -> exists u v, join ";" l = u ++ x ++ v.
Proof.
  induction l as [|y l IH]; intros Hin; [inversion Hin|].
  destruct l as [|z l].
  - destruct Hin as [->|[]]. exists "", "". cbn [join]. rewrite string_app_nil_r. reflexivity.
  - change (join ";" (y :: z :: l)) with (y ++ ";" ++ join ";" (z :: l)).
    destruct Hin as [->|Hin].
    + exists "", (";" ++ join ";" (z :: l)). reflexivity.
    + destruct (IH Hin) as (u & v & ->). exists (y ++ ";" ++ u), v.
      rewrite !string_app_assoc. reflexivity.
Qed.

Lemma contains_text_app (needle u v : string) :
  contains_text needle (u ++ needle ++ v) = true.
Proof.
  induction u as [|c u IH].
  - rewrite string_app_nil_l.
    assert (Hs : startswith needle (needle ++ v) = true)
      by (unfold startswith; rewrite take_literal_app; reflexivity).
    destruct (needle ++ v); cbn [contains_text]; rewrite Hs; reflexivity.
  - rewrite string_app_cons. cbn [contains_text]. rewrite IH.
    destruct (startswith needle _); reflexivity.
Qed.

(** Trimming the right end of a text leaves the word [LOTECART], and all
    that stands before it, in place. *)
Lemma rstrip_keeps_lotecart (u v : string) :
  exists v',
    rstrip_with is_py_space (u ++ "LOTECART" ++ v) = u ++ "LOTECART" ++ v'
    /\ rstrip_with is_py_space ("LOTECART" ++ v) = "LOTECART" ++ v'.
Proof.
  assert (Hword : exists v', rstrip_with is_py_space ("LOTECART" ++ v) = "LOTECART" ++ v').
  { destruct (rstrip_with is_py_space v) as [|c t] eqn:E.
    - exists "". rewrite (rstrip_with_app_drop _ _ _ E). reflexivity.
    - exists (String c t). rewrite rstrip_with_app_keep by (rewrite E; discriminate).
      rewrite E. reflexivity. }
  destruct Hword as [v' Hv']. exists v'. split; [|exact Hv'].
  rewrite rstrip_with_app_keep by (rewrite Hv'; discriminate).
  rewrite Hv'. reflexivity.
Qed.

(** A line written by the regenerator, read back: it is recognised as a
    LOTECART line and its indicator is the field that was written. *)
Lemma written_line_read_back (parts : list string) (line_end : string) :
  (15 <= length parts)%nat ->
  parts !! 0%nat = Some "S" ->
  Forall no_sep (firstn 8 parts) ->
  parts !! 14%nat = Some "LOTECART" ->
  let line := py_strip (join ";" parts ++ line_end) in
  startswith "S;" line = true
  /\ contains_text "LOTECART" line = true
  /\ forall i : nat, (i < 8)%nat -> split ";" line !! i = parts !! i.
Proof.
  intros Hlen H0 Hns H14 line.
  assert (Hparts : parts = (firstn 8 parts ++ skipn 8 parts)%list)
    by (symmetry; apply firstn_skipn).
  assert (Hrest : In "LOTECART" (skipn 8 parts)).
  { apply list_elem_of_In, list_elem_of_lookup. exists 6%nat.
    rewrite lookup_drop. exact H14. }
  assert (Hne : skipn 8 parts <> []) by (intros E; rewrite E in Hrest; exact Hrest).
  destruct (join_In _ _ Hrest) as (u & v & Hjoin).
  assert (Hwritten : join ";" parts
                     = fold_right (fun x r => x ++ ";" ++ r) (u ++ "LOTECART" ++ v)
                                  (firstn 8 parts)).
  { rewrite Hparts at 1. rewrite (join_app_fields _ _ Hne), Hjoin. reflexivity. }
  destruct (rstrip_keeps_lotecart u (v ++ line_end)) as (v' & Hstrip & _).
  assert (Hfirst : exists others, firstn 8 parts = "S" :: others).
  { destruct parts as [|p parts]; [simpl in Hlen; lia|].
    cbn in H0. injection H0 as ->. eexists. reflexivity. }
  destruct Hfirst as [others Hfirst].
  assert (Hline : line = fold_right (fun x r => x ++ ";" ++ r) (u ++ "LOTECART" ++ v')
                                    (firstn 8 parts)).
  { subst line. rewrite Hwritten, <- fields_then_app.
    rewrite !string_app_assoc. unfold py_strip.
    rewrite lstrip_with_fixed by (rewrite Hfirst; reflexivity).
    rewrite rstrip_with_fields_then by (rewrite Hstrip; destruct u; discriminate).
    rewrite Hstrip. reflexivity. }
  rewrite Hline. split; [|split].
  - rewrite Hfirst. reflexivity.
  - rewrite <- (string_app_nil_l (u ++ "LOTECART" ++ v')) at 1.
    rewrite fields_then_app.
    rewrite <- string_app_assoc. apply contains_text_app.
  - intros i Hi. rewrite (split_fields_then _ _ Hns).
    rewrite lookup_app_l by (rewrite length_firstn; lia).
    rewrite lookup_take_lt by lia. reflexivity.
Qed.

Lemma collect_lotecart_lines_In (lines : list string) (file_line : string) :
  In file_line lines ->
  startswith "S;" (py_strip file_line) = true ->
  contains_text "LOTECART" (py_strip file_line) = true ->
  forall line_num : nat,
    exists entry : LotecartLine,
      In entry (collect_lotecart_lines line_num lines)
      /\ indicateur entry = part_or_na (split ";" (py_strip file_line)) 7.
Proof.
  intros Hin Hs Hc. induction lines as [|l lines IH]; intros line_num; [inversion Hin|].
  cbn [collect_lotecart_lines].
  destruct Hin as [->|Hin].
  - rewrite Hs, Hc. cbn [andb]. eexists. split; [left; reflexivity | reflexivity].
  - destruct (IH Hin (S line_num)) as (entry & Hentry & Hind).
    exists entry. split; [|exact Hind].
    destruct (startswith "S;" (py_strip l) && contains_text "LOTECART" (py_strip l));
      [right|]; exact Hentry.
Qed.

Lemma validation_fails_on_indicator (final_file_path : string) (lines : list string)
    (expected_lotecart_count : nat) (entry : LotecartLine) :
  In entry (collect_lotecart_lines 1 lines) ->
  indicateur entry <> "2" ->
  success (validate_lotecart_processing final_file_path (Some lines) expected_lotecart_count)
  = false.
Proof.
  intros Hin Hind. unfold validate_lotecart_processing.
  destruct (String.eqb final_file_path "" || (expected_lotecart_count =? 0)%nat);
    [reflexivity|].
  cbv zeta.
  destruct (List.filter (fun line => negb (String.eqb (indicateur line) "2"))
                        (collect_lotecart_lines 1 lines)) as [|bad others] eqn:E.
  - exfalso.
    assert (Hmem : In entry (List.filter (fun line => negb (String.eqb (indicateur line) "2"))
                                         (collect_lotecart_lines 1 lines))).
    { apply filter_In. split; [exact Hin|]. apply negb_true_iff, String.eqb_neq, Hind. }
    rewrite E in Hmem. exact Hmem.
  - cbn [success]. destruct (length _ <? _)%nat; reflexivity.
Qed.

Lemma take_no_sep_insert (parts : list string) (i : nat) (x : string) :
  Forall no_sep (firstn 8 parts) -> no_sep x ->
  Forall no_sep (firstn 8 (<[i := x]> parts)).
Proof.
  intros H Hx. destruct (decide (i < 8)%nat) as [Hi|Hi].
  - rewrite take_insert_lt by lia. apply Forall_insert; assumption.
  - rewrite take_insert_ge by lia. exact H.
Qed.

Lemma take_no_sep_insert_far (parts : list string) (i : nat) (x : string) :
  (8 <= i)%nat -> Forall no_sep (firstn 8 parts) ->
  Forall no_sep (firstn 8 (<[i := x]> parts)).
Proof. intros Hi H. rewrite take_insert_ge by lia. exact H. Qed.

Lemma startswith_S_first_field (raw : string) :
  startswith "S;" raw = true -> split ";" raw !! 0%nat = Some "S".
Proof.
  intros H. rewrite startswith_cons in H. destruct raw as [|c1 raw]; [discriminate|].
  apply andb_true_iff in H as [H1 H2]. rewrite startswith_cons in H2.
  destruct raw as [|c2 raw]; [discriminate|].
  apply andb_true_iff in H2 as [H2 _].
  apply Ascii.eqb_eq in H1, H2. subst c1 c2.
  cbn [split]. change (Ascii.eqb "S" ";") with false. cbn [split].
  rewrite Ascii.eqb_refl. reflexivity.
Qed.

(** X29. The validation of the final file counts as correct only the
    LOTECART lines with indicator 2, and it cannot succeed when no
    LOTECART line is expected.  The regenerator, however, writes
    indicator 1 on the line of an existing lot that received found stock,
    as soon as the quantity is at least [0.000000001].  A final file that
    holds such a line therefore never validates: whatever the other lines
    and the expected count, [success] is false. *)
Theorem validation_rejects_updated_lines :
  forall (py_float : string -> option Q)
         (adjustments : gmap (string * string * string) AdjustmentData)
         (emplacements : gmap (string * string) string)
         (original_row : Orig.Row) (data : AdjustmentData),
    adjustments !! original_key original_row = Some data ->
    type_lot data = lotecart ->
    (1 # 1000000000 <= Qabs (qte_theo_ajustee data))%Q ->
    startswith "S;" (Orig.original_s_line_raw original_row) = true ->
    (15 <= length (split ";" (Orig.original_s_line_raw original_row)))%nat ->
    exists parts : list string,
      replay_line py_float adjustments emplacements original_row = Some parts
      /\ parts !! 7%nat = Some "1"
      /\ parts !! 14%nat = Some "LOTECART"
      /\ (forall (final_file_path line_end : string) (lines : list string)
                 (expected_lotecart_count : nat),
            In (join ";" parts ++ line_end) lines ->
            success (validate_lotecart_processing final_file_path (Some lines)
                       expected_lotecart_count) = false)
      /\ (forall (final_file_path : string) (lines : option (list string)),
            validate_lotecart_processing final_file_path lines 0
            = {| success := false; lotecart_lines_found := 0; correct_indicators := 0;
                 issues := [ParametresManquants] |}).
Proof.
  intros py_float adjustments emplacements original_row data Hdata Htype Hq Hs Hlen.
  destruct (replay_line_written py_float adjustments emplacements original_row Hlen)
    as [parts Hreplay].
  destruct (replay_line_adjusted _ _ _ _ _ _ Hdata Hreplay)
    as (_ & Hl & _ & _ & H7 & H14).
  rewrite Htype in H14. cbn [LotType_eqb] in H14.
  assert (Hone : count_indicator (qte_theo_ajustee data) = "1").
  { unfold count_indicator, _zero_epsilon.
    destruct (Qgt_bool _ _) eqn:E; [|reflexivity]. qbool. lra. }
  rewrite Hone in H7.
  exists parts. split; [exact Hreplay|]. split; [exact H7|]. split; [exact H14|].
  split.
  - intros final_file_path line_end lines expected Hin.
    assert (H0 : parts !! 0%nat = Some "S" /\ Forall no_sep (firstn 8 parts)).
    { pose proof (startswith_S_first_field _ Hs) as Hfirst.
      assert (Hns : Forall no_sep
                      (firstn 8 (split ";" (Orig.original_s_line_raw original_row))))
        by apply Forall_take, split_fields_no_sep.
      revert Hreplay. unfold replay_line.
      apply Nat.leb_le in Hlen. rewrite Hlen, Hdata, Htype. cbn [LotType_eqb].
      intros Hreplay. injection Hreplay as <-.
      assert (Hind : no_sep (count_indicator (qte_theo_ajustee data)))
        by (rewrite Hone; reflexivity).
      assert (Hnum : no_sep (_to_csv_number py_float (VNum (qte_theo_ajustee data)) ",")).
      { unfold _to_csv_number. cbn [String.eqb Ascii.eqb Bool.eqb].
        apply replace_char_no_sep; [discriminate | apply format_number_no_sep]. }
      assert (Hq5 : no_sep (nth 5 (split ";" (Orig.original_s_line_raw original_row)) "")).
      { pose proof (split_fields_no_sep ";" (Orig.original_s_line_raw original_row)) as Hall.
        rewrite List.Forall_forall in Hall. apply Hall, nth_In.
        apply Nat.leb_le in Hlen. lia. }
      destruct (emplacements !! _); split; parts_lookup; try exact Hfirst;
        repeat first [ apply take_no_sep_insert_far; [lia|]
                     | apply take_no_sep_insert; [|assumption] ];
        exact Hns. }
    destruct H0 as [H0 Hns].
    assert (Hlen' : (15 <= length parts)%nat) by (rewrite Hl; exact Hlen).
    destruct (written_line_read_back parts line_end Hlen' H0 Hns H14)
      as (Hstart & Hword & Hfield).
    destruct (collect_lotecart_lines_In lines _ Hin Hstart Hword 1%nat)
      as (entry & Hentry & Hind).
    apply (validation_fails_on_indicator _ _ _ entry Hentry).
    rewrite Hind. unfold part_or_na. rewrite (Hfield 7%nat) by lia. rewrite H7. discriminate.
  - intros final_file_path lines. unfold validate_lotecart_processing.
    rewrite orb_true_r. reflexivity.
Qed.

Lemma validation_rejects_updated_lines_witness :
  let adjustments :=
    adjustments_dict
      [lotecart_adjustment "ART2" "INV01" "LOT010125" 7 None
         (Some (Orig.original_s_line_raw ex_zero_line)) None false] in
  exists parts : list string,
    replay_line decimal_literal adjustments ∅ ex_zero_line = Some parts
    /\ join ";" parts = "S;SES01;INV01;4000;SITE1;0;7;1;ART2;EMP1;A;UN;0;ZONE1;LOTECART"
    /\ success (validate_lotecart_processing "final.csv"
                  (Some ["E;SES01;HEADER" ++ String (ascii_of_nat 10) "";
                         join ";" parts ++ String (ascii_of_nat 10) ""]) 1) = false.
Proof.
  intros adjustments.
  destruct (validation_rejects_updated_lines decimal_literal adjustments ∅ ex_zero_line
              {| qte_theo_ajustee := 7; qte_reelle_saisie := 7; type_lot := lotecart |})
    as (parts & Hreplay & _ & _ & Hfails & _).
  - vm_compute. reflexivity.
  - reflexivity.
  - vm_compute. discriminate.
  - vm_compute. reflexivity.
  - vm_compute. lia.
  - exists parts. split; [exact Hreplay|]. split.
    + vm_compute in Hreplay. injection Hreplay as <-. vm_compute. reflexivity.
    + apply (Hfails "final.csv" (String (ascii_of_nat 10) "")). right. left. reflexivity.
Defined.

(** The fields of an appended line. *)
Lemma appended_line_parts (py_float : string -> option Q) (py_int : string -> option Z)
    (distributed : list Row) (original : list Orig.Row) (i : nat) (line : string) :
  appended_lines py_float py_int distributed original !! i = Some line ->
  exists parts : list string,
    line = join ";" parts
    /\ split ";" line = parts
    /\ (15 <= length parts)%nat
    /\ Forall no_sep parts
    /\ parts !! 5%nat = Some "0"
    /\ parts !! 7%nat = Some "2"
    /\ parts !! 14%nat = Some "LOTECART".
Proof.
  intros H. apply appended_line_lookup in H as (adjustment & parts & _ & Hlen & Hns & ->).
  set (rank := (max_line_number_of py_int original + 1000 * (Z.of_nat i + 1))%Z).
  destruct (lotecart_line_parts_ok py_float adjustment parts rank Hlen Hns)
    as (Hl & Hns' & _ & H5 & H7 & H14).
  set (new_parts := lotecart_line_parts py_float adjustment parts rank) in *.
  assert (Hne : new_parts <> []) by (intros E; rewrite E in Hl; simpl in Hl; lia).
  assert (Hsplit : split ";" (join ";" new_parts) = new_parts) by (apply split_join; assumption).
  unfold adapt_lotecart_line. rewrite Hsplit.
  assert (Hleb : (15 <=? length new_parts)%nat = true) by (apply Nat.leb_le; lia).
  rewrite Hleb.
  set (final := <[6%nat := replace_char "." "," (nth 5 new_parts "")]>
                  (<[5%nat := "0"]> new_parts)).
  assert (Hfinal : Forall no_sep final).
  { subst final. apply Forall_insert; [apply Forall_insert; [exact Hns' | reflexivity]|].
    rewrite (nth_lookup_Some _ _ "" _ H5).
    apply replace_char_no_sep; [discriminate | apply format_number_no_sep]. }
  exists final. split; [reflexivity|]. split.
  - apply split_join; [|exact Hfinal].
    intros E. apply (f_equal length) in E. subst final.
    rewrite !length_insert in E. simpl in E. lia.
  - subst final. split; [rewrite !length_insert; lia|]. split; [exact Hfinal|].
    repeat split; parts_lookup; assumption || reflexivity.
Qed.

Lemma collect_lotecart_lines_skip (headers rest : list string) : forall line_num : nat,
  Forall (fun h => startswith "S;" (py_strip h) = false) headers ->
  collect_lotecart_lines line_num (headers ++ rest)
  = collect_lotecart_lines (line_num + length headers) rest.
Proof.
  induction headers as [|h headers IH]; intros line_num H.
  - cbn [app length]. rewrite Nat.add_0_r. reflexivity.
  - inversion H as [|? ? Hh Hrest]; subst. cbn [app collect_lotecart_lines length].
    rewrite Hh. cbn [andb]. rewrite (IH (S line_num) Hrest). f_equal. lia.
Qed.

Lemma collect_lotecart_lines_all (lines : list string) : forall line_num : nat,
  Forall (fun l => startswith "S;" (py_strip l) = true
                   /\ contains_text "LOTECART" (py_strip l) = true
                   /\ split ";" (py_strip l) !! 7%nat = Some "2") lines ->
  length (collect_lotecart_lines line_num lines) = length lines
  /\ List.filter (fun line => negb (String.eqb (indicateur line) "2"))
                 (collect_lotecart_lines line_num lines) = [].
Proof.
  induction lines as [|l lines IH]; intros line_num H; [split; reflexivity|].
  inversion H as [|? ? (Hs & Hc & H7) Hrest]; subst.
  cbn [collect_lotecart_lines]. rewrite Hs, Hc. cbn [andb length List.filter indicateur].
  destruct (IH (S line_num) Hrest) as [Hlen Hfilter].
  unfold part_or_na. rewrite H7. cbn [String.eqb Ascii.eqb Bool.eqb negb].
  split; [rewrite Hlen; reflexivity | exact Hfilter].
Qed.

(** X30. The new LOTECART lines that the regenerator appends pass the
    validation.  For a file made of lines that do not start with [S;]
    followed by the appended lines (each with its line end), all of which
    start with [S;], the validation with the number of appended lines as
    expected count finds every one of them, counts every indicator as
    correct, reports no issue and succeeds. *)
Theorem validation_accepts_new_lines :
  forall (py_float : string -> option Q) (py_int : string -> option Z)
         (distributed : list Row) (original : list Orig.Row)
         (final_file_path : string) (headers written : list string),
    final_file_path <> "" ->
    appended_lines py_float py_int distributed original <> [] ->
    Forall (fun h => startswith "S;" (py_strip h) = false) headers ->
    Forall2 (fun line file_line =>
               split ";" line !! 0%nat = Some "S"
               /\ exists line_end, file_line = line ++ line_end)
            (appended_lines py_float py_int distributed original) written ->
    let expected := length (appended_lines py_float py_int distributed original) in
    validate_lotecart_processing final_file_path (Some (headers ++ written)%list) expected
    = {| success := true; lotecart_lines_found := expected; correct_indicators := expected;
         issues := [] |}.
Proof.
  intros py_float py_int distributed original final_file_path headers written
         Hpath Hne Hheaders Hwritten expected.
  assert (Hall : Forall (fun l => startswith "S;" (py_strip l) = true
                                  /\ contains_text "LOTECART" (py_strip l) = true
                                  /\ split ";" (py_strip l) !! 7%nat = Some "2") written).
  { apply List.Forall_forall. intros file_line Hin.
    apply list_elem_of_In, list_elem_of_lookup in Hin as [i Hi].
    destruct (Forall2_lookup_r _ _ _ _ _ Hwritten Hi) as (line & Hline & H0 & line_end & ->).
    destruct (appended_line_parts _ _ _ _ _ _ Hline)
      as (parts & -> & Hsplit & Hlen & Hns & _ & H7 & H14).
    rewrite Hsplit in H0.
    destruct (written_line_read_back parts line_end Hlen H0 (Forall_take _ _ _ Hns) H14)
      as (Hs & Hc & Hfield).
    split; [exact Hs|]. split; [exact Hc|]. rewrite (Hfield 7%nat) by lia. exact H7. }
  unfold validate_lotecart_processing.
  apply String.eqb_neq in Hpath. rewrite Hpath. cbn [orb].
  assert (Hexp : (expected =? 0)%nat = false).
  { apply Nat.eqb_neq. subst expected.
    destruct (appended_lines py_float py_int distributed original); [contradiction|].
    discriminate. }
  rewrite Hexp. cbv zeta.
  rewrite (collect_lotecart_lines_skip headers written 1%nat Hheaders).
  destruct (collect_lotecart_lines_all written (1 + length headers)%nat Hall)
    as [Hlen Hfilter].
  rewrite Hfilter, Hlen, <- (Forall2_length _ _ _ Hwritten). fold expected.
  rewrite Nat.ltb_irrefl. cbn [length]. rewrite Nat.sub_0_r. reflexivity.
Qed.

Lemma validation_accepts_new_lines_witness :
  let distributed :=
    map with_saisie
        (fst (create_lotecart_adjustments
                [clean_row decimal_literal (ex_counted "ART3" 0 (5 # 2))]
                [ex_stock_line; ex_stock_line'])) in
  let appended :=
    appended_lines decimal_literal ex_int distributed [ex_stock_line; ex_stock_line'] in
  validate_lotecart_processing "final.csv"
    (Some (("E;SES01;HEADER" ++ String (ascii_of_nat 10) "")
           :: map (fun line => line ++ String (ascii_of_nat 10) "") appended)) 1
  = {| success := true; lotecart_lines_found := 1; correct_indicators := 1; issues := [] |}.
Proof.
  intros distributed appended.
  assert (Happended : exists line, appended = [line] /\ split ";" line !! 0%nat = Some "S").
  { eexists. split; vm_compute; reflexivity. }
  destruct Happended as (line & Heq & H0).
  pose proof (validation_accepts_new_lines decimal_literal ex_int distributed
                [ex_stock_line; ex_stock_line'] "final.csv"
                ["E;SES01;HEADER" ++ String (ascii_of_nat 10) ""]
                (map (fun line => line ++ String (ascii_of_nat 10) "") appended)) as H.
  fold appended in H. rewrite Heq in H. cbn [map length] in H. rewrite Heq. cbn [map].
  apply H.
  - discriminate.
  - discriminate.
  - constructor; [vm_compute; reflexivity | constructor].
  - constructor; [|constructor]. split; [exact H0|]. eexists. reflexivity.
Defined.
